(** * The automation provider: completion observers, command handlers,
      handle trackers and the proxy-configuration task

    A shallow embedding of [chrome/browser/automation/automation_provider.cc].
    Heap objects that delete themselves (the notification observers) live
    in an explicit store indexed by address; the provider's members, the
    browser list and the debug log are fields of one [World] record that
    the methods thread through a state-and-failure monad.  The build that
    is modelled is a debug build: [DCHECK] and [NOTREACHED] are fatal and
    [DLOG] writes to the log. *)

From Stdlib Require Import ZArith Lia Ascii String.
From stdpp Require Import gmap strings list fin_maps.

Local Open Scope Z_scope.

(** ** Machine integers *)

(** [int] is a 32-bit two's-complement integer; arithmetic on it is
    written with its wrap-around. *)
Definition INT_MIN : Z := - 2 ^ 31.
Definition INT_MAX : Z := 2 ^ 31 - 1.

Definition wrap_int (z : Z) : Z := (z + 2 ^ 31) mod 2 ^ 32 - 2 ^ 31.

Definition is_int (z : Z) : Prop := INT_MIN <= z <= INT_MAX.

(** ** Messages on the automation channel *)

Inductive AutomationMsg_NavigationResponseValues : Type :=
  | AUTOMATION_MSG_NAVIGATION_ERROR
  | AUTOMATION_MSG_NAVIGATION_SUCCESS
  | AUTOMATION_MSG_NAVIGATION_AUTH_NEEDED.

(** One value written into a message by [WriteReplyParams] or
    [ParamTraits<..>::Write]. *)
Inductive Param : Type :=
  | ParamBool (b : bool)
  | ParamInt (z : Z)
  | ParamNavigation (v : AutomationMsg_NavigationResponseValues).

(** An [IPC::Message] that a handler received as [reply_message]: its
    identity and the parameters written into it so far, oldest first. *)
Record Message : Type := mkMessage {
  msg_id : Z;
  msg_params : list Param
}.

(** [WriteReplyParams(msg, p1, ..., pn)] appends the parameters. *)
Definition WriteReplyParams (msg : Message) (ps : list Param) : Message :=
  {| msg_id := msg_id msg; msg_params := msg_params msg ++ ps |}.

(** ** Notifications *)

Inductive NotificationType : Type :=
  | NAV_ENTRY_COMMITTED
  | LOAD_START
  | LOAD_STOP
  | AUTH_NEEDED
  | AUTH_SUPPLIED
  | TAB_PARENTED
  | TAB_CLOSING
  | TAB_CLOSED
  | BROWSER_OPENED
  | BROWSER_CLOSED
  | FIND_RESULT_AVAILABLE
  | APP_MODAL_DIALOG_SHOWN
  | DOM_OPERATION_RESPONSE.

Global Instance NotificationType_eq_dec : EqDecision NotificationType.
Proof. solve_decision. Defined.

(** Object identities ([NavigationController*], [Browser*], [TabContents*],
    [LoginHandler*]) are addresses; 0 is [NULL]. *)
Abbreviation ptr := Z (only parsing).
Definition NULL : ptr := 0.

Record FindNotificationDetails : Type := mkFindDetails {
  request_id : Z;
  number_of_matches : Z;
  active_match_ordinal : Z;
  final_update : bool
}.

Inductive NotificationDetails : Type :=
  | NoDetails
  | LoginNotificationDetails (handler : ptr)
  | FindDetails (d : FindNotificationDetails)
  | CloseAppDetails (close_app : bool).

Record Notification : Type := mkNotification {
  type : NotificationType;
  source : ptr;
  details : NotificationDetails
}.

(** A [NotificationRegistrar]: the (type, source) pairs its owner is
    subscribed to; [None] is [NotificationService::AllSources()]. *)
Definition NotificationRegistrar : Type := list (NotificationType * option ptr).

Definition registered (r : NotificationRegistrar) (n : Notification) : bool :=
  existsb (fun e =>
    bool_decide (fst e = type n) &&
    match snd e with
    | None => true
    | Some s => bool_decide (s = source n)
    end) r.

(** ** Handle tracker *)

(** The trackers ([AutomationTabTracker], [AutomationBrowserTracker],
    [AutomationWindowTracker]) are used by the provider through [Add],
    [ContainsHandle], [GetResource] and [Remove]. *)
Module HandleTracker.

(** Modelled from the spec: the tracker class template
    (automation_resource_tracker.h) is not among the sources.  The spec
    gives it the contract [Add(resource) -> handle] (idempotent: returns
    the existing handle if the resource is already tracked),
    [ContainsHandle(handle) -> bool], [GetResource(handle) ->
    resource-or-fail], [Remove(resource)], handles unique per resource
    per tracker, and auto-removal on the resource's destruction event. *)
Record t : Type := mk {
  resource_to_handle_ : gmap Z Z;
  handle_to_resource_ : gmap Z Z;
  last_handle_ : Z
}.

(** Modelled from the spec: a tracker that tracks nothing yet. *)
Definition empty : t := mk ∅ ∅ 0.

(** Modelled from the spec: [ContainsHandle(handle) -> bool]. *)
Definition ContainsHandle (h : Z) (tr : t) : bool :=
  bool_decide (is_Some (handle_to_resource_ tr !! h)).

(** Modelled from the spec: [GetResource(handle) -> resource-or-fail]. *)
Definition GetResource (h : Z) (tr : t) : option ptr :=
  handle_to_resource_ tr !! h.

(** Modelled from the spec: [Add(resource) -> handle], returning the
    existing handle if the resource is already tracked and a handle
    never issued before otherwise. *)
Definition Add (r : ptr) (tr : t) : Z * t :=
  match resource_to_handle_ tr !! r with
  | Some h => (h, tr)
  | None =>
      let h := last_handle_ tr + 1 in
      (h, mk (<[r := h]> (resource_to_handle_ tr))
             (<[h := r]> (handle_to_resource_ tr))
             h)
  end.

(** Modelled from the spec: [Remove(resource)]. *)
Definition Remove (r : ptr) (tr : t) : t :=
  match resource_to_handle_ tr !! r with
  | Some h =>
      mk (delete r (resource_to_handle_ tr))
         (delete h (handle_to_resource_ tr))
         (last_handle_ tr)
  | None => tr
  end.

(** Modelled from the spec: the tracker subscribes to the resource's
    destruction event and auto-removes on it. *)
Definition ResourceDestroyed (r : ptr) (tr : t) : t := Remove r tr.

(** What a client can do to a tracker, and the history of a tracker as
    the list of such calls. *)
Inductive op : Type :=
  | OpAdd (r : ptr)
  | OpRemove (r : ptr)
  | OpDestroyed (r : ptr).

Global Instance op_eq_dec : EqDecision op.
Proof. solve_decision. Defined.

(** One call: the tracker after it, and the handle [Add] returned. *)
Definition step (o : op) (tr : t) : t * option Z :=
  match o with
  | OpAdd r => let '(h, tr') := Add r tr in (tr', Some h)
  | OpRemove r => (Remove r tr, None)
  | OpDestroyed r => (ResourceDestroyed r tr, None)
  end.

Fixpoint run (ops : list op) (tr : t) : t * list (option Z) :=
  match ops with
  | [] => (tr, [])
  | o :: ops' =>
      let '(tr1, x) := step o tr in
      let '(tr2, xs) := run ops' tr1 in
      (tr2, x :: xs)
  end.

(** The two maps are each other's inverse and no tracked handle is above
    the last one issued. *)
Definition wf (tr : t) : Prop :=
  (forall r h, resource_to_handle_ tr !! r = Some h <->
               handle_to_resource_ tr !! h = Some r) /\
  (forall h r, handle_to_resource_ tr !! h = Some r -> h <= last_handle_ tr).

(** Read from a history: [h] was returned by an [Add] of [r] and, since
    that call, [r] was not destroyed. *)
Definition issued_not_destroyed
    (ops : list op) (rets : list (option Z)) (h : Z) (r : ptr) : Prop :=
  exists i : nat,
    ops !! i = Some (OpAdd r) /\ rets !! i = Some (Some h) /\
    forall j : nat, (i < j)%nat -> ops !! j <> Some (OpDestroyed r).

(** Read from a history: [h] was returned by an [Add] of [r] and, since
    that call, [r] was neither destroyed nor removed. *)
Definition issued_and_kept
    (ops : list op) (rets : list (option Z)) (h : Z) (r : ptr) : Prop :=
  exists i : nat,
    ops !! i = Some (OpAdd r) /\ rets !! i = Some (Some h) /\
    forall j : nat, (i < j)%nat ->
      ops !! j <> Some (OpDestroyed r) /\ ops !! j <> Some (OpRemove r).

End HandleTracker.

(** ** Observer objects *)

(** Addresses of heap-allocated observers ([this]). *)
Definition addr : Type := nat.

(** The data members of each observer class.  Every observer also holds
    [automation_], a pointer to the one provider of the [World] below; it
    is never reassigned and is left implicit. *)
Module NavigationNotificationObserver.
Record t : Type := mk {
  registrar_ : NotificationRegistrar;
  reply_message_ : option Message;
  controller_ : ptr;
  navigations_remaining_ : Z;
  navigation_started_ : bool
}.
End NavigationNotificationObserver.

Module TabClosedNotificationObserver.
Record t : Type := mk {
  registrar_ : NotificationRegistrar;
  notification_ : NotificationType;
  reply_message_ : option Message;
  for_browser_command_ : bool
}.
End TabClosedNotificationObserver.

Module BrowserCountChangeNotificationObserver.
Record t : Type := mk {
  target_count_ : Z;
  registrar_ : NotificationRegistrar;
  reply_message_ : option Message
}.
End BrowserCountChangeNotificationObserver.

Module FindInPageNotificationObserver.
Record t : Type := mk {
  registrar_ : NotificationRegistrar;
  active_match_ordinal_ : Z;
  reply_message_ : option Message
}.

Definition kFindInPageRequestId : Z := -1.
End FindInPageNotificationObserver.

Module Nav := NavigationNotificationObserver.
Module TabClosed := TabClosedNotificationObserver.
Module Count := BrowserCountChangeNotificationObserver.
Module Find := FindInPageNotificationObserver.

(** A [NotificationObserver] object, by dynamic class. *)
Inductive Observer : Type :=
  | ObsNavigation (o : Nav.t)
  | ObsTabClosed (o : TabClosed.t)
  | ObsBrowserCount (o : Count.t)
  | ObsFindInPage (o : Find.t).

Definition registrar_of (ob : Observer) : NotificationRegistrar :=
  match ob with
  | ObsNavigation o => Nav.registrar_ o
  | ObsTabClosed o => TabClosed.registrar_ o
  | ObsBrowserCount o => Count.registrar_ o
  | ObsFindInPage o => Find.registrar_ o
  end.

(** ** The browser side *)

(** A browser, its native window and the navigation controllers of its
    tabs. *)
Record Browser : Type := mkBrowser {
  browser_id : ptr;
  browser_window : ptr;
  browser_tabs : list ptr
}.

(** Calls made on browser objects; what they do to the browser is outside
    this file, the call itself is recorded. *)
Inductive BrowserCall : Type :=
  | SelectTabContentsAt (browser : ptr) (index : Z)
  | OpenURL (browser : ptr) (url : string)
  | CloseContents (browser : ptr) (tab : ptr).

(** ** The state *)

Record World : Type := mkWorld {
  (* members of AutomationProvider *)
  channel_ : option (list Message);
  notification_observer_list_ : list addr;
  login_handler_map_ : gmap Z Z;
  tab_tracker_ : HandleTracker.t;
  browser_tracker_ : HandleTracker.t;
  window_tracker_ : HandleTracker.t;
  (* the free store of observer objects *)
  objects : gmap nat Observer;
  next_object : addr;
  (* process-wide state *)
  BrowserList : list Browser;
  browser_calls : list BrowserCall;
  debug_log : list string
}.

Definition set_channel_ (x : option (list Message)) (w : World) : World :=
  mkWorld x (notification_observer_list_ w) (login_handler_map_ w)
    (tab_tracker_ w) (browser_tracker_ w) (window_tracker_ w) (objects w)
    (next_object w) (BrowserList w) (browser_calls w) (debug_log w).

Definition set_notification_observer_list_ (x : list addr) (w : World) : World :=
  mkWorld (channel_ w) x (login_handler_map_ w) (tab_tracker_ w)
    (browser_tracker_ w) (window_tracker_ w) (objects w) (next_object w)
    (BrowserList w) (browser_calls w) (debug_log w).

Definition set_login_handler_map_ (x : gmap Z Z) (w : World) : World :=
  mkWorld (channel_ w) (notification_observer_list_ w) x (tab_tracker_ w)
    (browser_tracker_ w) (window_tracker_ w) (objects w) (next_object w)
    (BrowserList w) (browser_calls w) (debug_log w).

Definition set_browser_tracker_ (x : HandleTracker.t) (w : World) : World :=
  mkWorld (channel_ w) (notification_observer_list_ w)
    (login_handler_map_ w) (tab_tracker_ w) x (window_tracker_ w)
    (objects w) (next_object w) (BrowserList w) (browser_calls w)
    (debug_log w).

Definition set_window_tracker_ (x : HandleTracker.t) (w : World) : World :=
  mkWorld (channel_ w) (notification_observer_list_ w)
    (login_handler_map_ w) (tab_tracker_ w) (browser_tracker_ w) x
    (objects w) (next_object w) (BrowserList w) (browser_calls w)
    (debug_log w).

Definition set_objects (x : gmap nat Observer) (w : World) : World :=
  mkWorld (channel_ w) (notification_observer_list_ w)
    (login_handler_map_ w) (tab_tracker_ w) (browser_tracker_ w)
    (window_tracker_ w) x (next_object w) (BrowserList w) (browser_calls w)
    (debug_log w).

Definition set_next_object (x : addr) (w : World) : World :=
  mkWorld (channel_ w) (notification_observer_list_ w)
    (login_handler_map_ w) (tab_tracker_ w) (browser_tracker_ w)
    (window_tracker_ w) (objects w) x (BrowserList w) (browser_calls w)
    (debug_log w).

Definition set_BrowserList (x : list Browser) (w : World) : World :=
  mkWorld (channel_ w) (notification_observer_list_ w)
    (login_handler_map_ w) (tab_tracker_ w) (browser_tracker_ w)
    (window_tracker_ w) (objects w) (next_object w) x (browser_calls w)
    (debug_log w).

Definition set_browser_calls (x : list BrowserCall) (w : World) : World :=
  mkWorld (channel_ w) (notification_observer_list_ w)
    (login_handler_map_ w) (tab_tracker_ w) (browser_tracker_ w)
    (window_tracker_ w) (objects w) (next_object w) (BrowserList w) x
    (debug_log w).

Definition set_debug_log (x : list string) (w : World) : World :=
  mkWorld (channel_ w) (notification_observer_list_ w)
    (login_handler_map_ w) (tab_tracker_ w) (browser_tracker_ w)
    (window_tracker_ w) (objects w) (next_object w) (BrowserList w)
    (browser_calls w) x.

(** ** Computations over the state *)

(** A method body: it either ends in a new state with a result, or the
    process dies on a failed assertion ([None]). *)
Definition Exec (A : Type) : Type := World -> option (A * World).

Global Instance Exec_ret : MRet Exec := fun A (a : A) w => Some (a, w).

Global Instance Exec_bind : MBind Exec := fun A B (k : A -> Exec B) (m : Exec A) w =>
  match m w with
  | Some (a, w') => k a w'
  | None => None
  end.

Definition fatal {A : Type} : Exec A := fun _ => None.

Definition gets {A : Type} (f : World -> A) : Exec A := fun w => Some (f w, w).

Definition modify (f : World -> World) : Exec unit := fun w => Some (tt, f w).

Definition DCHECK (b : bool) : Exec unit := if b then mret tt else fatal.

Definition NOTREACHED : Exec unit := fatal.

Definition DLOG (line : string) : Exec unit :=
  modify (fun w => set_debug_log (debug_log w ++ [line]) w).

Definition NOTIMPLEMENTED : Exec unit := DLOG "Not implemented reached".

(** *** The free store *)

Definition new (ob : Observer) : Exec addr := fun w =>
  let a := next_object w in
  Some (a, set_next_object (S a) (set_objects (<[a := ob]> (objects w)) w)).

Definition store (this : addr) (ob : Observer) : Exec unit :=
  modify (fun w => set_objects (<[this := ob]> (objects w)) w).

(** Frees the object; its registrar goes with it, so the notification
    service no longer knows the address. *)
Definition delete_object (this : addr) : Exec unit :=
  modify (fun w => set_objects (delete this (objects w)) w).

Definition load_nav (this : addr) : Exec Nav.t := fun w =>
  match objects w !! this with
  | Some (ObsNavigation o) => Some (o, w)
  | _ => None
  end.

Definition load_tab_closed (this : addr) : Exec TabClosed.t := fun w =>
  match objects w !! this with
  | Some (ObsTabClosed o) => Some (o, w)
  | _ => None
  end.

Definition load_count (this : addr) : Exec Count.t := fun w =>
  match objects w !! this with
  | Some (ObsBrowserCount o) => Some (o, w)
  | _ => None
  end.

Definition load_find (this : addr) : Exec Find.t := fun w =>
  match objects w !! this with
  | Some (ObsFindInPage o) => Some (o, w)
  | _ => None
  end.

(** *** AutomationProvider: channel, observer list, login handlers *)

(** [AutomationProvider::Send]: [DCHECK(channel_.get())], then the message
    goes out on the channel. *)
Definition Send (msg : Message) : Exec unit := fun w =>
  match channel_ w with
  | Some sent => Some (tt, set_channel_ (Some (sent ++ [msg])) w)
  | None => None
  end.

Definition RemoveNavigationStatusListener (obs : addr) : Exec unit :=
  modify (fun w =>
    set_notification_observer_list_
      (filter (fun a => a <> obs) (notification_observer_list_ w)) w).

Definition RemoveTabStripObserver (obs : addr) : Exec unit :=
  modify (fun w =>
    set_notification_observer_list_
      (filter (fun a => a <> obs) (notification_observer_list_ w)) w).

Definition AddLoginHandler (tab handler : ptr) : Exec unit :=
  modify (fun w =>
    set_login_handler_map_ (<[tab := handler]> (login_handler_map_ w)) w).

(** [DCHECK(login_handler_map_[tab])] reads through [operator[]], which
    yields [NULL] for an absent key. *)
Definition RemoveLoginHandler (tab : ptr) : Exec unit :=
  h ← gets (fun w => default NULL (login_handler_map_ w !! tab));
  DCHECK (negb (h =? NULL));;
  modify (fun w =>
    set_login_handler_map_ (delete tab (login_handler_map_ w)) w).

(** *** NavigationNotificationObserver *)

Definition NavigationNotificationObserver_ctor
    (controller : ptr) (reply_message : option Message)
    (number_of_navigations : Z) : Exec addr :=
  DCHECK (0 <? number_of_navigations);;
  new (ObsNavigation
         (Nav.mk [(NAV_ENTRY_COMMITTED, Some controller);
                  (LOAD_START, Some controller);
                  (LOAD_STOP, Some controller);
                  (AUTH_NEEDED, Some controller);
                  (AUTH_SUPPLIED, Some controller)]
                 reply_message controller number_of_navigations false)).

(** [~NavigationNotificationObserver], followed by the release of the
    object. *)
Definition NavigationNotificationObserver_dtor (this : addr) : Exec unit :=
  o ← load_nav this;
  match Nav.reply_message_ o with
  | Some m =>
      Send (WriteReplyParams m [ParamNavigation AUTOMATION_MSG_NAVIGATION_ERROR]);;
      store this (ObsNavigation
        (Nav.mk (Nav.registrar_ o) None (Nav.controller_ o)
                (Nav.navigations_remaining_ o) (Nav.navigation_started_ o)))
  | None => mret tt
  end;;
  RemoveNavigationStatusListener this;;
  delete_object this.

Definition NavigationNotificationObserver_ConditionMet
    (this : addr) (navigation_result : AutomationMsg_NavigationResponseValues)
    : Exec unit :=
  o ← load_nav this;
  match Nav.reply_message_ o with
  | None => fatal
  | Some m =>
      Send (WriteReplyParams m [ParamNavigation navigation_result]);;
      store this (ObsNavigation
        (Nav.mk (Nav.registrar_ o) None (Nav.controller_ o)
                (Nav.navigations_remaining_ o) (Nav.navigation_started_ o)));;
      NavigationNotificationObserver_dtor this
  end.

Definition set_navigation_started_ (b : bool) (o : Nav.t) : Nav.t :=
  Nav.mk (Nav.registrar_ o) (Nav.reply_message_ o) (Nav.controller_ o)
         (Nav.navigations_remaining_ o) b.

Definition set_navigations_remaining_ (n : Z) (o : Nav.t) : Nav.t :=
  Nav.mk (Nav.registrar_ o) (Nav.reply_message_ o) (Nav.controller_ o)
         n (Nav.navigation_started_ o).

Section Platform.

(** The platform the file is compiled for. *)
Variable OS_WIN : bool.

Definition NavigationNotificationObserver_Observe
    (this : addr) (n : Notification) : Exec unit :=
  o ← load_nav this;
  match type n with
  | NAV_ENTRY_COMMITTED | LOAD_START =>
      store this (ObsNavigation (set_navigation_started_ true o))
  | LOAD_STOP =>
      if Nav.navigation_started_ o then
        let remaining := wrap_int (Nav.navigations_remaining_ o - 1) in
        store this (ObsNavigation
          (set_navigations_remaining_ remaining
             (set_navigation_started_ false o)));;
        if remaining =? 0
        then NavigationNotificationObserver_ConditionMet
               this AUTOMATION_MSG_NAVIGATION_SUCCESS
        else mret tt
      else mret tt
  | AUTH_SUPPLIED =>
      RemoveLoginHandler (Nav.controller_ o);;
      store this (ObsNavigation (set_navigation_started_ true o))
  | AUTH_NEEDED =>
      if OS_WIN then
        if Nav.navigation_started_ o then
          match details n with
          | LoginNotificationDetails handler =>
              AddLoginHandler (Nav.controller_ o) handler;;
              store this (ObsNavigation (set_navigation_started_ false o));;
              NavigationNotificationObserver_ConditionMet
                this AUTOMATION_MSG_NAVIGATION_AUTH_NEEDED
          | _ => fatal
          end
        else NOTREACHED
      else NOTIMPLEMENTED
  | _ => NOTREACHED
  end.

End Platform.

(** *** TabClosedNotificationObserver (a TabStripNotificationObserver) *)

Definition TabClosedNotificationObserver_ctor
    (wait_until_closed : bool) (reply_message : option Message) : Exec addr :=
  let notification := if wait_until_closed then TAB_CLOSED else TAB_CLOSING in
  new (ObsTabClosed
         (TabClosed.mk [(notification, None)] notification reply_message false)).

Definition TabClosedNotificationObserver_ObserveTab
    (this : addr) (controller : ptr) : Exec unit :=
  o ← load_tab_closed this;
  match TabClosed.reply_message_ o with
  | None => fatal
  | Some m => Send (WriteReplyParams m [ParamBool true])
  end.

(** [TabStripNotificationObserver::Observe]. *)
Definition TabClosedNotificationObserver_Observe
    (this : addr) (n : Notification) : Exec unit :=
  o ← load_tab_closed this;
  if bool_decide (type n = TabClosed.notification_ o) then
    TabClosedNotificationObserver_ObserveTab this (source n);;
    RemoveTabStripObserver this;;
    delete_object this
  else NOTREACHED.

(** *** BrowserCountChangeNotificationObserver *)

Definition BrowserCountChangeNotificationObserver_ctor
    (target_count : Z) (reply_message : option Message) : Exec addr :=
  new (ObsBrowserCount
         (Count.mk target_count
                   [(BROWSER_OPENED, None); (BROWSER_CLOSED, None)]
                   reply_message)).

(** [static_cast<int>(BrowserList::size())]. *)
Definition BrowserList_size : Exec Z :=
  gets (fun w => wrap_int (Z.of_nat (length (BrowserList w)))).

Definition BrowserCountChangeNotificationObserver_Observe
    (this : addr) (n : Notification) : Exec unit :=
  o ← load_count this;
  DCHECK (bool_decide (type n = BROWSER_OPENED) ||
          bool_decide (type n = BROWSER_CLOSED));;
  size ← BrowserList_size;
  current_count ←
    (if bool_decide (type n = BROWSER_CLOSED) then
       DCHECK (0 <? size);;
       mret (wrap_int (size - 1))
     else mret size);
  if current_count =? Count.target_count_ o then
    match Count.reply_message_ o with
    | None => fatal
    | Some m =>
        Send (WriteReplyParams m [ParamBool true]);;
        store this (ObsBrowserCount
          (Count.mk (Count.target_count_ o) (Count.registrar_ o) None));;
        delete_object this
    end
  else mret tt.

(** *** FindInPageNotificationObserver *)

Definition FindInPageNotificationObserver_ctor
    (parent_tab : ptr) (reply_message : option Message) : Exec addr :=
  new (ObsFindInPage
         (Find.mk [(FIND_RESULT_AVAILABLE, Some parent_tab)] (-1) reply_message)).

Definition FindInPageNotificationObserver_Observe
    (this : addr) (n : Notification) : Exec unit :=
  o ← load_find this;
  if bool_decide (type n = FIND_RESULT_AVAILABLE) then
    match details n with
    | FindDetails find_details =>
        if request_id find_details =? Find.kFindInPageRequestId then
          let ordinal :=
            if -1 <? active_match_ordinal find_details
            then active_match_ordinal find_details
            else Find.active_match_ordinal_ o in
          store this (ObsFindInPage
            (Find.mk (Find.registrar_ o) ordinal (Find.reply_message_ o)));;
          if final_update find_details then
            match Find.reply_message_ o with
            | Some m =>
                Send (WriteReplyParams m
                        [ParamInt ordinal;
                         ParamInt (number_of_matches find_details)]);;
                store this (ObsFindInPage
                  (Find.mk (Find.registrar_ o) ordinal None))
            | None => DLOG "Multiple final Find messages observed."
            end
          else DLOG "Ignoring, since we only care about the final message"
        else mret tt
    | _ => fatal
    end
  else NOTREACHED.

(** *** Delivery of notifications *)

(** The virtual call [observer->Observe(type, source, details)]. *)
Definition Observe (OS_WIN : bool) (this : addr) (n : Notification)
    : Exec unit := fun w =>
  match objects w !! this with
  | Some (ObsNavigation _) => NavigationNotificationObserver_Observe OS_WIN this n w
  | Some (ObsTabClosed _) => TabClosedNotificationObserver_Observe this n w
  | Some (ObsBrowserCount _) => BrowserCountChangeNotificationObserver_Observe this n w
  | Some (ObsFindInPage _) => FindInPageNotificationObserver_Observe this n w
  | None => None
  end.

(** What the notification service does with a notification for one
    address: the observer there is called when it is alive and its
    registrar holds a matching subscription. *)
Definition deliver (OS_WIN : bool) (this : addr) (n : Notification)
    : Exec unit := fun w =>
  match objects w !! this with
  | Some ob =>
      if registered (registrar_of ob) n then Observe OS_WIN this n w
      else Some (tt, w)
  | None => Some (tt, w)
  end.

Fixpoint deliver_all (OS_WIN : bool) (this : addr) (ns : list Notification)
    : Exec unit :=
  match ns with
  | [] => mret tt
  | n :: ns' => deliver OS_WIN this n;; deliver_all OS_WIN this ns'
  end.

(** A browser is opened or closed: the browser list is what it is at the
    time of the notification, then the notification is delivered. *)
Definition browser_event (OS_WIN : bool) (this : addr)
    (e : list Browser * Notification) : Exec unit :=
  modify (set_BrowserList (fst e));;
  deliver OS_WIN this (snd e).

Fixpoint browser_events (OS_WIN : bool) (this : addr)
    (es : list (list Browser * Notification)) : Exec unit :=
  match es with
  | [] => mret tt
  | e :: es' => browser_event OS_WIN this e;; browser_events OS_WIN this es'
  end.

(** [delete observer] through the virtual destructor. *)
Definition destroy (this : addr) : Exec unit := fun w =>
  match objects w !! this with
  | Some (ObsNavigation _) => NavigationNotificationObserver_dtor this w
  | Some _ => delete_object this w
  | None => None
  end.

(** *** AutomationProvider: command handlers *)

Definition AddNavigationStatusListener
    (tab : ptr) (reply_message : option Message) (number_of_navigations : Z)
    : Exec addr :=
  observer ← NavigationNotificationObserver_ctor
               tab reply_message number_of_navigations;
  modify (fun w =>
    set_notification_observer_list_
      (notification_observer_list_ w ++ [observer]) w);;
  mret observer.

Fixpoint index_of (x : ptr) (l : list ptr) : option nat :=
  match l with
  | [] => None
  | y :: l' => if bool_decide (y = x) then Some O else S <$> index_of x l'
  end.

(** Modelled from the spec: [Browser::GetBrowserForController] belongs to
    the browser object service, an outside collaborator of this file; it
    is taken to find the first browser of the list that has the controller
    among its tabs, with the tab's index. *)
Fixpoint GetBrowserForController (controller : ptr) (browsers : list Browser)
    : option (Browser * Z) :=
  match browsers with
  | [] => None
  | b :: rest =>
      match index_of controller (browser_tabs b) with
      | Some i => Some (b, Z.of_nat i)
      | None => GetBrowserForController controller rest
      end
  end.

Definition browser_call (c : BrowserCall) : Exec unit :=
  modify (fun w => set_browser_calls (browser_calls w ++ [c]) w).

Definition FindAndActivateTab (controller : ptr) : Exec (option Browser) :=
  found ← gets (fun w => GetBrowserForController controller (BrowserList w));
  match found with
  | Some (browser, tab_index) =>
      browser_call (SelectTabContentsAt (browser_id browser) tab_index);;
      mret (Some browser)
  | None => mret None
  end.

(** [tracker->GetResource(handle)]: on a handle that is not tracked the
    call breaks its contract. *)
Definition GetResource (tracker : World -> HandleTracker.t) (handle : Z)
    : Exec ptr := fun w =>
  match HandleTracker.GetResource handle (tracker w) with
  | Some r => Some (r, w)
  | None => None
  end.

(** [tracker->ContainsHandle(handle)]. *)
Definition ContainsHandle (tracker : World -> HandleTracker.t) (handle : Z)
    : Exec bool :=
  gets (fun w => HandleTracker.ContainsHandle handle (tracker w)).

Definition NavigateToURLBlockUntilNavigationsComplete
    (handle : Z) (url : string) (number_of_navigations : Z)
    (reply_message : Message) : Exec unit :=
  let reply_error :=
    Send (WriteReplyParams reply_message
            [ParamNavigation AUTOMATION_MSG_NAVIGATION_ERROR]) in
  tracked ← ContainsHandle tab_tracker_ handle;
  if tracked : bool then
    tab ← GetResource tab_tracker_ handle;
    browser ← FindAndActivateTab tab;
    match browser with
    | Some b =>
        AddNavigationStatusListener tab (Some reply_message)
                                    number_of_navigations;;
        browser_call (OpenURL (browser_id b) url)
    | None => reply_error
    end
  else reply_error.

Definition NavigateToURL (handle : Z) (url : string) (reply_message : Message)
    : Exec unit :=
  NavigateToURLBlockUntilNavigationsComplete handle url 1 reply_message.

(** On the path of an untracked handle the reply parameters are written
    into [reply_message] and the function ends: the written message is
    passed to nothing. *)
Definition CloseTab (tab_handle : Z) (wait_until_closed : bool)
    (reply_message : Message) : Exec unit :=
  tracked ← ContainsHandle tab_tracker_ tab_handle;
  if tracked : bool then
    controller ← GetResource tab_tracker_ tab_handle;
    found ← gets (fun w => GetBrowserForController controller (BrowserList w));
    match found with
    | None => fatal
    | Some (browser, index) =>
        TabClosedNotificationObserver_ctor wait_until_closed
                                           (Some reply_message);;
        browser_call (CloseContents (browser_id browser) controller)
    end
  else
    let written := WriteReplyParams reply_message [ParamBool false] in
    mret tt.

Definition WaitForBrowserWindowCountToBecome
    (target_count : Z) (reply_message : Message) : Exec unit :=
  size ← BrowserList_size;
  if size =? target_count then
    Send (WriteReplyParams reply_message [ParamBool true])
  else
    BrowserCountChangeNotificationObserver_ctor target_count
                                                (Some reply_message);;
    mret tt.

(** Modelled from the spec: [browser->window()->GetNativeHandle()]
    belongs to the browser object service; the browser behind the pointer
    is taken to be one of the browser list and to know its window. *)
Definition GetNativeHandle (browser : ptr) : Exec ptr := fun w =>
  match List.find (fun b => bool_decide (browser_id b = browser)) (BrowserList w) with
  | Some b => Some (browser_window b, w)
  | None => None
  end.

(** [window_tracker_->Add(win)]. *)
Definition window_tracker_Add (win : ptr) : Exec Z := fun w =>
  let '(h, tr) := HandleTracker.Add win (window_tracker_ w) in
  Some (h, set_window_tracker_ tr w).

(** The result is the pair of [*success] and [*handle]. *)
Definition GetWindowForBrowser (browser_handle : Z) : Exec (bool * Z) :=
  tracked ← ContainsHandle browser_tracker_ browser_handle;
  if tracked : bool then
    browser ← GetResource browser_tracker_ browser_handle;
    win ← GetNativeHandle browser;
    handle ← window_tracker_Add win;
    mret (true, handle)
  else mret (false, 0).

Definition HandleUnused (handle : Z) : Exec unit :=
  tracked ← ContainsHandle window_tracker_ handle;
  if tracked : bool then
    window ← GetResource window_tracker_ handle;
    modify (fun w =>
      set_window_tracker_ (HandleTracker.Remove window (window_tracker_ w)) w)
  else mret tt.

(** A command of the channel, as [OnMessageReceived] decodes it. *)
Inductive Command : Type :=
  | CmdNavigateToURL (handle : Z) (url : string)
  | CmdNavigateToURLBlockUntilNavigationsComplete
      (handle : Z) (url : string) (number_of_navigations : Z)
  | CmdCloseTab (tab_handle : Z) (wait_until_closed : bool)
  | CmdWaitForBrowserWindowCountToBecome (target_count : Z).

Definition OnMessageReceived (c : Command) (reply_message : Message)
    : Exec unit :=
  match c with
  | CmdNavigateToURL handle url => NavigateToURL handle url reply_message
  | CmdNavigateToURLBlockUntilNavigationsComplete handle url n =>
      NavigateToURLBlockUntilNavigationsComplete handle url n reply_message
  | CmdCloseTab tab_handle wait_until_closed =>
      CloseTab tab_handle wait_until_closed reply_message
  | CmdWaitForBrowserWindowCountToBecome target_count =>
      WaitForBrowserWindowCountToBecome target_count reply_message
  end.

(** ** The proxy-configuration task *)

(** Modelled from the spec: the value tree of base/values.h is not among
    the sources; a deserialized document is a tree of such values and a
    dictionary is its list of entries. *)
#[local] Unset Elimination Schemes.
Inductive Value : Type :=
  | NullValue
  | BooleanValue (b : bool)
  | IntegerValue (z : Z)
  | StringValue (s : string)
  | ListValue (l : list Value)
  | DictionaryValue (entries : list (string * Value)).
#[local] Set Elimination Schemes.

Fixpoint dict_lookup (key : string) (entries : list (string * Value))
    : option Value :=
  match entries with
  | [] => None
  | (k, v) :: rest => if String.eqb k key then Some v else dict_lookup key rest
  end.

(** Modelled from the spec: [DictionaryValue::GetBoolean(key, &out)]
    succeeds when the key is present with a boolean value. *)
Definition GetBoolean (entries : list (string * Value)) (key : string)
    : option bool :=
  match dict_lookup key entries with
  | Some (BooleanValue b) => Some b
  | _ => None
  end.

(** Modelled from the spec: [DictionaryValue::GetString(key, &out)]
    succeeds when the key is present with a string value. *)
Definition GetString (entries : list (string * Value)) (key : string)
    : option string :=
  match dict_lookup key entries with
  | Some (StringValue s) => Some s
  | _ => None
  end.

Module SetProxyConfigTask.
Section Task.

(** What the task uses and this file does not define: the key names of
    chrome/common/automation_constants.h, the JSON deserializer, [GURL],
    and the parsers of net/proxy/proxy_config.h, with the types they
    fill. *)
Variables kJSONProxyNoProxy kJSONProxyAutoconfig kJSONProxyPacUrl
          kJSONProxyBypassList kJSONProxyServer : string.
Variable Deserialize : string -> option Value * string.
Variable GURL : Type.
Variable GURL_of_string : string -> GURL.
Variable ProxyRules : Type.
Variable ParseFromString : string -> ProxyRules -> ProxyRules.
Variable BypassList : Type.
Variable ParseNoProxyList : string -> BypassList -> BypassList.

(** [net::ProxyConfig]. *)
Record ProxyConfig : Type := mkProxyConfig {
  auto_detect : bool;
  pac_url : GURL;
  proxy_rules : ProxyRules;
  proxy_bypass : BypassList
}.

(** What [net::ProxyConfig pc;] constructs. *)
Variable fresh_config : ProxyConfig.

Definition set_auto_detect (b : bool) (pc : ProxyConfig) : ProxyConfig :=
  mkProxyConfig b (pac_url pc) (proxy_rules pc) (proxy_bypass pc).

Definition set_pac_url (u : GURL) (pc : ProxyConfig) : ProxyConfig :=
  mkProxyConfig (auto_detect pc) u (proxy_rules pc) (proxy_bypass pc).

Definition set_proxy_rules (r : ProxyRules) (pc : ProxyConfig) : ProxyConfig :=
  mkProxyConfig (auto_detect pc) (pac_url pc) r (proxy_bypass pc).

Definition set_proxy_bypass (l : BypassList) (pc : ProxyConfig) : ProxyConfig :=
  mkProxyConfig (auto_detect pc) (pac_url pc) (proxy_rules pc) l.

Definition PopulateProxyConfig
    (dict : list (string * Value)) (pc : ProxyConfig) : ProxyConfig :=
  match GetBoolean dict kJSONProxyNoProxy with
  | Some no_proxy => pc
  | None =>
      let pc :=
        match GetBoolean dict kJSONProxyAutoconfig with
        | Some auto_config => set_auto_detect true pc
        | None => pc
        end in
      let pc :=
        match GetString dict kJSONProxyPacUrl with
        | Some pac => set_pac_url (GURL_of_string pac) pc
        | None => pc
        end in
      let pc :=
        match GetString dict kJSONProxyBypassList with
        | Some proxy_bypass_list =>
            set_proxy_bypass
              (ParseNoProxyList proxy_bypass_list (proxy_bypass pc)) pc
        | None => pc
        end in
      match GetString dict kJSONProxyServer with
      | Some proxy_server =>
          set_proxy_rules (ParseFromString proxy_server (proxy_rules pc)) pc
      | None => pc
      end
  end.

(** The proxy service the task holds, as the configuration its
    configuration service hands out, and the debug log of the IO
    thread. *)
Record State : Type := mkState {
  proxy_service_ : ProxyConfig;
  io_log : list string
}.

Definition Run (proxy_config_ : string) (st : State) : State :=
  let '(root, error_message) := Deserialize proxy_config_ in
  match root with
  | Some (DictionaryValue dict) =>
      let pc := PopulateProxyConfig dict fresh_config in
      mkState pc (io_log st)
  | _ =>
      mkState (proxy_service_ st)
        (io_log st ++
           [String.append "Received bad JSON string for ProxyConfig: "
                          error_message])
  end.

End Task.

Arguments mkProxyConfig {GURL ProxyRules BypassList}.
Arguments auto_detect {GURL ProxyRules BypassList}.
Arguments pac_url {GURL ProxyRules BypassList}.
Arguments proxy_rules {GURL ProxyRules BypassList}.
Arguments proxy_bypass {GURL ProxyRules BypassList}.
Arguments set_auto_detect {GURL ProxyRules BypassList}.
Arguments set_pac_url {GURL ProxyRules BypassList}.
Arguments set_proxy_rules {GURL ProxyRules BypassList}.
Arguments set_proxy_bypass {GURL ProxyRules BypassList}.
Arguments mkState {GURL ProxyRules BypassList}.
Arguments proxy_service_ {GURL ProxyRules BypassList}.
Arguments io_log {GURL ProxyRules BypassList}.
Arguments PopulateProxyConfig _ _ _ _ _ {GURL} _ {ProxyRules} _ {BypassList}.
Arguments Run _ _ _ _ _ _ {GURL} _ {ProxyRules} _ {BypassList}.

End SetProxyConfigTask.

(** ** Notifications and replies the properties speak of *)

Definition load_start (controller : ptr) : Notification :=
  mkNotification LOAD_START controller NoDetails.

Definition load_stop (controller : ptr) : Notification :=
  mkNotification LOAD_STOP controller NoDetails.

(** [n] pairs of a load start followed by a load stop. *)
Fixpoint load_pairs (controller : ptr) (n : nat) : list Notification :=
  match n with
  | O => []
  | S n' => load_start controller :: load_stop controller
            :: load_pairs controller n'
  end.

Definition find_result (tab : ptr) (d : FindNotificationDetails)
    : Notification :=
  mkNotification FIND_RESULT_AVAILABLE tab (FindDetails d).

Definition navigation_reply
    (m : Message) (v : AutomationMsg_NavigationResponseValues) : Message :=
  WriteReplyParams m [ParamNavigation v].

Definition bool_reply (m : Message) (b : bool) : Message :=
  WriteReplyParams m [ParamBool b].

Definition find_reply (m : Message) (ordinal matches : Z) : Message :=
  WriteReplyParams m [ParamInt ordinal; ParamInt matches].

(** The count a browser event is judged by: the size of the browser list
    at the time, less one for a closed browser. *)
Definition adjusted_count (e : list Browser * Notification) : Z :=
  let c := Z.of_nat (length (fst e)) in
  if bool_decide (type (snd e) = BROWSER_CLOSED) then c - 1 else c.

(** A browser event as the browser list publishes it: opened or closed,
    a count that fits [int], and the closing browser still in the list. *)
Definition browser_event_ok (e : list Browser * Notification) : Prop :=
  (type (snd e) = BROWSER_OPENED \/ type (snd e) = BROWSER_CLOSED) /\
  Z.of_nat (length (fst e)) <= INT_MAX /\
  (type (snd e) = BROWSER_CLOSED -> 0 < Z.of_nat (length (fst e))).

(** The ordinal the find observer holds after a run of results, from the
    one it held before: a result's ordinal replaces it when above -1. *)
Fixpoint running_ordinal (seen : Z) (ds : list FindNotificationDetails) : Z :=
  match ds with
  | [] => seen
  | d :: ds' =>
      running_ordinal
        (if -1 <? active_match_ordinal d then active_match_ordinal d else seen)
        ds'
  end.

(** The last ordinal of a run of results that is not -1, [seen] if there
    is none. *)
Fixpoint last_ordinal_but_minus_one
    (seen : Z) (ds : list FindNotificationDetails) : Z :=
  match ds with
  | [] => seen
  | d :: ds' =>
      last_ordinal_but_minus_one
        (if active_match_ordinal d =? -1 then seen else active_match_ordinal d)
        ds'
  end.

(** A result of the one search in flight that is not the last. *)
Definition partial_result (d : FindNotificationDetails) : Prop :=
  request_id d = Find.kFindInPageRequestId /\ final_update d = false.

(** A result of the one search in flight flagged as the final update. *)
Definition final_result (d : FindNotificationDetails) : Prop :=
  request_id d = Find.kFindInPageRequestId /\ final_update d = true.

(** A provider that is connected to its channel and has done nothing
    yet. *)
Definition connected_provider : World :=
  mkWorld (Some []) [] ∅ HandleTracker.empty HandleTracker.empty
    HandleTracker.empty ∅ O [] [] [].

(** The subscriptions a navigation observer takes out in its
    constructor. *)
Definition nav_registrar (c : ptr) : NotificationRegistrar :=
  [(NAV_ENTRY_COMMITTED, Some c); (LOAD_START, Some c); (LOAD_STOP, Some c);
   (AUTH_NEEDED, Some c); (AUTH_SUPPLIED, Some c)].

(** The navigation observer at [a] holds the reply [m] and waits for [n]
    more navigations of [c]. *)
Definition nav_waiting (w : World) (a : addr) (c : ptr) (m : Message)
    (n : Z) (started : bool) : Prop :=
  objects w !! a =
    Some (ObsNavigation (Nav.mk (nav_registrar c) (Some m) c n started)).

(** The subscriptions a count observer takes out in its constructor. *)
Definition count_registrar : NotificationRegistrar :=
  [(BROWSER_OPENED, None); (BROWSER_CLOSED, None)].

(** The count observer at [a] holds the reply [m] and waits for the
    browser count [target]. *)
Definition count_waiting (w : World) (a : addr) (target : Z) (m : Message)
    : Prop :=
  objects w !! a =
    Some (ObsBrowserCount (Count.mk target count_registrar (Some m))).

(** The find observer at [a], subscribed to the results of [tab], with
    the ordinal and the reply it holds. *)
Definition find_state (w : World) (a : addr) (tab : ptr) (ordinal : Z)
    (reply : option Message) : Prop :=
  objects w !! a =
    Some (ObsFindInPage
            (Find.mk [(FIND_RESULT_AVAILABLE, Some tab)] ordinal reply)).

(** A document the deserializer does not turn into a dictionary. *)
Definition not_a_dictionary (root : option Value) : Prop :=
  match root with
  | Some (DictionaryValue _) => False
  | _ => True
  end.

(** Sample data for the worked instances. *)
Definition sample_reply : Message := mkMessage 1 [].
Definition sample_tab : ptr := 5.
Definition sample_events : list Notification := load_pairs sample_tab 2.
Definition sample_observer : Nav.t :=
  Nav.mk (nav_registrar sample_tab) (Some sample_reply) sample_tab 1 true.

(** A stand-in for what the task takes from outside, for the worked
    instances: URLs, proxy rules and bypass lists kept as the text they
    were given, a configuration with everything off for the freshly
    constructed one, and a deserializer that knows two documents. *)
Module Sample.
Import SetProxyConfigTask.

Definition quote : string := String "034"%char EmptyString.

Definition quoted (s : string) : string :=
  String.append quote (String.append s quote).

Definition no_proxy_document : string :=
  String.append "{" (String.append (quoted "no_proxy") ": true}").

Definition pac_url_document : string :=
  String.append "{"
    (String.append (quoted "pac_url")
       (String.append ": "
          (String.append (quoted "http://config.test/proxy.pac") "}"))).

Definition no_proxy_dict : list (string * Value) :=
  [("no_proxy", BooleanValue true)].

Definition pac_url_dict : list (string * Value) :=
  [("pac_url", StringValue "http://config.test/proxy.pac")].

Definition Deserialize (text : string) : option Value * string :=
  if String.eqb text no_proxy_document
  then (Some (DictionaryValue no_proxy_dict), "")
  else if String.eqb text pac_url_document
  then (Some (DictionaryValue pac_url_dict), "")
  else (None, "Line: 1, column: 1, Syntax error.").

Definition Config : Type := ProxyConfig string string (list string).

Definition fresh_config : Config := mkProxyConfig false "" "" [].

Definition existing_config : Config :=
  mkProxyConfig true "http://wpad.test/wpad.dat" "" [].

Definition Populate (dict : list (string * Value)) (pc : Config) : Config :=
  PopulateProxyConfig
    "no_proxy" "auto_detect" "pac_url" "bypass_list" "proxy_server"
    (fun s => s) (fun s _ => s) (fun s _ => [s]) dict pc.

Definition RunTask (document : string)
    (st : State string string (list string))
    : State string string (list string) :=
  Run "no_proxy" "auto_detect" "pac_url" "bypass_list" "proxy_server"
      Deserialize (fun s => s) (fun s _ => s) (fun s _ => [s])
      fresh_config document st.
End Sample.

(** A history in which a window is registered and then given up by the
    client, as [HandleUnused] does. *)
Definition sample_history : list HandleTracker.op :=
  [HandleTracker.OpAdd 100; HandleTracker.OpRemove 100].

(** A connected provider with one browser, whose window is 100, tracked
    under browser handle 1. *)
Definition sample_provider : World :=
  set_browser_tracker_ (snd (HandleTracker.Add 9 HandleTracker.empty))
    (set_BrowserList [mkBrowser 9 100 [5]] connected_provider).

Definition sample_browsers (n : nat) : list Browser :=
  replicate n (mkBrowser 9 100 []).

Definition sample_results : list FindNotificationDetails :=
  [mkFindDetails (-1) 0 (-1) false; mkFindDetails (-1) 4 2 false;
   mkFindDetails (-1) 4 (-1) false].

Definition sample_final : FindNotificationDetails :=
  mkFindDetails (-1) 4 (-1) true.

(** ** More of the provider *)

Definition set_tab_tracker_ (x : HandleTracker.t) (w : World) : World :=
  mkWorld (channel_ w) (notification_observer_list_ w) (login_handler_map_ w)
    x (browser_tracker_ w) (window_tracker_ w) (objects w) (next_object w)
    (BrowserList w) (browser_calls w) (debug_log w).

(** Modelled from the spec: reading a member through a [Browser*] belongs
    to the browser object service; the browser behind the pointer is taken
    to be one of the browser list. *)
Definition Browser_at (browser : ptr) : Exec Browser := fun w =>
  match List.find (fun b => bool_decide (browser_id b = browser))
                  (BrowserList w) with
  | Some b => Some (b, w)
  | None => None
  end.

(** [browser->tab_count()], an [int]. *)
Definition tab_count (b : Browser) : Z :=
  wrap_int (Z.of_nat (length (browser_tabs b))).

(** [tab_tracker_->Add(controller)]. *)
Definition tab_tracker_Add (controller : ptr) : Exec Z := fun w =>
  let '(h, tr) := HandleTracker.Add controller (tab_tracker_ w) in
  Some (h, set_tab_tracker_ tr w).

(** [browser_tracker_->Add(browser)]. *)
Definition browser_tracker_Add (browser : ptr) : Exec Z := fun w =>
  let '(h, tr) := HandleTracker.Add browser (browser_tracker_ w) in
  Some (h, set_browser_tracker_ tr w).

(** The result is [*status]. *)
Definition ActivateTab (handle at_index : Z) : Exec Z :=
  tracked ← ContainsHandle browser_tracker_ handle;
  if (tracked : bool) && (-1 <? at_index) then
    browser ← GetResource browser_tracker_ handle;
    b ← Browser_at browser;
    if (0 <=? at_index) && (at_index <? tab_count b) then
      browser_call (SelectTabContentsAt browser at_index);;
      mret 0
    else mret (-1)
  else mret (-1).

(** The result is [*tab_count]. *)
Definition GetTabCount (handle : Z) : Exec Z :=
  tracked ← ContainsHandle browser_tracker_ handle;
  if tracked : bool then
    browser ← GetResource browser_tracker_ handle;
    b ← Browser_at browser;
    mret (tab_count b)
  else mret (-1).

(** The result is [*tab_handle]. *)
Definition GetTab (win_handle tab_index : Z) : Exec Z :=
  tracked ← ContainsHandle browser_tracker_ win_handle;
  if (tracked : bool) && (0 <=? tab_index) then
    browser ← GetResource browser_tracker_ win_handle;
    b ← Browser_at browser;
    if tab_index <? tab_count b then
      match browser_tabs b !! Z.to_nat tab_index with
      | Some controller => tab_tracker_Add controller
      | None => fatal
      end
    else mret 0
  else mret 0.

(** The loop [for (; (iter != end) && (index > 0); ++iter, --index);]:
    what is left of the browser list at the iterator. *)
Fixpoint BrowserList_advance (iter : list Browser) (index : Z)
    : list Browser :=
  match iter with
  | [] => []
  | _ :: rest =>
      if 0 <? index then BrowserList_advance rest (wrap_int (index - 1))
      else iter
  end.

(** The result is [*handle]. *)
Definition GetBrowserWindow (index : Z) : Exec Z :=
  if 0 <=? index then
    browsers ← gets BrowserList;
    match BrowserList_advance browsers index with
    | b :: _ => browser_tracker_Add (browser_id b)
    | [] => mret 0
    end
  else mret 0.

(** The result is [*window_count]. *)
Definition GetBrowserWindowCount : Exec Z := BrowserList_size.

(** The result is [*status]. *)
Definition NavigationAsync (handle : Z) (url : string) : Exec bool :=
  tracked ← ContainsHandle tab_tracker_ handle;
  if tracked : bool then
    tab ← GetResource tab_tracker_ handle;
    browser ← FindAndActivateTab tab;
    match browser with
    | Some b => browser_call (OpenURL (browser_id b) url);; mret true
    | None => mret false
    end
  else mret false.

(** The result is [*needs_auth]. *)
Definition NeedsAuth (tab_handle : Z) : Exec bool :=
  tracked ← ContainsHandle tab_tracker_ tab_handle;
  if tracked : bool then
    tab ← GetResource tab_tracker_ tab_handle;
    found ← gets (fun w => login_handler_map_ w !! tab);
    match found with
    | Some _ => mret true
    | None => mret false
    end
  else mret false.

(** The result is [*tabstrip_index]; [kNoTab] is
    [TabStripModel::kNoTab], what [GetIndexOfController] answers for a
    controller the tab strip does not have. *)
Definition GetTabIndex (kNoTab : Z) (handle : Z) : Exec Z :=
  tracked ← ContainsHandle tab_tracker_ handle;
  if tracked : bool then
    tab ← GetResource tab_tracker_ handle;
    found ← gets (fun w => GetBrowserForController tab (BrowserList w));
    match found with
    | Some (browser, _) =>
        mret (match index_of tab (browser_tabs browser) with
              | Some i => Z.of_nat i
              | None => kNoTab
              end)
    | None => fatal
    end
  else mret (-1).

(** The loop at the end of [~AutomationProvider] over
    [notification_observer_list_].  Modelled from the spec: the iterator
    of base/observer_list.h is not among the sources; it is taken to walk
    the observers that were on the list when the loop began, in order,
    and to pass over one that has left the list in the meantime. *)
Fixpoint delete_observers (snapshot : list addr) : Exec unit :=
  match snapshot with
  | [] => mret tt
  | observer :: rest =>
      listed ← gets (fun w =>
        bool_decide (observer ∈ notification_observer_list_ w));
      (if listed : bool then destroy observer else mret tt);;
      delete_observers rest
  end.

Definition delete_outstanding_observers : Exec unit :=
  snapshot ← gets notification_observer_list_;
  delete_observers snapshot.

(** The reply a navigation observer at an address still holds. *)
Definition pending_reply (w : World) (a : addr) : option Message :=
  match objects w !! a with
  | Some (ObsNavigation o) => Nav.reply_message_ o
  | _ => None
  end.

(** *** InitialLoadObserver *)

(** The observer is owned by the provider ([initial_load_observer_]) and
    never deletes itself; its state is passed along explicitly.  The
    counts are [size_t]; they are only compared. *)
Module InitialLoadObserver.
Record t : Type := mk {
  registrar_ : NotificationRegistrar;
  outstanding_tab_count_ : nat;
  loading_tabs_ : gset Z;
  finished_tabs_ : gset Z
}.
End InitialLoadObserver.

Module Initial := InitialLoadObserver.

(** [new AutomationMsg_InitialLoadsComplete(routing_id)]: a message
    without parameters. *)
Definition AutomationMsg_InitialLoadsComplete (routing_id : Z) : Message :=
  mkMessage routing_id [].

Definition InitialLoadObserver_ctor (tab_count : nat) : Initial.t :=
  Initial.mk
    (if (0 <? tab_count)%nat
     then [(LOAD_START, None); (LOAD_STOP, None)] else [])
    tab_count ∅ ∅.

Definition InitialLoadObserver_ConditionMet (o : Initial.t) : Exec Initial.t :=
  let o := Initial.mk [] (Initial.outstanding_tab_count_ o)
             (Initial.loading_tabs_ o) (Initial.finished_tabs_ o) in
  Send (AutomationMsg_InitialLoadsComplete 0);;
  mret o.

Definition InitialLoadObserver_Observe (o : Initial.t) (n : Notification)
    : Exec Initial.t :=
  if bool_decide (type n = LOAD_START) then
    if (size (Initial.loading_tabs_ o) <? Initial.outstanding_tab_count_ o)%nat
    then mret (Initial.mk (Initial.registrar_ o)
                 (Initial.outstanding_tab_count_ o)
                 ({[source n]} ∪ Initial.loading_tabs_ o)
                 (Initial.finished_tabs_ o))
    else mret o
  else if bool_decide (type n = LOAD_STOP) then
    if (size (Initial.finished_tabs_ o) <? Initial.outstanding_tab_count_ o)%nat
    then
      let o :=
        if bool_decide (source n ∈ Initial.loading_tabs_ o)
        then Initial.mk (Initial.registrar_ o)
               (Initial.outstanding_tab_count_ o)
               (Initial.loading_tabs_ o)
               ({[source n]} ∪ Initial.finished_tabs_ o)
        else o in
      if (Initial.outstanding_tab_count_ o =? size (Initial.finished_tabs_ o))%nat
      then InitialLoadObserver_ConditionMet o
      else mret o
    else mret o
  else NOTREACHED;; mret o.

(** What the notification service does with a notification for the
    observer. *)
Definition InitialLoadObserver_deliver (o : Initial.t) (n : Notification)
    : Exec Initial.t :=
  if registered (Initial.registrar_ o) n
  then InitialLoadObserver_Observe o n
  else mret o.

Fixpoint InitialLoadObserver_deliver_all
    (o : Initial.t) (ns : list Notification) : Exec Initial.t :=
  match ns with
  | [] => mret o
  | n :: ns' =>
      o' ← InitialLoadObserver_deliver o n;
      InitialLoadObserver_deliver_all o' ns'
  end.

(** [SetExpectedTabCount]: the result is the observer
    [initial_load_observer_] is reset to, if it is reset. *)
Definition SetExpectedTabCount (expected_tabs : nat)
    : Exec (option Initial.t) :=
  if (expected_tabs =? 0)%nat then
    Send (AutomationMsg_InitialLoadsComplete 0);;
    mret None
  else mret (Some (InitialLoadObserver_ctor expected_tabs)).

(** *** Port containers *)

(** An [ExtensionPortContainer]: the object and the port id it answers
    with. *)
Record ExtensionPortContainer : Type := mkPort {
  port_object : ptr;
  port_id : Z
}.

(** [port_containers_], passed along explicitly; a failed [DCHECK] is
    [None]. *)
Definition AddPortContainer (port : ExtensionPortContainer)
    (port_containers_ : gmap Z ptr) : option (gmap Z ptr) :=
  if bool_decide (port_id port = -1) then None
  else match port_containers_ !! port_id port with
       | Some _ => None
       | None => Some (<[port_id port := port_object port]> port_containers_)
       end.

(** The result is the map and the object that was deleted. *)
Definition RemovePortContainer (port : ExtensionPortContainer)
    (port_containers_ : gmap Z ptr) : option (gmap Z ptr * ptr) :=
  if bool_decide (port_id port = -1) then None
  else match port_containers_ !! port_id port with
       | Some stored => Some (delete (port_id port) port_containers_, stored)
       | None => None
       end.

Definition GetPortContainer (id : Z) (port_containers_ : gmap Z ptr) : ptr :=
  match port_containers_ !! id with
  | Some stored => stored
  | None => NULL
  end.

(** *** Browser events from the external host *)

Module ExternalHost.
Section Intercept.

(** The constants of extension_automation_constants.h and the JSON
    reader, which this file does not define. *)
Variables kAutomationBrowserEventRequestTarget kAutomationOrigin : string.
Variable JSONReader_Read : string -> option Value.

(** Modelled from the spec: [ListValue::GetString(index, &out)] succeeds
    when the list has a string at the index. *)
Definition ListValue_GetString (args : list Value) (index : nat)
    : option string :=
  match args !! index with
  | Some (StringValue s) => Some s
  | _ => None
  end.

(** What a call leaves behind: the answer, the warnings logged, and the
    event handed to [DispatchEventToRenderers], if any. *)
Record Outcome : Type := mkOutcome {
  intercepted : bool;
  warnings : list string;
  dispatched : option (string * string)
}.

(** [has_message_service] tells whether
    [profile()->GetExtensionMessageService()] is there. *)
Definition InterceptBrowserEventMessageFromExternalHost
    (has_message_service : bool) (message origin target : string) : Outcome :=
  if negb (String.eqb target kAutomationBrowserEventRequestTarget) then
    mkOutcome false [] None
  else if negb (String.eqb origin kAutomationOrigin) then
    mkOutcome false
      [String.append "Wrong origin on automation browser event " origin] None
  else
    match JSONReader_Read message with
    | Some (ListValue args) =>
        match ListValue_GetString args 0 with
        | None =>
            mkOutcome false
              ["No browser event name specified through automation"] None
        | Some event_name =>
            match ListValue_GetString args 1 with
            | None =>
                mkOutcome false
                  ["No browser event args specified through automation"] None
            | Some json_args =>
                mkOutcome true []
                  (if has_message_service
                   then Some (event_name, json_args) else None)
            end
        end
    | _ =>
        mkOutcome false
          ["Invalid browser event specified through automation"] None
    end.

End Intercept.
End ExternalHost.

(** ** What the further properties speak of *)

(** The reply a navigation observer at an address sends from its
    destructor, if it still holds one. *)
Definition error_reply_of (w : World) (a : addr) : option Message :=
  (fun m => navigation_reply m AUTOMATION_MSG_NAVIGATION_ERROR)
    <$> pending_reply w a.

(** The subscriptions an initial-load observer takes out in its
    constructor when it expects tabs. *)
Definition initial_registrar : NotificationRegistrar :=
  [(LOAD_START, None); (LOAD_STOP, None)].

(** The state of an initial-load observer for [N] tabs and the channel
    belong together: while fewer than [N] tabs have finished the observer
    is subscribed and nothing was sent; once [N] have finished it is
    unsubscribed and the one message is out. *)
Definition initial_inv (N : nat) (sent : list Message)
    (o : Initial.t) (w : World) : Prop :=
  Initial.outstanding_tab_count_ o = N /\
  Initial.finished_tabs_ o ⊆ Initial.loading_tabs_ o /\
  (size (Initial.loading_tabs_ o) <= N)%nat /\
  ((Initial.registrar_ o = initial_registrar /\
    (size (Initial.finished_tabs_ o) < N)%nat /\
    channel_ w = Some sent) \/
   (Initial.registrar_ o = [] /\
    size (Initial.finished_tabs_ o) = N /\
    channel_ w = Some (sent ++ [AutomationMsg_InitialLoadsComplete 0]))).

(** More sample data: the sample provider with its tab tracked under tab
    handle 1. *)
Definition sample_tab_provider : World :=
  set_tab_tracker_ (snd (HandleTracker.Add sample_tab HandleTracker.empty))
    sample_provider.

(** The same provider while the sample observer, at address 0, waits for
    the last navigation of the sample tab. *)
Definition sample_waiting : World :=
  set_objects {[O := ObsNavigation sample_observer]}
    (set_next_object 1%nat
       (set_notification_observer_list_ [O] sample_tab_provider)).

Definition sample_login_handler : ptr := 77.

(** The same while the login prompt of the sample tab is up. *)
Definition sample_prompting : World :=
  set_login_handler_map_ {[sample_tab := sample_login_handler]} sample_waiting.

(** A provider with two navigation observers on its list and a count
    observer that is not on it. *)
Definition sample_two_listeners : World :=
  set_objects
    (<[2%nat := ObsBrowserCount
                  (Count.mk 3 count_registrar (Some (mkMessage 4 [])))]>
       (<[1%nat := ObsNavigation
                     (Nav.mk (nav_registrar 6) (Some (mkMessage 2 [])) 6 1
                             false)]>
          {[O := ObsNavigation sample_observer]}))
    (set_next_object 3%nat
       (set_notification_observer_list_ [O; 1%nat] sample_tab_provider)).

Definition sample_port : ExtensionPortContainer := mkPort 40 3.

(** A document that asks for no automatic configuration and names a
    proxy server. *)
Definition sample_autoconfig_off_dict : list (string * Value) :=
  [("auto_detect", BooleanValue false);
   ("proxy_server", StringValue "proxy.test:8080")].

(** * Properties *)

(** ** Integers *)

Lemma wrap_int_id z : is_int z -> wrap_int z = z.
Proof.
  unfold is_int, INT_MIN, INT_MAX, wrap_int. intros H.
  rewrite Z.mod_small; lia.
Qed.

Lemma wrap_int_range z : is_int (wrap_int z).
Proof.
  unfold is_int, INT_MIN, INT_MAX, wrap_int.
  pose proof (Z.mod_pos_bound (z + 2 ^ 31) (2 ^ 32)). lia.
Qed.

(** ** Running method bodies *)

Lemma bind_Some {A B} (m : Exec A) (k : A -> Exec B) w a w' :
  m w = Some (a, w') -> (m ≫= k) w = k a w'.
Proof. intros H. unfold mbind, Exec_bind. by rewrite H. Qed.

Ltac exec_unfold :=
  unfold ContainsHandle, GetResource, browser_call, BrowserList_size,
    RemoveNavigationStatusListener, RemoveTabStripObserver,
    NOTIMPLEMENTED, NOTREACHED, DCHECK, DLOG, store, delete_object, new,
    Send, load_nav, load_count, load_find, load_tab_closed,
    gets, modify, fatal, mbind, mret, Exec_bind, Exec_ret.

Ltac exec_run :=
  repeat (cbn;
    first [ rewrite lookup_insert_eq | rewrite lookup_delete_eq
          | match goal with
            | H : ?x = _ |- context [match ?x with _ => _ end] => rewrite H
            | H : ?x = _ |- context [if ?x then _ else _] => rewrite H
            end ]).

Lemma registered_source r n :
  In (type n, Some (source n)) r -> registered r n = true.
Proof.
  intros H. unfold registered. apply existsb_exists.
  exists (type n, Some (source n)). split; [done|]. cbn.
  by rewrite !bool_decide_eq_true_2.
Qed.

Lemma registered_all r n :
  In (type n, None) r -> registered r n = true.
Proof.
  intros H. unfold registered. apply existsb_exists.
  exists (type n, None). split; [done|]. cbn.
  by rewrite bool_decide_eq_true_2.
Qed.

Lemma deliver_gone OS_WIN a n w :
  objects w !! a = None -> deliver OS_WIN a n w = Some (tt, w).
Proof. intros H. unfold deliver. by rewrite H. Qed.

Lemma deliver_all_gone OS_WIN a ns w :
  objects w !! a = None -> deliver_all OS_WIN a ns w = Some (tt, w).
Proof.
  intros H. induction ns as [|n ns IH]; [done|].
  cbn [deliver_all]. erewrite bind_Some by (by apply deliver_gone). done.
Qed.

Lemma deliver_all_app OS_WIN a ns1 ns2 w w1 :
  deliver_all OS_WIN a ns1 w = Some (tt, w1) ->
  deliver_all OS_WIN a (ns1 ++ ns2) w = deliver_all OS_WIN a ns2 w1.
Proof.
  revert w. induction ns1 as [|n ns1 IH]; intros w H.
  - cbn in H. by injection H as ->.
  - cbn [deliver_all app] in *. unfold mbind, Exec_bind in *.
    destruct (deliver OS_WIN a n w) as [[[] w']|]; [|done]. by apply IH.
Qed.

(** ** The navigation observer *)

Lemma nav_ctor w c m n :
  0 < n ->
  exists w0,
    NavigationNotificationObserver_ctor c (Some m) n w = Some (next_object w, w0) /\
    nav_waiting w0 (next_object w) c m n false /\
    channel_ w0 = channel_ w.
Proof.
  intros Hn. unfold NavigationNotificationObserver_ctor, nav_waiting.
  exec_unfold. assert ((0 <? n) = true) as -> by lia.
  eexists. split; [reflexivity|]. cbn. by rewrite lookup_insert_eq.
Qed.

Lemma nav_deliver_start OS_WIN w a c m n started :
  nav_waiting w a c m n started ->
  exists w',
    deliver OS_WIN a (load_start c) w = Some (tt, w') /\
    nav_waiting w' a c m n true /\
    channel_ w' = channel_ w.
Proof.
  unfold nav_waiting. intros H. unfold deliver. rewrite H. cbn [registrar_of].
  rewrite registered_source by (cbn; tauto).
  unfold Observe. rewrite H.
  unfold NavigationNotificationObserver_Observe. exec_unfold. rewrite H.
  eexists. split; [reflexivity|]. cbn. by rewrite lookup_insert_eq.
Qed.

Lemma nav_deliver_stop_more OS_WIN w a c m n :
  nav_waiting w a c m n true ->
  1 < n <= INT_MAX ->
  exists w',
    deliver OS_WIN a (load_stop c) w = Some (tt, w') /\
    nav_waiting w' a c m (n - 1) false /\
    channel_ w' = channel_ w.
Proof.
  unfold nav_waiting. intros H Hn. unfold deliver. rewrite H. cbn [registrar_of].
  rewrite registered_source by (cbn; tauto).
  unfold Observe. rewrite H.
  unfold NavigationNotificationObserver_Observe. exec_unfold. rewrite H.
  cbn. rewrite wrap_int_id by (unfold is_int, INT_MIN, INT_MAX in *; lia).
  assert ((n - 1 =? 0) = false) as -> by lia.
  eexists. split; [reflexivity|]. cbn. by rewrite lookup_insert_eq.
Qed.

Lemma nav_deliver_stop_last OS_WIN w a c m sent :
  nav_waiting w a c m 1 true ->
  channel_ w = Some sent ->
  exists w',
    deliver OS_WIN a (load_stop c) w = Some (tt, w') /\
    channel_ w' =
      Some (sent ++ [navigation_reply m AUTOMATION_MSG_NAVIGATION_SUCCESS]) /\
    objects w' !! a = None.
Proof.
  unfold nav_waiting. intros H C. unfold deliver. rewrite H. cbn [registrar_of].
  rewrite registered_source by (cbn; tauto).
  unfold Observe. rewrite H.
  unfold NavigationNotificationObserver_Observe,
    NavigationNotificationObserver_ConditionMet,
    NavigationNotificationObserver_dtor.
  destruct w; cbn in *. exec_unfold. exec_run.
  change (wrap_int _) with 0. exec_run.
  eexists. split; [reflexivity|]. exec_run. done.
Qed.

Lemma deliver_all_two OS_WIN a n1 n2 ns w w1 w2 :
  deliver OS_WIN a n1 w = Some (tt, w1) ->
  deliver OS_WIN a n2 w1 = Some (tt, w2) ->
  deliver_all OS_WIN a (n1 :: n2 :: ns) w = deliver_all OS_WIN a ns w2.
Proof.
  intros H1 H2. cbn [deliver_all].
  erewrite bind_Some by exact H1. erewrite bind_Some by exact H2. done.
Qed.

Lemma nav_waiting_alive w a c m n started :
  nav_waiting w a c m n started -> is_Some (objects w !! a).
Proof. unfold nav_waiting. intros ->. eauto. Qed.

(** The run of [S n] start/stop pairs against an observer that waits for
    [S n] navigations: silent on every proper prefix, one success reply
    and the observer gone at the end. *)
Lemma nav_pairs OS_WIN a c m sent n :
  forall w,
    nav_waiting w a c m (Z.of_nat (S n)) false ->
    Z.of_nat (S n) <= INT_MAX ->
    channel_ w = Some sent ->
    (forall k, (k < 2 * S n)%nat ->
       exists wk,
         deliver_all OS_WIN a (take k (load_pairs c (S n))) w = Some (tt, wk) /\
         channel_ wk = Some sent /\ is_Some (objects wk !! a)) /\
    (exists w1,
       deliver_all OS_WIN a (load_pairs c (S n)) w = Some (tt, w1) /\
       channel_ w1 =
         Some (sent ++ [navigation_reply m AUTOMATION_MSG_NAVIGATION_SUCCESS]) /\
       objects w1 !! a = None).
Proof.
  induction n as [|n IH]; intros w Hw Hmax Hch.
  - destruct (nav_deliver_start OS_WIN _ _ _ _ _ _ Hw) as (w1 & E1 & Hw1 & C1).
    change (Z.of_nat 1) with 1 in Hw1.
    destruct (nav_deliver_stop_last OS_WIN w1 a c m sent Hw1) as (w2 & E2 & C2 & G2);
      [congruence|].
    split.
    + intros k Hk. destruct k as [|[|k]]; [| |lia].
      * exists w. cbn. eauto using nav_waiting_alive.
      * exists w1. cbn [take load_pairs deliver_all].
        erewrite bind_Some by exact E1. split; [done|].
        split; [congruence|]. eauto using nav_waiting_alive.
    + exists w2. cbn [load_pairs].
      erewrite deliver_all_two by eassumption. done.
  - destruct (nav_deliver_start OS_WIN _ _ _ _ _ _ Hw) as (w1 & E1 & Hw1 & C1).
    destruct (nav_deliver_stop_more OS_WIN w1 a c m _ Hw1) as (w2 & E2 & Hw2 & C2);
      [lia|].
    replace (Z.of_nat (S (S n)) - 1) with (Z.of_nat (S n)) in Hw2 by lia.
    destruct (IH w2 Hw2) as [IHpre IHall]; [lia|congruence|].
    split.
    + intros k Hk. destruct k as [|[|k]].
      * exists w. cbn. eauto using nav_waiting_alive.
      * exists w1. cbn [take load_pairs deliver_all].
        erewrite bind_Some by exact E1. split; [done|].
        split; [congruence|]. eauto using nav_waiting_alive.
      * destruct (IHpre k) as (wk & Ek & Ck & Ak); [lia|].
        exists wk. change (load_pairs c (S (S n)))
          with (load_start c :: load_stop c :: load_pairs c (S n)).
        cbn [take]. erewrite deliver_all_two by eassumption. done.
    + destruct IHall as (w3 & E3 & C3 & G3). exists w3.
      change (load_pairs c (S (S n)))
        with (load_start c :: load_stop c :: load_pairs c (S n)).
      erewrite deliver_all_two by eassumption. done.
Qed.

Lemma load_pairs_length c n : length (load_pairs c n) = (2 * n)%nat.
Proof. induction n as [|n IH]; cbn [load_pairs length]; lia. Qed.

(** C2. A navigation observer constructed for [N >= 1] navigations and
    given [N] pairs of a load start followed by a load stop sends nothing
    while fewer than all [2N] notifications have arrived, and on the
    [N]th load stop sends the reply once, with
    [AUTOMATION_MSG_NAVIGATION_SUCCESS] written into it, and is gone
    (Done); whatever is published afterwards reaches no observer and
    leaves the channel as it is. *)
Theorem navigation_observer_succeeds_on_nth_stop
    (OS_WIN : bool) (w : World) (c : ptr) (m : Message) (N : Z)
    (sent : list Message) :
  channel_ w = Some sent ->
  1 <= N <= INT_MAX ->
  let a := next_object w in
  let events := load_pairs c (Z.to_nat N) in
  exists w0,
    NavigationNotificationObserver_ctor c (Some m) N w = Some (a, w0) /\
    (forall k, (k < length events)%nat ->
       exists wk,
         deliver_all OS_WIN a (take k events) w0 = Some (tt, wk) /\
         channel_ wk = Some sent /\ is_Some (objects wk !! a)) /\
    (exists w1,
       deliver_all OS_WIN a events w0 = Some (tt, w1) /\
       channel_ w1 =
         Some (sent ++ [navigation_reply m AUTOMATION_MSG_NAVIGATION_SUCCESS]) /\
       objects w1 !! a = None /\
       forall more, deliver_all OS_WIN a (events ++ more) w0 = Some (tt, w1)).
Proof.
  intros Hch HN a events.
  destruct (nav_ctor w c m N) as (w0 & E0 & Hw0 & C0); [lia|].
  exists w0. split; [exact E0|].
  destruct (Z.to_nat N) as [|n] eqn:En; [lia|].
  assert (N = Z.of_nat (S n)) as HNn by lia.
  rewrite HNn in Hw0.
  destruct (nav_pairs OS_WIN a c m sent n w0 Hw0) as [Hpre Hall];
    [lia|congruence|].
  subst events. split.
  - intros k Hk. rewrite load_pairs_length in Hk. by apply Hpre.
  - destruct Hall as (w1 & E1 & C1 & G1). exists w1.
    repeat split; try done.
    intros more. erewrite deliver_all_app by exact E1.
    by apply deliver_all_gone.
Qed.

Lemma navigation_observer_succeeds_on_nth_stop_witness :
  channel_ connected_provider = Some [] /\
  1 <= 2 <= INT_MAX /\
  exists w0,
    NavigationNotificationObserver_ctor sample_tab (Some sample_reply) 2
      connected_provider = Some (O, w0) /\
    (forall k, (k < length sample_events)%nat ->
       exists wk,
         deliver_all false O (take k sample_events) w0 = Some (tt, wk) /\
         channel_ wk = Some [] /\ is_Some (objects wk !! O)) /\
    (exists w1,
       deliver_all false O sample_events w0 = Some (tt, w1) /\
       channel_ w1 =
         Some ([] ++ [navigation_reply sample_reply
                        AUTOMATION_MSG_NAVIGATION_SUCCESS]) /\
       objects w1 !! O = None /\
       forall more, deliver_all false O (sample_events ++ more) w0 = Some (tt, w1)).
Proof.
  split; [reflexivity|]. split; [unfold INT_MAX; lia|].
  apply (navigation_observer_succeeds_on_nth_stop
           false connected_provider sample_tab sample_reply 2 []);
    [reflexivity | unfold INT_MAX; lia].
Defined.

(** C3. A navigation observer destroyed while it still holds its reply
    message writes [AUTOMATION_MSG_NAVIGATION_ERROR] into the reply and
    sends it, once, and only then is released: after the destructor the
    channel has exactly that one more message and the object is gone. *)
Theorem navigation_observer_destroyed_sends_error
    (w : World) (a : addr) (o : Nav.t) (m : Message) (sent : list Message) :
  objects w !! a = Some (ObsNavigation o) ->
  Nav.reply_message_ o = Some m ->
  channel_ w = Some sent ->
  exists w',
    NavigationNotificationObserver_dtor a w = Some (tt, w') /\
    destroy a w = Some (tt, w') /\
    channel_ w' =
      Some (sent ++ [navigation_reply m AUTOMATION_MSG_NAVIGATION_ERROR]) /\
    objects w' !! a = None /\
    a ∉ notification_observer_list_ w'.
Proof.
  intros H M C. unfold destroy. rewrite H.
  unfold NavigationNotificationObserver_dtor.
  destruct w; cbn in *. exec_unfold. exec_run.
  eexists. split; [reflexivity|]. split; [reflexivity|]. exec_run.
  split; [done|]. split; [done|].
  intros Hin. apply list_elem_of_filter in Hin. tauto.
Qed.

Lemma navigation_observer_destroyed_sends_error_witness :
  exists w',
    NavigationNotificationObserver_dtor O
      (set_objects {[ O := ObsNavigation sample_observer ]} connected_provider) = Some (tt, w') /\
    channel_ w' =
      Some ([] ++ [navigation_reply sample_reply AUTOMATION_MSG_NAVIGATION_ERROR]).
Proof.
  destruct (navigation_observer_destroyed_sends_error
              (set_objects {[ O := ObsNavigation sample_observer ]}
                 connected_provider)
              O sample_observer sample_reply [])
    as (w' & E & _ & C & _).
  - cbn. apply lookup_singleton_eq.
  - reflexivity.
  - reflexivity.
  - exists w'. split; assumption.
Defined.

(** ** Command handlers *)

(** C9. A navigate-to-URL command whose handle the tab tracker does not
    contain ends with exactly one message more on the channel, the reply
    with [AUTOMATION_MSG_NAVIGATION_ERROR] written into it, and nothing
    else changed: no observer object was created and none was put on the
    provider's observer list. *)
Theorem navigate_untracked_handle_replies_error
    (w : World) (handle : Z) (url : string) (number_of_navigations : Z)
    (m : Message) (sent : list Message) :
  HandleTracker.ContainsHandle handle (tab_tracker_ w) = false ->
  channel_ w = Some sent ->
  let w' :=
    set_channel_
      (Some (sent ++ [navigation_reply m AUTOMATION_MSG_NAVIGATION_ERROR])) w in
  NavigateToURLBlockUntilNavigationsComplete
    handle url number_of_navigations m w = Some (tt, w') /\
  NavigateToURL handle url m w = Some (tt, w') /\
  OnMessageReceived (CmdNavigateToURL handle url) m w = Some (tt, w') /\
  objects w' = objects w /\
  next_object w' = next_object w /\
  notification_observer_list_ w' = notification_observer_list_ w.
Proof.
  intros T C w'.
  assert (forall n, NavigateToURLBlockUntilNavigationsComplete handle url n m w
                    = Some (tt, w')) as E.
  { intros n. unfold NavigateToURLBlockUntilNavigationsComplete.
    exec_unfold. rewrite T, C. reflexivity. }
  repeat split; apply E.
Qed.

Lemma navigate_untracked_handle_replies_error_witness :
  NavigateToURL 7 "http://example.test/" sample_reply connected_provider =
    Some (tt, set_channel_
                (Some ([] ++ [navigation_reply sample_reply
                                AUTOMATION_MSG_NAVIGATION_ERROR]))
                connected_provider).
Proof.
  apply (navigate_untracked_handle_replies_error
           connected_provider 7 "http://example.test/" 1 sample_reply []);
    reflexivity.
Defined.

Lemma CloseTab_untracked w tab_handle wait_until_closed m :
  HandleTracker.ContainsHandle tab_handle (tab_tracker_ w) = false ->
  CloseTab tab_handle wait_until_closed m w = Some (tt, w).
Proof.
  intros T. unfold CloseTab. exec_unfold. rewrite T. reflexivity.
Qed.

(** C1. The specification asks for an error reply on the channel whenever
    a command names a handle that is not tracked, [CloseTab] in particular.
    Evaluated on a connected provider that tracks no tab: [CloseTab] with
    handle 7 ends in the very state it started in, so nothing was sent
    and no observer holds the reply, while [NavigateToURL] with the same
    handle puts its error reply on the channel. *)
Theorem close_tab_untracked_handle_sends_no_reply :
  HandleTracker.ContainsHandle 7 (tab_tracker_ connected_provider) = false /\
  CloseTab 7 false sample_reply connected_provider =
    Some (tt, connected_provider) /\
  OnMessageReceived (CmdCloseTab 7 false) sample_reply connected_provider =
    Some (tt, connected_provider) /\
  channel_ connected_provider = Some [] /\
  NavigateToURL 7 "http://example.test/" sample_reply connected_provider =
    Some (tt, set_channel_
                (Some [navigation_reply sample_reply
                         AUTOMATION_MSG_NAVIGATION_ERROR])
                connected_provider).
Proof.
  repeat split; try reflexivity; by apply CloseTab_untracked.
Qed.

(** C10. Waiting for the browser window count: when the size of the
    browser list is the target at the time of the command, the reply goes
    out at once with [true] written into it and no observer is created;
    otherwise nothing is sent and a count observer holding the reply is
    created, subscribed to browser-opened and browser-closed
    notifications of all sources. *)
Theorem wait_for_browser_window_count_dispatch
    (w : World) (target_count : Z) (m : Message) (sent : list Message) :
  channel_ w = Some sent ->
  Z.of_nat (length (BrowserList w)) <= INT_MAX ->
  (Z.of_nat (length (BrowserList w)) = target_count ->
   WaitForBrowserWindowCountToBecome target_count m w =
     Some (tt, set_channel_ (Some (sent ++ [bool_reply m true])) w)) /\
  (Z.of_nat (length (BrowserList w)) <> target_count ->
   WaitForBrowserWindowCountToBecome target_count m w =
     Some (tt,
           set_next_object (S (next_object w))
             (set_objects
                (<[next_object w :=
                     ObsBrowserCount
                       (Count.mk target_count
                          [(BROWSER_OPENED, None); (BROWSER_CLOSED, None)]
                          (Some m))]> (objects w))
                w))).
Proof.
  intros C B.
  assert (wrap_int (Z.of_nat (length (BrowserList w)))
          = Z.of_nat (length (BrowserList w))) as Hsize.
  { apply wrap_int_id. unfold is_int, INT_MIN, INT_MAX in *. lia. }
  unfold WaitForBrowserWindowCountToBecome,
    BrowserCountChangeNotificationObserver_ctor.
  exec_unfold. rewrite Hsize. split; intros E.
  - rewrite (proj2 (Z.eqb_eq _ _) E), C. reflexivity.
  - rewrite (proj2 (Z.eqb_neq _ _) E). reflexivity.
Qed.

Lemma wait_for_browser_window_count_dispatch_witness :
  WaitForBrowserWindowCountToBecome 0 sample_reply connected_provider =
    Some (tt, set_channel_ (Some ([] ++ [bool_reply sample_reply true]))
                connected_provider) /\
  WaitForBrowserWindowCountToBecome 2 sample_reply connected_provider =
    Some (tt,
          set_next_object 1%nat
            (set_objects
               (<[O := ObsBrowserCount
                         (Count.mk 2
                            [(BROWSER_OPENED, None); (BROWSER_CLOSED, None)]
                            (Some sample_reply))]> ∅)
               connected_provider)).
Proof.
  split.
  - apply (wait_for_browser_window_count_dispatch
             connected_provider 0 sample_reply []);
      [reflexivity | unfold INT_MAX; cbn; lia | reflexivity].
  - apply (wait_for_browser_window_count_dispatch
             connected_provider 2 sample_reply []);
      [reflexivity | unfold INT_MAX; cbn; lia | cbn; lia].
Defined.

(** ** The browser count observer *)

Lemma count_ctor w target m :
  exists w0,
    BrowserCountChangeNotificationObserver_ctor target (Some m) w
      = Some (next_object w, w0) /\
    count_waiting w0 (next_object w) target m /\
    channel_ w0 = channel_ w.
Proof.
  unfold BrowserCountChangeNotificationObserver_ctor, count_waiting.
  exec_unfold. eexists. split; [reflexivity|]. cbn.
  by rewrite lookup_insert_eq.
Qed.

Lemma adjusted_count_wrapped bl n :
  browser_event_ok (bl, n) ->
  (if bool_decide (type n = BROWSER_CLOSED)
   then wrap_int (wrap_int (Z.of_nat (length bl)) - 1)
   else wrap_int (Z.of_nat (length bl))) = adjusted_count (bl, n) /\
  (type n = BROWSER_CLOSED -> (0 <? wrap_int (Z.of_nat (length bl))) = true).
Proof.
  unfold browser_event_ok, adjusted_count. cbn [fst snd].
  intros (Hty & Hmax & Hpos).
  assert (wrap_int (Z.of_nat (length bl)) = Z.of_nat (length bl)) as ->.
  { apply wrap_int_id. unfold is_int, INT_MIN, INT_MAX in *. lia. }
  split.
  - case_bool_decide as Hc; [|done].
    apply wrap_int_id. specialize (Hpos Hc).
    unfold is_int, INT_MIN, INT_MAX in *. lia.
  - intros Hc. specialize (Hpos Hc). lia.
Qed.

Lemma count_registered n :
  type n = BROWSER_OPENED \/ type n = BROWSER_CLOSED ->
  registered count_registrar n = true.
Proof.
  intros [H|H]; apply registered_all; rewrite H; cbn; tauto.
Qed.

Lemma count_event_miss OS_WIN w a target m e :
  count_waiting w a target m ->
  browser_event_ok e ->
  adjusted_count e <> target ->
  exists w',
    browser_event OS_WIN a e w = Some (tt, w') /\
    count_waiting w' a target m /\
    channel_ w' = channel_ w.
Proof.
  unfold count_waiting. intros H Hok Hne. destruct e as [bl n].
  destruct (adjusted_count_wrapped bl n Hok) as [Hadj Hpos].
  destruct Hok as (Hty & _ & _).
  unfold browser_event, deliver. exec_unfold. cbn [fst snd].
  destruct w; cbn in *. rewrite H. cbn [registrar_of Count.registrar_].
  rewrite count_registered by done.
  unfold Observe. cbn. rewrite H.
  unfold BrowserCountChangeNotificationObserver_Observe. exec_unfold.
  cbn. rewrite H.
  assert (bool_decide (type n = BROWSER_OPENED) ||
          bool_decide (type n = BROWSER_CLOSED) = true) as ->.
  { destruct Hty as [->| ->]; reflexivity. }
  cbn [BrowserList set_BrowserList].
  case_bool_decide as Hc.
  - rewrite (Hpos Hc). cbn. rewrite Hadj.
    rewrite (proj2 (Z.eqb_neq _ _) Hne). eexists. split; [reflexivity|]. done.
  - cbn. rewrite Hadj.
    rewrite (proj2 (Z.eqb_neq _ _) Hne). eexists. split; [reflexivity|]. done.
Qed.

Lemma count_event_hit OS_WIN w a target m e sent :
  count_waiting w a target m ->
  browser_event_ok e ->
  adjusted_count e = target ->
  channel_ w = Some sent ->
  exists w',
    browser_event OS_WIN a e w = Some (tt, w') /\
    channel_ w' = Some (sent ++ [bool_reply m true]) /\
    objects w' !! a = None.
Proof.
  unfold count_waiting. intros H Hok Heq C. destruct e as [bl n].
  destruct (adjusted_count_wrapped bl n Hok) as [Hadj Hpos].
  destruct Hok as (Hty & _ & _).
  unfold browser_event, deliver. exec_unfold. cbn [fst snd].
  destruct w; cbn in *. rewrite H. cbn [registrar_of Count.registrar_].
  rewrite count_registered by done.
  unfold Observe. cbn. rewrite H.
  unfold BrowserCountChangeNotificationObserver_Observe. exec_unfold.
  cbn. rewrite H.
  assert (bool_decide (type n = BROWSER_OPENED) ||
          bool_decide (type n = BROWSER_CLOSED) = true) as ->.
  { destruct Hty as [->| ->]; reflexivity. }
  cbn [BrowserList set_BrowserList].
  case_bool_decide as Hc.
  - rewrite (Hpos Hc). cbn. rewrite Hadj.
    rewrite (proj2 (Z.eqb_eq _ _) Heq), C. cbn.
    eexists. split; [reflexivity|]. cbn. by rewrite lookup_delete_eq.
  - cbn. rewrite Hadj.
    rewrite (proj2 (Z.eqb_eq _ _) Heq), C. cbn.
    eexists. split; [reflexivity|]. cbn. by rewrite lookup_delete_eq.
Qed.

Lemma browser_events_gone OS_WIN a es :
  forall w, objects w !! a = None ->
  exists w',
    browser_events OS_WIN a es w = Some (tt, w') /\
    objects w' !! a = None /\ channel_ w' = channel_ w.
Proof.
  induction es as [|e es IH]; intros w H.
  - exists w. done.
  - destruct (IH (set_BrowserList (fst e) w)) as (w' & E & G & C); [done|].
    exists w'. cbn [browser_events]. unfold browser_event.
    erewrite bind_Some; [exact (conj E (conj G C))|].
    erewrite bind_Some by reflexivity. by apply deliver_gone.
Qed.

Lemma browser_events_miss OS_WIN a target m es :
  forall w,
    count_waiting w a target m ->
    Forall browser_event_ok es ->
    Forall (fun e => adjusted_count e <> target) es ->
    exists w',
      browser_events OS_WIN a es w = Some (tt, w') /\
      count_waiting w' a target m /\ channel_ w' = channel_ w.
Proof.
  induction es as [|e es IH]; intros w H Hok Hne.
  - exists w. done.
  - inversion Hok as [|? ? Hok1 Hok2]; inversion Hne as [|? ? Hne1 Hne2]; subst.
    destruct (count_event_miss OS_WIN w a target m e H Hok1 Hne1)
      as (w1 & E1 & H1 & C1).
    destruct (IH w1 H1 Hok2 Hne2) as (w' & E & H' & C').
    exists w'. cbn [browser_events]. erewrite bind_Some by exact E1.
    split; [done|]. split; [done|]. congruence.
Qed.

Lemma browser_events_app OS_WIN a es1 es2 w w1 :
  browser_events OS_WIN a es1 w = Some (tt, w1) ->
  browser_events OS_WIN a (es1 ++ es2) w = browser_events OS_WIN a es2 w1.
Proof.
  revert w. induction es1 as [|e es1 IH]; intros w H.
  - cbn in H. by injection H as ->.
  - cbn [browser_events app] in *. unfold mbind, Exec_bind in *.
    destruct (browser_event OS_WIN a e w) as [[[] w']|]; [|done]. by apply IH.
Qed.

(** C4. A count observer with target [T] judges a browser-closed
    notification by the size of the browser list less one and a
    browser-opened notification by the size itself.  While the events
    [pre] all give a value other than [T] it sends nothing and keeps the
    reply; on the first event [e] whose value is [T] it sends the reply
    once, with [true] written into it, and is gone; whatever events [post]
    follow, the channel stays as it is. *)
Theorem browser_count_observer_replies_once
    (OS_WIN : bool) (w : World) (target : Z) (m : Message)
    (sent : list Message)
    (pre : list (list Browser * Notification))
    (e : list Browser * Notification)
    (post : list (list Browser * Notification)) :
  channel_ w = Some sent ->
  Forall browser_event_ok pre ->
  Forall (fun e' => adjusted_count e' <> target) pre ->
  let a := next_object w in
  exists w0 w1,
    BrowserCountChangeNotificationObserver_ctor target (Some m) w
      = Some (a, w0) /\
    browser_events OS_WIN a pre w0 = Some (tt, w1) /\
    channel_ w1 = Some sent /\
    count_waiting w1 a target m /\
    (browser_event_ok e -> adjusted_count e = target ->
     exists w2 w3,
       browser_event OS_WIN a e w1 = Some (tt, w2) /\
       channel_ w2 = Some (sent ++ [bool_reply m true]) /\
       objects w2 !! a = None /\
       browser_events OS_WIN a post w2 = Some (tt, w3) /\
       browser_events OS_WIN a (pre ++ e :: post) w0 = Some (tt, w3) /\
       channel_ w3 = Some (sent ++ [bool_reply m true]) /\
       objects w3 !! a = None).
Proof.
  intros C Hok Hne a.
  destruct (count_ctor w target m) as (w0 & E0 & H0 & C0).
  destruct (browser_events_miss OS_WIN a target m pre w0 H0 Hok Hne)
    as (w1 & E1 & H1 & C1).
  exists w0, w1. split; [exact E0|]. split; [exact E1|].
  split; [congruence|]. split; [exact H1|].
  intros Hoke Hhit.
  destruct (count_event_hit OS_WIN w1 a target m e sent H1 Hoke Hhit)
    as (w2 & E2 & C2 & G2); [congruence|].
  destruct (browser_events_gone OS_WIN a post w2 G2) as (w3 & E3 & G3 & C3).
  exists w2, w3. repeat split; try done.
  - erewrite browser_events_app by exact E1.
    cbn [browser_events]. by erewrite bind_Some by exact E2.
  - congruence.
Qed.

Lemma browser_count_observer_replies_once_witness :
  exists w0 w1,
    BrowserCountChangeNotificationObserver_ctor 1 (Some sample_reply)
      connected_provider = Some (O, w0) /\
    browser_events false O
      [(sample_browsers 3, mkNotification BROWSER_CLOSED 9 (CloseAppDetails false))]
      w0 = Some (tt, w1) /\
    channel_ w1 = Some [] /\
    exists w2,
      browser_event false O
        (sample_browsers 2, mkNotification BROWSER_CLOSED 9 (CloseAppDetails false))
        w1 = Some (tt, w2) /\
      channel_ w2 = Some ([] ++ [bool_reply sample_reply true]) /\
      objects w2 !! O = None.
Proof.
  destruct (browser_count_observer_replies_once
              false connected_provider 1 sample_reply []
              [(sample_browsers 3,
                mkNotification BROWSER_CLOSED 9 (CloseAppDetails false))]
              (sample_browsers 2,
                mkNotification BROWSER_CLOSED 9 (CloseAppDetails false))
              [(sample_browsers 1,
                mkNotification BROWSER_OPENED 9 NoDetails)])
    as (w0 & w1 & E0 & E1 & C1 & _ & Hhit).
  - reflexivity.
  - constructor; [|constructor].
    unfold browser_event_ok, INT_MAX. cbn.
    split; [by right|]. split; lia.
  - constructor; [|constructor].
    vm_compute. discriminate.
  - destruct Hhit as (w2 & w3 & E2 & C2 & G2 & _).
    + unfold browser_event_ok, INT_MAX. cbn.
      split; [by right|]. split; lia.
    + reflexivity.
    + exists w0, w1. repeat split; try assumption.
      exists w2. repeat split; assumption.
Defined.

(** ** The find-in-page observer *)

Lemma find_ctor w tab m :
  exists w0,
    FindInPageNotificationObserver_ctor tab (Some m) w
      = Some (next_object w, w0) /\
    find_state w0 (next_object w) tab (-1) (Some m) /\
    channel_ w0 = channel_ w.
Proof.
  unfold FindInPageNotificationObserver_ctor, find_state.
  exec_unfold. eexists. split; [reflexivity|]. cbn.
  by rewrite lookup_insert_eq.
Qed.

Ltac find_enter H :=
  unfold find_state in *; unfold deliver; rewrite H;
  cbn [registrar_of Find.registrar_];
  rewrite registered_source by (cbn; tauto);
  unfold Observe; rewrite H;
  unfold FindInPageNotificationObserver_Observe; exec_unfold; rewrite H;
  cbn [type details find_result bool_decide decide_rel].

Lemma find_partial OS_WIN w a tab ordinal reply d :
  find_state w a tab ordinal reply ->
  partial_result d ->
  exists w',
    deliver OS_WIN a (find_result tab d) w = Some (tt, w') /\
    find_state w' a tab (running_ordinal ordinal [d]) reply /\
    channel_ w' = channel_ w.
Proof.
  intros H [Hid Hfin]. find_enter H.
  rewrite Hid, Hfin. cbn.
  eexists. split; [reflexivity|]. cbn. by rewrite lookup_insert_eq.
Qed.

Lemma find_final_first OS_WIN w a tab ordinal m sent f :
  find_state w a tab ordinal (Some m) ->
  final_result f ->
  channel_ w = Some sent ->
  exists w',
    deliver OS_WIN a (find_result tab f) w = Some (tt, w') /\
    find_state w' a tab (running_ordinal ordinal [f]) None /\
    channel_ w' =
      Some (sent ++ [find_reply m (running_ordinal ordinal [f])
                                  (number_of_matches f)]) /\
    debug_log w' = debug_log w.
Proof.
  intros H [Hid Hfin] C. find_enter H.
  rewrite Hid, Hfin. destruct w; cbn in *. rewrite C. cbn.
  eexists. split; [reflexivity|]. cbn.
  rewrite lookup_insert_eq. done.
Qed.

Lemma find_final_again OS_WIN w a tab ordinal f :
  find_state w a tab ordinal None ->
  final_result f ->
  exists w',
    deliver OS_WIN a (find_result tab f) w = Some (tt, w') /\
    find_state w' a tab (running_ordinal ordinal [f]) None /\
    channel_ w' = channel_ w /\
    debug_log w' =
      debug_log w ++ ["Multiple final Find messages observed."].
Proof.
  intros H [Hid Hfin]. find_enter H.
  rewrite Hid, Hfin. cbn.
  eexists. split; [reflexivity|]. cbn. by rewrite lookup_insert_eq.
Qed.

Lemma running_ordinal_app seen ds1 ds2 :
  running_ordinal seen (ds1 ++ ds2)
  = running_ordinal (running_ordinal seen ds1) ds2.
Proof.
  revert seen. induction ds1 as [|d ds1 IH]; intros seen; [done|].
  cbn [running_ordinal app]. apply IH.
Qed.

Lemma running_ordinal_last seen ds :
  Forall (fun d => -1 <= active_match_ordinal d) ds ->
  running_ordinal seen ds = last_ordinal_but_minus_one seen ds.
Proof.
  intros H. revert seen. induction H as [|d ds Hd _ IH]; intros seen; [done|].
  cbn [running_ordinal last_ordinal_but_minus_one]. rewrite <- IH.
  f_equal. destruct (Z.ltb_spec (-1) (active_match_ordinal d));
    destruct (Z.eqb_spec (active_match_ordinal d) (-1)); lia || done.
Qed.

Lemma find_partials OS_WIN a tab reply ds :
  forall w ordinal,
    find_state w a tab ordinal reply ->
    Forall partial_result ds ->
    exists w',
      deliver_all OS_WIN a (map (find_result tab) ds) w = Some (tt, w') /\
      find_state w' a tab (running_ordinal ordinal ds) reply /\
      channel_ w' = channel_ w.
Proof.
  induction ds as [|d ds IH]; intros w ordinal H Hp.
  - exists w. done.
  - inversion Hp as [|? ? Hd Hds]; subst.
    destruct (find_partial OS_WIN w a tab ordinal reply d H Hd)
      as (w1 & E1 & H1 & C1).
    destruct (IH w1 _ H1 Hds) as (w' & E & H' & C').
    exists w'. cbn [map deliver_all]. erewrite bind_Some by exact E1.
    split; [exact E|]. split; [exact H'|]. congruence.
Qed.

Lemma find_finals_again OS_WIN a tab fs :
  forall w ordinal,
    find_state w a tab ordinal None ->
    Forall final_result fs ->
    exists w',
      deliver_all OS_WIN a (map (find_result tab) fs) w = Some (tt, w') /\
      channel_ w' = channel_ w /\
      debug_log w' =
        debug_log w ++
        replicate (length fs) "Multiple final Find messages observed.".
Proof.
  induction fs as [|f fs IH]; intros w ordinal H Hf.
  - exists w. cbn. by rewrite app_nil_r.
  - inversion Hf as [|? ? Hf1 Hfs]; subst.
    destruct (find_final_again OS_WIN w a tab ordinal f H Hf1)
      as (w1 & E1 & H1 & C1 & L1).
    destruct (IH w1 _ H1 Hfs) as (w' & E & C' & L').
    exists w'. cbn [map deliver_all]. erewrite bind_Some by exact E1.
    split; [exact E|]. split; [congruence|].
    rewrite L', L1. cbn [length replicate]. by rewrite <- app_assoc.
Qed.

(** C5. A find observer that is given partial results [ps] of the search
    in flight and then a result [f] flagged as the final update sends
    nothing during [ps] and, on [f], sends its reply once, carrying the
    match count of [f] and the last ordinal seen in [ps] and [f] that is
    above -1 (-1 if there was none); with ordinals that are match
    ordinals or -1, that is the last ordinal seen other than -1.  Each
    result flagged final that follows adds a line to the log and nothing
    to the channel. *)
Theorem find_observer_replies_once_on_final
    (OS_WIN : bool) (w : World) (tab : ptr) (m : Message)
    (sent : list Message)
    (ps : list FindNotificationDetails) (f : FindNotificationDetails)
    (more : list FindNotificationDetails) :
  channel_ w = Some sent ->
  Forall partial_result ps ->
  final_result f ->
  Forall final_result more ->
  let a := next_object w in
  let ordinal := running_ordinal (-1) (ps ++ [f]) in
  exists w0 w1 w2 w3,
    FindInPageNotificationObserver_ctor tab (Some m) w = Some (a, w0) /\
    deliver_all OS_WIN a (map (find_result tab) ps) w0 = Some (tt, w1) /\
    channel_ w1 = Some sent /\
    deliver OS_WIN a (find_result tab f) w1 = Some (tt, w2) /\
    channel_ w2 = Some (sent ++ [find_reply m ordinal (number_of_matches f)]) /\
    deliver_all OS_WIN a (map (find_result tab) more) w2 = Some (tt, w3) /\
    channel_ w3 = Some (sent ++ [find_reply m ordinal (number_of_matches f)]) /\
    debug_log w3 =
      debug_log w2 ++
      replicate (length more) "Multiple final Find messages observed." /\
    (Forall (fun d => -1 <= active_match_ordinal d) (ps ++ [f]) ->
     ordinal = last_ordinal_but_minus_one (-1) (ps ++ [f])).
Proof.
  intros C Hps Hf Hmore a ordinal.
  destruct (find_ctor w tab m) as (w0 & E0 & H0 & C0).
  destruct (find_partials OS_WIN a tab (Some m) ps w0 (-1) H0 Hps)
    as (w1 & E1 & H1 & C1).
  destruct (find_final_first OS_WIN w1 a tab _ m sent f H1 Hf)
    as (w2 & E2 & H2 & C2 & L2); [congruence|].
  destruct (find_finals_again OS_WIN a tab more w2 _ H2 Hmore)
    as (w3 & E3 & C3 & L3).
  rewrite <- running_ordinal_app in C2. fold ordinal in C2.
  exists w0, w1, w2, w3. repeat split; try done; try congruence.
  intros Hrange. by apply running_ordinal_last.
Qed.

Lemma find_observer_replies_once_on_final_witness :
  exists w0 w1 w2 w3,
    FindInPageNotificationObserver_ctor sample_tab (Some sample_reply)
      connected_provider = Some (O, w0) /\
    deliver_all false O (map (find_result sample_tab) sample_results) w0
      = Some (tt, w1) /\
    channel_ w1 = Some [] /\
    deliver false O (find_result sample_tab sample_final) w1 = Some (tt, w2) /\
    channel_ w2 = Some ([] ++ [find_reply sample_reply 2 4]) /\
    deliver_all false O (map (find_result sample_tab) [sample_final]) w2
      = Some (tt, w3) /\
    channel_ w3 = Some ([] ++ [find_reply sample_reply 2 4]) /\
    debug_log w3 =
      debug_log w2 ++ ["Multiple final Find messages observed."] /\
    2 = last_ordinal_but_minus_one (-1) (sample_results ++ [sample_final]).
Proof.
  destruct (find_observer_replies_once_on_final
              false connected_provider sample_tab sample_reply []
              sample_results sample_final [sample_final])
    as (w0 & w1 & w2 & w3 & E0 & E1 & C1 & E2 & C2 & E3 & C3 & L3 & Hlast).
  - reflexivity.
  - repeat constructor.
  - by split.
  - repeat constructor.
  - exists w0, w1, w2, w3. repeat apply conj; try assumption.
    apply Hlast. repeat constructor; vm_compute; discriminate.
Defined.

(** ** The proxy-configuration task *)

Section ProxyProperties.
Import SetProxyConfigTask.

Variables kJSONProxyNoProxy kJSONProxyAutoconfig kJSONProxyPacUrl
          kJSONProxyBypassList kJSONProxyServer : string.
Variable Deserialize : string -> option Value * string.
Variables GURL ProxyRules BypassList : Type.
Variable GURL_of_string : string -> GURL.
Variable ParseFromString : string -> ProxyRules -> ProxyRules.
Variable ParseNoProxyList : string -> BypassList -> BypassList.
Variable fresh_config : ProxyConfig GURL ProxyRules BypassList.

Local Abbreviation Populate :=
  (PopulateProxyConfig kJSONProxyNoProxy kJSONProxyAutoconfig
     kJSONProxyPacUrl kJSONProxyBypassList kJSONProxyServer
     GURL_of_string ParseFromString ParseNoProxyList).

Local Abbreviation RunTask :=
  (Run kJSONProxyNoProxy kJSONProxyAutoconfig
     kJSONProxyPacUrl kJSONProxyBypassList kJSONProxyServer
     Deserialize GURL_of_string ParseFromString ParseNoProxyList
     fresh_config).

(** C7. When the deserializer yields no value for the document, or a
    value that is not a dictionary, the task adds one warning line to
    the log and leaves the proxy service with the configuration it
    had. *)
Theorem malformed_proxy_document_is_dropped
    (document : string) (st : State GURL ProxyRules BypassList) :
  not_a_dictionary (fst (Deserialize document)) ->
  proxy_service_ (RunTask document st) = proxy_service_ st /\
  io_log (RunTask document st) =
    io_log st ++
    [String.append "Received bad JSON string for ProxyConfig: "
                   (snd (Deserialize document))].
Proof.
  unfold Run, not_a_dictionary.
  destruct (Deserialize document) as [[[]|] error_message]; cbn; tauto.
Qed.

(** C6, as the code has it.  [PopulateProxyConfig] returns the
    configuration it is handed unchanged when the document has a boolean
    under the no-proxy key, and with only its PAC URL replaced when the
    document has a string under the PAC URL key and no boolean under
    the no-proxy and auto-config keys and no string under the
    bypass-list and proxy-server keys.  [Run] hands it a freshly
    constructed configuration and makes the result the configuration of
    the proxy service, whatever the service had before. *)
Theorem proxy_document_populates_fresh_configuration :
  (forall dict pc no_proxy,
     GetBoolean dict kJSONProxyNoProxy = Some no_proxy ->
     Populate dict pc = pc) /\
  (forall dict pc pac,
     GetBoolean dict kJSONProxyNoProxy = None ->
     GetString dict kJSONProxyPacUrl = Some pac ->
     GetBoolean dict kJSONProxyAutoconfig = None ->
     GetString dict kJSONProxyBypassList = None ->
     GetString dict kJSONProxyServer = None ->
     Populate dict pc = set_pac_url (GURL_of_string pac) pc) /\
  (forall document dict st,
     fst (Deserialize document) = Some (DictionaryValue dict) ->
     proxy_service_ (RunTask document st) = Populate dict fresh_config /\
     io_log (RunTask document st) = io_log st).
Proof.
  split; [|split].
  - intros dict pc b H. unfold PopulateProxyConfig. by rewrite H.
  - intros dict pc pac H1 H2 H3 H4 H5. unfold PopulateProxyConfig.
    by rewrite H1, H2, H3, H4, H5.
  - intros document dict st H. unfold Run.
    destruct (Deserialize document) as [root error_message].
    cbn in H. subst root. done.
Qed.

End ProxyProperties.

Lemma malformed_proxy_document_is_dropped_witness :
  SetProxyConfigTask.proxy_service_
    (Sample.RunTask "{no_proxy"
       (SetProxyConfigTask.mkState Sample.existing_config []))
    = Sample.existing_config /\
  SetProxyConfigTask.io_log
    (Sample.RunTask "{no_proxy"
       (SetProxyConfigTask.mkState Sample.existing_config []))
    = [] ++ [String.append "Received bad JSON string for ProxyConfig: "
                           "Line: 1, column: 1, Syntax error."].
Proof.
  apply (malformed_proxy_document_is_dropped
           "no_proxy" "auto_detect" "pac_url" "bypass_list" "proxy_server"
           Sample.Deserialize string string (list string)
           (fun s => s) (fun s _ => s) (fun s _ => [s])
           Sample.fresh_config "{no_proxy"
           (SetProxyConfigTask.mkState Sample.existing_config [])).
  vm_compute. exact I.
Defined.

(** C6 as the specification states it fails: with an auto-detecting
    configuration with a PAC URL in the proxy service, running the task on
    the document with [no_proxy] set to [true] leaves the service with
    another configuration, and running it on the document with only
    [pac_url] leaves the service with a configuration whose auto-detect
    flag is not the one it had. *)
Lemma no_proxy_document_replaces_existing_configuration :
  SetProxyConfigTask.proxy_service_
    (Sample.RunTask Sample.no_proxy_document
       (SetProxyConfigTask.mkState Sample.existing_config []))
    <> Sample.existing_config /\
  SetProxyConfigTask.auto_detect
    (SetProxyConfigTask.proxy_service_
       (Sample.RunTask Sample.pac_url_document
          (SetProxyConfigTask.mkState Sample.existing_config [])))
    <> SetProxyConfigTask.auto_detect Sample.existing_config.
Proof.
  split; vm_compute; discriminate.
Qed.

Lemma proxy_document_populates_fresh_configuration_witness :
  Sample.Populate Sample.no_proxy_dict Sample.existing_config
    = Sample.existing_config /\
  Sample.Populate Sample.pac_url_dict Sample.existing_config
    = SetProxyConfigTask.set_pac_url "http://config.test/proxy.pac"
        Sample.existing_config /\
  SetProxyConfigTask.proxy_service_
    (Sample.RunTask Sample.no_proxy_document
       (SetProxyConfigTask.mkState Sample.existing_config []))
    = Sample.fresh_config.
Proof.
  destruct (proxy_document_populates_fresh_configuration
              "no_proxy" "auto_detect" "pac_url" "bypass_list" "proxy_server"
              Sample.Deserialize string string (list string)
              (fun s => s) (fun s _ => s) (fun s _ => [s])
              Sample.fresh_config)
    as (Hno & Hpac & Hrun).
  split; [|split].
  - apply (Hno Sample.no_proxy_dict Sample.existing_config true). reflexivity.
  - apply (Hpac Sample.pac_url_dict Sample.existing_config
             "http://config.test/proxy.pac"); reflexivity.
  - destruct (Hrun Sample.no_proxy_document Sample.no_proxy_dict
                (SetProxyConfigTask.mkState Sample.existing_config []))
      as [Hcfg _]; [reflexivity|].
    transitivity (Sample.Populate Sample.no_proxy_dict Sample.fresh_config);
      [exact Hcfg|].
    apply (Hno Sample.no_proxy_dict Sample.fresh_config true). reflexivity.
Defined.

(** ** The handle tracker *)

Module HandleTrackerFacts.
Import HandleTracker.

Lemma wf_empty : wf empty.
Proof. split; intros; cbn in *; by rewrite ?lookup_empty in *. Qed.

Lemma wf_Add r tr : wf tr -> wf (snd (Add r tr)).
Proof.
  intros [Hinv Hmax]. unfold Add.
  destruct (resource_to_handle_ tr !! r) as [h0|] eqn:Hr; cbn; [done|].
  split; cbn.
  - intros r' h'.
    destruct (decide (r = r')) as [<-|Hne];
      destruct (decide (last_handle_ tr + 1 = h')) as [<-|Hne'];
      rewrite ?lookup_insert_eq, ?lookup_insert_ne by done.
    + tauto.
    + split; [intros [= ?]; lia|]. intros H'. apply Hinv in H'. congruence.
    + split; [|intros [= ?]; lia]. intros H'. apply Hinv, Hmax in H'. lia.
    + apply Hinv.
  - intros h' r'.
    destruct (decide (last_handle_ tr + 1 = h')) as [<-|Hne'];
      rewrite ?lookup_insert_eq, ?lookup_insert_ne by done.
    + lia.
    + intros H'. apply Hmax in H'. lia.
Qed.

Lemma wf_Remove r tr : wf tr -> wf (Remove r tr).
Proof.
  intros [Hinv Hmax]. unfold Remove.
  destruct (resource_to_handle_ tr !! r) as [h0|] eqn:Hr; [|done].
  split; cbn.
  - intros r' h'.
    destruct (decide (r = r')) as [<-|Hne];
      destruct (decide (h0 = h')) as [<-|Hne'];
      rewrite ?lookup_delete_eq, ?lookup_delete_ne by done.
    + done.
    + split; [done|]. intros H'. apply Hinv in H'. congruence.
    + split; [|done]. intros H'. apply Hinv in Hr. apply Hinv in H'.
      congruence.
    + apply Hinv.
  - intros h' r'.
    destruct (decide (h0 = h')) as [<-|Hne'];
      rewrite ?lookup_delete_eq, ?lookup_delete_ne by done; [done|].
    apply Hmax.
Qed.

Lemma wf_step o tr : wf tr -> wf (fst (step o tr)).
Proof.
  intros H. destruct o as [r|r|r]; cbn.
  - pose proof (wf_Add r tr H). by destruct (Add r tr).
  - by apply wf_Remove.
  - by apply wf_Remove.
Qed.

Lemma run_snoc ops o tr :
  run (ops ++ [o]) tr =
    (fst (step o (fst (run ops tr))),
     snd (run ops tr) ++ [snd (step o (fst (run ops tr)))]).
Proof.
  revert tr. induction ops as [|o' ops IH]; intros tr.
  - cbn. by destruct (step o tr).
  - cbn [run app]. destruct (step o' tr) as [tr1 x]. rewrite IH.
    by destruct (run ops tr1).
Qed.

Lemma run_length ops tr : length (snd (run ops tr)) = length ops.
Proof.
  revert tr. induction ops as [|o ops IH]; intros tr; [done|].
  cbn [run]. destruct (step o tr) as [tr1 x]. specialize (IH tr1).
  destruct (run ops tr1). cbn in *. by rewrite IH.
Qed.

Lemma wf_run ops : wf (fst (run ops empty)).
Proof.
  induction ops as [|o ops IH] using rev_ind; [apply wf_empty|].
  rewrite run_snoc. cbn [fst]. by apply wf_step.
Qed.

(** What one more call does to the history reading. *)
Lemma issued_and_kept_snoc ops rets o x h r :
  length rets = length ops ->
  issued_and_kept (ops ++ [o]) (rets ++ [x]) h r <->
  (issued_and_kept ops rets h r /\ o <> OpDestroyed r /\ o <> OpRemove r) \/
  (o = OpAdd r /\ x = Some h).
Proof.
  intros Hlen. unfold issued_and_kept. split.
  - intros (i & Hop & Hret & Hlater).
    destruct (decide (i < length ops)%nat) as [Hlt|Hge].
    + left. rewrite lookup_app_l in Hop by done.
      rewrite lookup_app_l in Hret by lia.
      destruct (Hlater (length ops) Hlt) as [Hd Hr].
      rewrite list_lookup_middle in Hd, Hr by done.
      split; [|split; congruence].
      exists i. repeat split; try done.
      all: intros Hj; destruct (Hlater j H) as [Hd' Hr'];
        destruct (decide (j < length ops)%nat);
        [ rewrite lookup_app_l in Hd', Hr' by done; congruence
        | rewrite lookup_ge_None_2 in Hj by lia; done ].
    + right. destruct (decide (i = length ops)) as [->|Hne].
      * rewrite list_lookup_middle in Hop by done.
        rewrite list_lookup_middle in Hret by done.
        split; congruence.
      * rewrite lookup_ge_None_2 in Hop; [done|].
        rewrite length_app. cbn. lia.
  - intros [((i & Hop & Hret & Hlater) & Hd & Hr)|[-> ->]].
    + pose proof (lookup_lt_Some _ _ _ Hop) as Hi.
      exists i. rewrite !lookup_app_l by lia. repeat split; try done.
      all: destruct (Hlater j H) as [Hd' Hr'];
        destruct (decide (j < length ops)%nat);
        [ by rewrite lookup_app_l by done |];
        destruct (decide (j = length ops)) as [->|];
        [ rewrite list_lookup_middle by done; congruence
        | rewrite lookup_ge_None_2; [done|];
          rewrite length_app; cbn; lia ].
    + exists (length ops). rewrite list_lookup_middle by done.
      rewrite list_lookup_middle by done. repeat split; try done.
      all: rewrite lookup_ge_None_2; [done|]; rewrite length_app; cbn; lia.
Qed.

(** What one more call does to the tracker's map. *)
Lemma step_lookup o tr h r :
  wf tr ->
  handle_to_resource_ (fst (step o tr)) !! h = Some r <->
  (handle_to_resource_ tr !! h = Some r /\
   o <> OpDestroyed r /\ o <> OpRemove r) \/
  (o = OpAdd r /\ snd (step o tr) = Some h).
Proof.
  intros [Hinv Hmax].
  assert (forall r', handle_to_resource_ (Remove r' tr) !! h = Some r <->
                     handle_to_resource_ tr !! h = Some r /\ r' <> r) as HRem.
  { intros r'. unfold Remove.
    destruct (resource_to_handle_ tr !! r') as [h0|] eqn:Hr'; cbn.
    - destruct (decide (h0 = h)) as [->|Hne];
        rewrite ?lookup_delete_eq, ?lookup_delete_ne by done.
      + split; [done|]. intros [H Hn]. apply Hinv in Hr'. congruence.
      + split; [|tauto]. intros H. split; [done|]. intros ->.
        apply Hinv in H. congruence.
    - split; [|tauto]. intros H. split; [done|]. intros ->.
      apply Hinv in H. congruence. }
  destruct o as [r'|r'|r']; cbn [step].
  - unfold Add.
    destruct (resource_to_handle_ tr !! r') as [h0|] eqn:Hr'; cbn.
    + split; [intros H; left; by repeat split|].
      intros [(H & _)|[[= ->] [= ->]]]; [done|]. by apply Hinv.
    + destruct (decide (last_handle_ tr + 1 = h)) as [<-|Hne];
        rewrite ?lookup_insert_eq, ?lookup_insert_ne by done.
      * split.
        -- intros [= ->]. by right.
        -- intros [(H & _)|[[= ->] _]]; [|done]. apply Hmax in H. lia.
      * split; [intros H; left; by repeat split|].
        intros [(H & _)|[_ [= ?]]]; [done|lia].
  - cbn [fst snd]. rewrite HRem. split.
    + intros [H Hn]. left. repeat split; [done|done|congruence].
    + intros [(H & _ & Hn)|[[=] _]]. split; [done|congruence].
  - cbn [fst snd]. unfold ResourceDestroyed. rewrite HRem. split.
    + intros [H Hn]. left. repeat split; [done|congruence|done].
    + intros [(H & Hn & _)|[[=] _]]. split; [done|congruence].
Qed.

(** A handle maps to a resource exactly when an [Add] of the resource
    returned it and the resource was neither destroyed nor removed
    since. *)
Lemma lookup_history ops h r :
  handle_to_resource_ (fst (run ops empty)) !! h = Some r <->
  issued_and_kept ops (snd (run ops empty)) h r.
Proof.
  induction ops as [|o ops IH] using rev_ind.
  - cbn. rewrite lookup_empty. split; [done|].
    intros (i & Hop & _). by rewrite lookup_nil in Hop.
  - rewrite run_snoc. cbn [fst snd].
    rewrite step_lookup by apply wf_run.
    rewrite issued_and_kept_snoc by apply run_length.
    by rewrite IH.
Qed.

End HandleTrackerFacts.

(** [GetWindowForBrowser] asked twice for the window of a tracked browser
    answers with the same handle and changes nothing the second time. *)
Lemma GetWindowForBrowser_again w browser_handle h w1 :
  GetWindowForBrowser browser_handle w = Some ((true, h), w1) ->
  GetWindowForBrowser browser_handle w1 = Some ((true, h), w1).
Proof.
  unfold GetWindowForBrowser, GetNativeHandle, window_tracker_Add.
  exec_unfold.
  destruct (HandleTracker.ContainsHandle browser_handle (browser_tracker_ w))
    eqn:Ht; [|discriminate]. cbv beta iota.
  destruct (HandleTracker.GetResource browser_handle (browser_tracker_ w))
    as [browser|] eqn:Hb; [|discriminate]. cbv beta iota.
  destruct (List.find _ (BrowserList w)) as [b|] eqn:Hf; [|discriminate].
  cbv beta iota.
  destruct (HandleTracker.Add (browser_window b) (window_tracker_ w))
    as [h0 tr] eqn:Ha.
  intros [= <- <-].
  repeat (cbv beta iota;
          cbn [browser_tracker_ set_window_tracker_ BrowserList window_tracker_];
          first [rewrite Ht | rewrite Hb | rewrite Hf]).
  cbv beta iota.
  cbn [browser_tracker_ set_window_tracker_ BrowserList window_tracker_].
  assert (HandleTracker.Add (browser_window b) tr = (h0, tr)) as ->; [|done].
  replace h0 with (fst (HandleTracker.Add (browser_window b) (window_tracker_ w)))
    by (by rewrite Ha).
  replace tr with (snd (HandleTracker.Add (browser_window b) (window_tracker_ w)))
    by (by rewrite Ha).
  unfold HandleTracker.Add.
  destruct (HandleTracker.resource_to_handle_ (window_tracker_ w)
              !! browser_window b) as [h'|] eqn:Hr; cbn.
  - by rewrite Hr.
  - by rewrite lookup_insert_eq.
Qed.

(** C8, as the tracker has it.  [Add] is idempotent: a second [Add] of
    the same resource returns the handle the first returned and leaves
    the tracker as the first left it, and so [GetWindowForBrowser] asked
    twice answers with the same window handle.  After any history of
    calls on a new tracker, [ContainsHandle h] holds exactly when [h] was
    returned by an [Add] of a resource that has since been neither
    destroyed nor removed with [Remove]. *)
Theorem tracker_add_idempotent_and_contains_kept_handles :
  (forall tr r,
     HandleTracker.Add r (snd (HandleTracker.Add r tr))
     = (fst (HandleTracker.Add r tr), snd (HandleTracker.Add r tr))) /\
  (forall w browser_handle h w1,
     GetWindowForBrowser browser_handle w = Some ((true, h), w1) ->
     GetWindowForBrowser browser_handle w1 = Some ((true, h), w1)) /\
  (forall ops h,
     HandleTracker.ContainsHandle h (fst (HandleTracker.run ops HandleTracker.empty))
       = true <->
     exists r,
       HandleTracker.issued_and_kept
         ops (snd (HandleTracker.run ops HandleTracker.empty)) h r).
Proof.
  split; [|split].
  - intros tr r. unfold HandleTracker.Add.
    destruct (HandleTracker.resource_to_handle_ tr !! r) as [h|] eqn:Hr; cbn.
    + by rewrite Hr.
    + by rewrite lookup_insert_eq.
  - apply GetWindowForBrowser_again.
  - intros ops h. unfold HandleTracker.ContainsHandle.
    rewrite bool_decide_eq_true. unfold is_Some.
    split; intros [r Hr]; exists r;
      by apply HandleTrackerFacts.lookup_history.
Qed.

Lemma tracker_add_idempotent_and_contains_kept_handles_witness :
  GetWindowForBrowser 1
    (set_window_tracker_
       (snd (HandleTracker.Add 100 HandleTracker.empty)) sample_provider)
  = Some ((true, 1),
          set_window_tracker_
            (snd (HandleTracker.Add 100 HandleTracker.empty)) sample_provider).
Proof.
  destruct tracker_add_idempotent_and_contains_kept_handles as (_ & Hagain & _).
  apply (Hagain sample_provider 1 1). reflexivity.
Defined.

(** C8 as the specification states it fails.  [GetWindowForBrowser]
    registers the window of a browser under handle 1 and [HandleUnused]
    gives the handle up; that is the history of an [Add] followed by a
    [Remove].  Nothing was destroyed, handle 1 was returned by [Add], yet
    the tracker does not contain it. *)
Lemma removed_handle_is_no_longer_contained :
  (exists w1 w2,
     GetWindowForBrowser 1 sample_provider = Some ((true, 1), w1) /\
     HandleUnused 1 w1 = Some (tt, w2) /\
     window_tracker_ w2
       = fst (HandleTracker.run sample_history HandleTracker.empty)) /\
  ~ (HandleTracker.ContainsHandle 1
       (fst (HandleTracker.run sample_history HandleTracker.empty)) = true <->
     exists r,
       HandleTracker.issued_not_destroyed sample_history
         (snd (HandleTracker.run sample_history HandleTracker.empty)) 1 r).
Proof.
  split.
  - eexists _, _. split; [reflexivity|]. split; reflexivity.
  - intros [_ H].
    assert (HandleTracker.ContainsHandle 1
              (fst (HandleTracker.run sample_history HandleTracker.empty))
            = true) as Hc.
    { apply H. exists 100, O. repeat split.
      intros j Hj. destruct j as [|[|j]]; [lia|discriminate|discriminate]. }
    vm_compute in Hc. discriminate.
Qed.

(** ** More of the provider *)

Lemma nav_step_any OS_WIN w a c m n0 started sent ntf w' :
  nav_waiting w a c m n0 started ->
  channel_ w = Some sent ->
  deliver OS_WIN a ntf w = Some (tt, w') ->
  (exists n1 s1, nav_waiting w' a c m n1 s1 /\ channel_ w' = Some sent) \/
  (objects w' !! a = None /\
   exists v, v <> AUTOMATION_MSG_NAVIGATION_ERROR /\
     channel_ w' = Some (sent ++ [navigation_reply m v])).
Proof.
  unfold nav_waiting. intros H C. unfold deliver. rewrite H.
  destruct (registered _ ntf) eqn:Hreg.
  2:{ intros [= <-]. left. eauto. }
  unfold Observe. rewrite H.
  unfold NavigationNotificationObserver_Observe,
    NavigationNotificationObserver_ConditionMet,
    NavigationNotificationObserver_dtor, RemoveLoginHandler, AddLoginHandler.
  destruct w; cbn in *. exec_unfold. cbn. rewrite H. subst.
  destruct ntf as [ty src det]. cbn.
  destruct ty; cbn; try discriminate.
  - intros [= <-]. left. cbn. rewrite lookup_insert_eq. eauto.
  - intros [= <-]. left. cbn. rewrite lookup_insert_eq. eauto.
  - destruct started; cbn.
    + destruct (wrap_int (n0 - 1) =? 0); cbn.
      * rewrite lookup_insert_eq. cbn. rewrite lookup_insert_eq. cbn.
        intros [= <-]. right. cbn. rewrite lookup_delete_eq. split; [done|].
        exists AUTOMATION_MSG_NAVIGATION_SUCCESS. done.
      * intros [= <-]. left. cbn. rewrite lookup_insert_eq. eauto.
    + intros [= <-]. left. cbn. eauto.
  - destruct OS_WIN; cbn.
    + destruct started; cbn; [|discriminate].
      destruct det; cbn; try discriminate.
      rewrite lookup_insert_eq. cbn. rewrite lookup_insert_eq. cbn.
      intros [= <-]. right. cbn. rewrite lookup_delete_eq. split; [done|].
      exists AUTOMATION_MSG_NAVIGATION_AUTH_NEEDED. done.
    + intros [= <-]. left. cbn. eauto.
  - destruct (negb _); cbn; [|discriminate].
    intros [= <-]. left. cbn. rewrite lookup_insert_eq. eauto.
Qed.

Lemma deliver_all_cons_inv OS_WIN a n ns w w2 :
  deliver_all OS_WIN a (n :: ns) w = Some (tt, w2) ->
  exists w1, deliver OS_WIN a n w = Some (tt, w1) /\
             deliver_all OS_WIN a ns w1 = Some (tt, w2).
Proof.
  cbn [deliver_all]. unfold mbind, Exec_bind.
  destruct (deliver OS_WIN a n w) as [[[] w1]|]; [|discriminate]. eauto.
Qed.

Lemma nav_run_any OS_WIN a c m sent ns :
  forall w n0 started w',
    nav_waiting w a c m n0 started ->
    channel_ w = Some sent ->
    deliver_all OS_WIN a ns w = Some (tt, w') ->
    (exists n1 s1, nav_waiting w' a c m n1 s1 /\ channel_ w' = Some sent) \/
    (objects w' !! a = None /\
     exists v, v <> AUTOMATION_MSG_NAVIGATION_ERROR /\
       channel_ w' = Some (sent ++ [navigation_reply m v])).
Proof.
  induction ns as [|n ns IH]; intros w n0 started w' H C E.
  - cbn in E. injection E as <-. left. eauto.
  - apply deliver_all_cons_inv in E as (w1 & E1 & E2).
    destruct (nav_step_any _ _ _ _ _ _ _ _ _ _ H C E1)
      as [(n1 & s1 & H1 & C1)|(G1 & v & Hv & C1)].
    + eapply IH; eauto.
    + right. rewrite deliver_all_gone in E2 by done. injection E2 as <-. eauto.
Qed.

Lemma nav_destroy_waiting w a c m n0 started sent :
  nav_waiting w a c m n0 started ->
  channel_ w = Some sent ->
  destroy a w =
    Some (tt,
          set_objects (delete a (objects w))
            (set_notification_observer_list_
               (filter (fun b => b <> a) (notification_observer_list_ w))
               (set_channel_
                  (Some (sent ++ [navigation_reply m
                                    AUTOMATION_MSG_NAVIGATION_ERROR])) w))).
Proof.
  unfold nav_waiting. intros H C. unfold destroy. rewrite H.
  unfold NavigationNotificationObserver_dtor.
  destruct w; cbn in *. exec_unfold. cbn. rewrite H. cbn. rewrite C. cbn.
  by rewrite delete_insert_eq.
Qed.

(** X1. A navigation observer constructed for [N >= 1] navigations on a
    connected provider answers its reply message exactly once, whatever
    is published to it: after any notifications that it got through,
    either it is gone and one reply went out, with a status other than
    [AUTOMATION_MSG_NAVIGATION_ERROR], or it still holds the reply,
    nothing went out, and deleting it sends the one reply, with
    [AUTOMATION_MSG_NAVIGATION_ERROR], and frees it. *)
Theorem navigation_reply_sent_exactly_once
    (OS_WIN : bool) (w : World) (c : ptr) (m : Message) (N : Z)
    (sent : list Message) :
  channel_ w = Some sent ->
  0 < N ->
  let a := next_object w in
  exists w0,
    NavigationNotificationObserver_ctor c (Some m) N w = Some (a, w0) /\
    forall ns w1,
      deliver_all OS_WIN a ns w0 = Some (tt, w1) ->
      (objects w1 !! a = None /\
       exists v, v <> AUTOMATION_MSG_NAVIGATION_ERROR /\
         channel_ w1 = Some (sent ++ [navigation_reply m v])) \/
      (pending_reply w1 a = Some m /\
       channel_ w1 = Some sent /\
       exists w2,
         destroy a w1 = Some (tt, w2) /\
         channel_ w2 =
           Some (sent ++ [navigation_reply m AUTOMATION_MSG_NAVIGATION_ERROR]) /\
         objects w2 !! a = None).
Proof.
  intros C HN a.
  destruct (nav_ctor w c m N HN) as (w0 & E0 & H0 & C0).
  exists w0. split; [exact E0|]. intros ns w1 E.
  destruct (nav_run_any OS_WIN a c m sent ns w0 N false w1 H0) as
    [(n1 & s1 & H1 & C1)|Hdone]; [congruence|exact E| |by left].
  right. split; [unfold pending_reply; by rewrite H1|]. split; [exact C1|].
  eexists. split; [by eapply nav_destroy_waiting|]. cbn.
  split; [done|]. apply lookup_delete_eq.
Qed.

Lemma navigation_reply_sent_exactly_once_witness :
  exists w0 w1,
    NavigationNotificationObserver_ctor sample_tab (Some sample_reply) 2
      connected_provider = Some (O, w0) /\
    deliver_all false O
      [load_stop sample_tab; load_start sample_tab; load_stop sample_tab] w0
      = Some (tt, w1) /\
    exists w2,
      destroy O w1 = Some (tt, w2) /\
      channel_ w2 =
        Some ([] ++ [navigation_reply sample_reply
                       AUTOMATION_MSG_NAVIGATION_ERROR]).
Proof.
  destruct (navigation_reply_sent_exactly_once
              false connected_provider sample_tab sample_reply 2 [])
    as (w0 & E0 & H); [reflexivity|lia|].
  injection E0 as <-.
  eexists _, _. split; [reflexivity|]. split; [reflexivity|].
  destruct (H [load_stop sample_tab; load_start sample_tab; load_stop sample_tab]
              _ eq_refl) as [(G & _)|(_ & _ & w2 & E2 & C2 & _)].
  - vm_compute in G. discriminate.
  - exists w2. split; assumption.
Defined.

Lemma NeedsAuth_spec w h c :
  HandleTracker.GetResource h (tab_tracker_ w) = Some c ->
  NeedsAuth h w = Some (bool_decide (is_Some (login_handler_map_ w !! c)), w).
Proof.
  intros Hr. unfold NeedsAuth. exec_unfold.
  unfold HandleTracker.ContainsHandle. unfold HandleTracker.GetResource in *.
  rewrite Hr. rewrite bool_decide_eq_true_2 by eauto. rewrite Hr.
  destruct (login_handler_map_ w !! c) eqn:E.
  - by rewrite bool_decide_eq_true_2 by eauto.
  - rewrite bool_decide_eq_false_2; [done|]. by intros [? ?].
Qed.

(** X2. An [AUTH_NEEDED] notification for the tab of a waiting navigation
    observer.  Compiled for Windows and with the navigation started, the
    login handler of the notification is recorded for the tab, the reply
    goes out with [AUTOMATION_MSG_NAVIGATION_AUTH_NEEDED], the observer
    is gone and [NeedsAuth] answers true for the tab's handle; with the
    navigation not started the observer runs into [NOTREACHED].
    Compiled for another platform nothing is sent, the observer waits as
    before and no login handler is recorded. *)
Theorem auth_needed_is_answered_on_windows_only
    (w : World) (a : addr) (c : ptr) (m : Message) (n : Z)
    (started : bool) (sent : list Message) (handler : ptr) (h : Z) :
  nav_waiting w a c m n started ->
  channel_ w = Some sent ->
  HandleTracker.GetResource h (tab_tracker_ w) = Some c ->
  let ntf := mkNotification AUTH_NEEDED c (LoginNotificationDetails handler) in
  (started = true ->
   exists w1,
     deliver true a ntf w = Some (tt, w1) /\
     channel_ w1 =
       Some (sent ++ [navigation_reply m AUTOMATION_MSG_NAVIGATION_AUTH_NEEDED]) /\
     objects w1 !! a = None /\
     login_handler_map_ w1 !! c = Some handler /\
     NeedsAuth h w1 = Some (true, w1)) /\
  (started = false -> deliver true a ntf w = None) /\
  (exists w1,
     deliver false a ntf w = Some (tt, w1) /\
     channel_ w1 = Some sent /\
     nav_waiting w1 a c m n started /\
     login_handler_map_ w1 = login_handler_map_ w).
Proof.
  intros H C Hr ntf. unfold nav_waiting in *.
  assert (forall os, deliver os a ntf w = Observe os a ntf w) as Hd.
  { intros os. unfold deliver. rewrite H. cbn [registrar_of Nav.registrar_].
    by rewrite registered_source by (cbn; tauto). }
  rewrite !Hd. unfold Observe. rewrite H.
  unfold NavigationNotificationObserver_Observe,
    NavigationNotificationObserver_ConditionMet,
    NavigationNotificationObserver_dtor, AddLoginHandler.
  split; [|split].
  - intros ->. destruct w; cbn in *. exec_unfold. cbn. rewrite H. cbn.
    rewrite lookup_insert_eq. cbn. rewrite C. cbn.
    rewrite lookup_insert_eq. cbn.
    eexists. split; [reflexivity|]. cbn.
    rewrite lookup_delete_eq, lookup_insert_eq. repeat split.
    erewrite NeedsAuth_spec by (cbn; exact Hr). cbn.
    rewrite lookup_insert_eq. by rewrite bool_decide_eq_true_2 by eauto.
  - intros ->. exec_unfold. by rewrite H.
  - exec_unfold. rewrite H. cbn. eexists. split; [reflexivity|]. by cbn.
Qed.

Lemma auth_needed_is_answered_on_windows_only_witness :
  (exists w1,
     deliver true O
       (mkNotification AUTH_NEEDED sample_tab
          (LoginNotificationDetails sample_login_handler)) sample_waiting
       = Some (tt, w1) /\
     channel_ w1 =
       Some ([] ++ [navigation_reply sample_reply
                      AUTOMATION_MSG_NAVIGATION_AUTH_NEEDED]) /\
     NeedsAuth 1 w1 = Some (true, w1)) /\
  (exists w1,
     deliver false O
       (mkNotification AUTH_NEEDED sample_tab
          (LoginNotificationDetails sample_login_handler)) sample_waiting
       = Some (tt, w1) /\
     channel_ w1 = Some []).
Proof.
  destruct (auth_needed_is_answered_on_windows_only
              sample_waiting O sample_tab sample_reply 1 true []
              sample_login_handler 1)
    as (Hwin & _ & w1 & E1 & C1 & _); [reflexivity|reflexivity|reflexivity|].
  split.
  - destruct (Hwin eq_refl) as (w2 & E2 & C2 & _ & _ & N2).
    exists w2. split; [exact E2|]. split; [exact C2|exact N2].
  - exists w1. split; [exact E1|exact C1].
Defined.

(** X3. An [AUTH_SUPPLIED] notification for the tab of a navigation
    observer that waits for its last navigation.  Without a login
    handler recorded for the tab the [DCHECK] of [RemoveLoginHandler]
    fails.  With one, the handler is forgotten, so that [NeedsAuth]
    answers false, nothing is sent, and the navigation counts as started
    whether it was or not: the next load stop sends the reply with
    [AUTOMATION_MSG_NAVIGATION_SUCCESS] and the observer is gone. *)
Theorem auth_supplied_resumes_navigation
    (OS_WIN : bool) (w : World) (a : addr) (c : ptr) (m : Message)
    (started : bool) (sent : list Message) (h : Z) :
  nav_waiting w a c m 1 started ->
  channel_ w = Some sent ->
  HandleTracker.GetResource h (tab_tracker_ w) = Some c ->
  let supplied := mkNotification AUTH_SUPPLIED c NoDetails in
  (login_handler_map_ w !! c = None ->
   deliver OS_WIN a supplied w = None) /\
  (forall handler,
     login_handler_map_ w !! c = Some handler -> handler <> NULL ->
     exists w1 w2,
       deliver OS_WIN a supplied w = Some (tt, w1) /\
       channel_ w1 = Some sent /\
       NeedsAuth h w1 = Some (false, w1) /\
       deliver OS_WIN a (load_stop c) w1 = Some (tt, w2) /\
       channel_ w2 =
         Some (sent ++ [navigation_reply m AUTOMATION_MSG_NAVIGATION_SUCCESS]) /\
       objects w2 !! a = None).
Proof.
  intros H C Hr supplied. unfold nav_waiting in H.
  assert (deliver OS_WIN a supplied w = Observe OS_WIN a supplied w) as ->.
  { unfold deliver. rewrite H.
    cbn [registrar_of Nav.registrar_].
    by rewrite registered_source by (cbn; tauto). }
  unfold Observe. rewrite H.
  unfold NavigationNotificationObserver_Observe, RemoveLoginHandler.
  exec_unfold. rewrite H. cbn [type supplied Nav.controller_]. split.
  - intros ->. done.
  - intros handler Hl Hh. rewrite Hl.
    change (default NULL (Some handler)) with handler.
    apply Z.eqb_neq in Hh. rewrite Hh. cbn.
    set (w1 := set_objects
                 (<[a := ObsNavigation
                           (Nav.mk (nav_registrar c) (Some m) c 1 true)]>
                    (objects w))
                 (set_login_handler_map_ (delete c (login_handler_map_ w)) w)).
    destruct (nav_deliver_stop_last OS_WIN w1 a c m sent)
      as (w2 & E2 & C2 & G2).
    { unfold nav_waiting, w1. cbn. apply lookup_insert_eq. }
    { exact C. }
    exists w1, w2. split; [reflexivity|]. split; [exact C|].
    split; [|done].
    erewrite NeedsAuth_spec by (cbn; exact Hr). cbn.
    rewrite lookup_delete_eq. rewrite bool_decide_eq_false_2; [done|].
    by intros [? ?].
Qed.

Lemma auth_supplied_resumes_navigation_witness :
  exists w1 w2,
    deliver true O (mkNotification AUTH_SUPPLIED sample_tab NoDetails)
      sample_prompting = Some (tt, w1) /\
    NeedsAuth 1 w1 = Some (false, w1) /\
    deliver true O (load_stop sample_tab) w1 = Some (tt, w2) /\
    channel_ w2 =
      Some ([] ++ [navigation_reply sample_reply
                     AUTOMATION_MSG_NAVIGATION_SUCCESS]).
Proof.
  destruct (auth_supplied_resumes_navigation
              true sample_prompting O sample_tab sample_reply true [] 1)
    as (_ & H); [reflexivity|reflexivity|reflexivity|].
  destruct (H sample_login_handler) as (w1 & w2 & E1 & _ & N1 & E2 & C2 & _);
    [reflexivity|discriminate|].
  exists w1, w2. repeat apply conj; assumption.
Defined.

(** Teardown *)

Lemma pending_reply_waiting w a m :
  pending_reply w a = Some m ->
  exists o, objects w !! a = Some (ObsNavigation o) /\
            Nav.reply_message_ o = Some m.
Proof.
  unfold pending_reply. destruct (objects w !! a) as [[o| | |]|]; try done.
  eauto.
Qed.

Lemma destroy_pending w a m sent :
  pending_reply w a = Some m ->
  channel_ w = Some sent ->
  destroy a w =
    Some (tt,
          set_objects (delete a (objects w))
            (set_notification_observer_list_
               (filter (fun b => b <> a) (notification_observer_list_ w))
               (set_channel_
                  (Some (sent ++ [navigation_reply m
                                    AUTOMATION_MSG_NAVIGATION_ERROR])) w))).
Proof.
  intros Hp C. apply pending_reply_waiting in Hp as (o & H & M).
  unfold destroy. rewrite H.
  unfold NavigationNotificationObserver_dtor.
  destruct w; cbn in *. exec_unfold. cbn. rewrite H. cbn. rewrite M, C. cbn.
  by rewrite delete_insert_eq.
Qed.

Lemma filter_keeps_all {A} (P : A -> Prop) `{!forall x, Decision (P x)}
    (l : list A) :
  (forall x, x ∈ l -> P x) -> filter P l = l.
Proof.
  induction l as [|x l IH]; intros Hall; [done|].
  rewrite filter_cons_True by (apply Hall; by left).
  f_equal. apply IH. intros y Hy. apply Hall. by right.
Qed.

Lemma filter_drops_all {A} (P : A -> Prop) `{!forall x, Decision (P x)}
    (l : list A) :
  (forall x, x ∈ l -> ~ P x) -> filter P l = [].
Proof.
  induction l as [|x l IH]; intros Hall; [done|].
  rewrite filter_cons_False by (apply Hall; by left).
  apply IH. intros y Hy. apply Hall. by right.
Qed.

Lemma delete_observers_pending l :
  forall w sent,
    NoDup l ->
    (forall a, a ∈ l ->
       a ∈ notification_observer_list_ w /\ is_Some (pending_reply w a)) ->
    channel_ w = Some sent ->
    exists w',
      delete_observers l w = Some (tt, w') /\
      channel_ w' = Some (sent ++ omap (error_reply_of w) l) /\
      (forall a, a ∈ l -> objects w' !! a = None) /\
      (forall a, a ∉ l -> objects w' !! a = objects w !! a) /\
      notification_observer_list_ w' =
        filter (fun b => b ∉ l) (notification_observer_list_ w).
Proof.
  induction l as [|a l IH]; intros w sent Hnd Hall C.
  - exists w. cbn. rewrite app_nil_r. repeat split; try done.
    + intros a Ha. by apply elem_of_nil in Ha.
    + symmetry. apply filter_keeps_all. intros b _. apply not_elem_of_nil.
  - apply NoDup_cons in Hnd as [Hna Hnd].
    destruct (Hall a) as [Hin [m Hm]]; [by left|].
    pose proof (destroy_pending w a m sent Hm C) as Ed.
    set (w1 := set_objects (delete a (objects w))
                 (set_notification_observer_list_
                    (filter (fun b => b <> a) (notification_observer_list_ w))
                    (set_channel_
                       (Some (sent ++ [navigation_reply m
                                         AUTOMATION_MSG_NAVIGATION_ERROR])) w)))
      in *.
    assert (forall b, b <> a -> pending_reply w1 b = pending_reply w b) as Hpr.
    { intros b Hb. unfold pending_reply, w1. cbn.
      by rewrite lookup_delete_ne. }
    destruct (IH w1 (sent ++ [navigation_reply m AUTOMATION_MSG_NAVIGATION_ERROR]))
      as (w' & E & C' & Hgone & Hkeep & Hlist); [done| |done|].
    { intros b Hb. assert (b <> a) by (intros ->; done).
      destruct (Hall b) as [Hbin Hbp]; [by right|].
      split; [|by rewrite Hpr].
      unfold w1. cbn. apply list_elem_of_filter. done. }
    exists w'. cbn [delete_observers]. exec_unfold.
    rewrite bool_decide_eq_true_2 by done. rewrite Ed. fold w1.
    split; [exact E|]. split; [|split; [|split]].
    + rewrite C'. cbn [omap list_omap]. unfold error_reply_of at 2.
      rewrite Hm. cbn. rewrite <- app_assoc. cbn. do 3 f_equal.
      apply list_omap_ext. apply Forall2_same_length_lookup_2; [done|].
      intros i x y Hx Hy. assert (x = y) as -> by congruence.
      unfold error_reply_of. rewrite Hpr; [done|].
      intros ->. apply Hna. by eapply list_elem_of_lookup_2.
    + intros b [->|Hb]%elem_of_cons; [|by apply Hgone].
      rewrite Hkeep by done. unfold w1. cbn. apply lookup_delete_eq.
    + intros b Hb. apply not_elem_of_cons in Hb as [Hba Hbl].
      rewrite Hkeep by done. unfold w1. cbn. by rewrite lookup_delete_ne.
    + rewrite Hlist. unfold w1. cbn. rewrite list_filter_filter.
      apply list_filter_iff. intros b. rewrite not_elem_of_cons. tauto.
Qed.

(** X4. The loop of [~AutomationProvider] over the observer list, when
    the list holds navigation observers that still hold their replies,
    each once: every one of them is deleted and sends its reply with
    [AUTOMATION_MSG_NAVIGATION_ERROR], in the order of the list, so that
    as many replies go out as the list is long; the list ends empty, and
    an observer that is not on the list is neither deleted nor
    answered. *)
Theorem teardown_answers_listed_navigation_observers
    (w : World) (sent : list Message) :
  channel_ w = Some sent ->
  NoDup (notification_observer_list_ w) ->
  (forall a, a ∈ notification_observer_list_ w -> is_Some (pending_reply w a)) ->
  exists w',
    delete_outstanding_observers w = Some (tt, w') /\
    channel_ w' =
      Some (sent ++ omap (error_reply_of w) (notification_observer_list_ w)) /\
    length (omap (error_reply_of w) (notification_observer_list_ w))
      = length (notification_observer_list_ w) /\
    notification_observer_list_ w' = [] /\
    (forall a, a ∈ notification_observer_list_ w -> objects w' !! a = None) /\
    (forall a, a ∉ notification_observer_list_ w ->
       objects w' !! a = objects w !! a).
Proof.
  intros C Hnd Hall.
  destruct (delete_observers_pending (notification_observer_list_ w) w sent)
    as (w' & E & C' & Hgone & Hkeep & Hlist); [done| |done|].
  { intros a Ha. split; [done|]. by apply Hall. }
  exists w'. unfold delete_outstanding_observers. exec_unfold.
  split; [exact E|]. split; [exact C'|]. split; [|split; [|done]].
  - clear -Hall. induction (notification_observer_list_ w) as [|a l IH];
      [done|].
    cbn [omap list_omap]. unfold error_reply_of at 1.
    destruct (Hall a) as [m ->]; [by left|]. cbn. f_equal.
    apply IH. intros b Hb. apply Hall. by right.
  - rewrite Hlist. apply filter_drops_all. intros b Hb. tauto.
Qed.

Lemma teardown_answers_listed_navigation_observers_witness :
  exists w',
    delete_outstanding_observers sample_two_listeners = Some (tt, w') /\
    channel_ w' =
      Some ([] ++ [navigation_reply sample_reply
                     AUTOMATION_MSG_NAVIGATION_ERROR;
                   navigation_reply (mkMessage 2 [])
                     AUTOMATION_MSG_NAVIGATION_ERROR]) /\
    is_Some (objects w' !! 2%nat).
Proof.
  destruct (teardown_answers_listed_navigation_observers
              sample_two_listeners [])
    as (w' & E & C & _ & _ & _ & Hkeep).
  - reflexivity.
  - apply NoDup_cons. split; [|apply NoDup_singleton].
    intros H%list_elem_of_singleton. discriminate.
  - intros a [->|[->|[]%elem_of_nil]%elem_of_cons]%elem_of_cons;
      vm_compute; eauto.
  - exists w'. split; [exact E|]. split; [exact C|].
    rewrite Hkeep.
    + vm_compute. eauto.
    + intros [|[|[]%elem_of_nil]%elem_of_cons]%elem_of_cons; discriminate.
Defined.


Lemma GetResource_tracked h tr c :
  HandleTracker.GetResource h tr = Some c ->
  HandleTracker.ContainsHandle h tr = true.
Proof.
  unfold HandleTracker.GetResource, HandleTracker.ContainsHandle.
  intros ->. by rewrite bool_decide_eq_true_2 by eauto.
Qed.

(** X5. [NavigateToURLBlockUntilNavigationsComplete] at a tracked tab
    handle, for [1 <= N <= INT_MAX] navigations.  If no browser has the
    tab, the reply goes out at once with
    [AUTOMATION_MSG_NAVIGATION_ERROR].  Otherwise nothing is sent yet:
    the tab is activated, a navigation observer holding the reply is
    created and put on the provider's list, the URL is opened, in this
    order; and [N] pairs of load start and load stop of the tab then
    send the reply with [AUTOMATION_MSG_NAVIGATION_SUCCESS] and free the
    observer. *)
Theorem navigate_tracked_handle_registers_observer
    (OS_WIN : bool) (w : World) (handle : Z) (url : string) (N : Z)
    (m : Message) (sent : list Message) (c : ptr) :
  HandleTracker.GetResource handle (tab_tracker_ w) = Some c ->
  channel_ w = Some sent ->
  1 <= N <= INT_MAX ->
  (GetBrowserForController c (BrowserList w) = None ->
   NavigateToURLBlockUntilNavigationsComplete handle url N m w =
     Some (tt, set_channel_
                 (Some (sent ++ [navigation_reply m
                                   AUTOMATION_MSG_NAVIGATION_ERROR])) w)) /\
  (forall b i,
     GetBrowserForController c (BrowserList w) = Some (b, i) ->
     exists w1 w2,
       NavigateToURLBlockUntilNavigationsComplete handle url N m w
         = Some (tt, w1) /\
       channel_ w1 = Some sent /\
       nav_waiting w1 (next_object w) c m N false /\
       notification_observer_list_ w1 =
         notification_observer_list_ w ++ [next_object w] /\
       browser_calls w1 =
         browser_calls w ++
         [SelectTabContentsAt (browser_id b) i; OpenURL (browser_id b) url] /\
       deliver_all OS_WIN (next_object w) (load_pairs c (Z.to_nat N)) w1
         = Some (tt, w2) /\
       channel_ w2 =
         Some (sent ++ [navigation_reply m AUTOMATION_MSG_NAVIGATION_SUCCESS]) /\
       objects w2 !! next_object w = None).
Proof.
  intros Hr C HN.
  pose proof (GetResource_tracked _ _ _ Hr) as Ht.
  unfold NavigateToURLBlockUntilNavigationsComplete, FindAndActivateTab,
    AddNavigationStatusListener, NavigationNotificationObserver_ctor.
  exec_unfold. rewrite Ht, Hr. split.
  - intros ->. by rewrite C.
  - intros b i ->. cbn.
    assert ((0 <? N) = true) as -> by lia. cbn.
    eexists.
    set (w1 := set_browser_calls _ _).
    assert (nav_waiting w1 (next_object w) c m N false) as Hw1.
    { unfold nav_waiting, w1. cbn. apply lookup_insert_eq. }
    destruct (Z.to_nat N) as [|n] eqn:En; [lia|].
    assert (N = Z.of_nat (S n)) as HNn by lia.
    rewrite HNn in Hw1.
    destruct (nav_pairs OS_WIN (next_object w) c m sent n w1 Hw1)
      as [_ (w2 & E2 & C2 & G2)]; [lia|exact C|].
    exists w2. split; [reflexivity|]. fold w1. rewrite <- HNn in Hw1.
    repeat split; try done.
    unfold w1. cbn. by rewrite <- app_assoc.
Qed.

Lemma navigate_tracked_handle_registers_observer_witness :
  exists w1 w2,
    NavigateToURLBlockUntilNavigationsComplete 1 "about:blank" 1 sample_reply
      sample_tab_provider = Some (tt, w1) /\
    channel_ w1 = Some [] /\
    browser_calls w1 = [] ++ [SelectTabContentsAt 9 0; OpenURL 9 "about:blank"] /\
    deliver_all false O (load_pairs sample_tab 1) w1 = Some (tt, w2) /\
    channel_ w2 =
      Some ([] ++ [navigation_reply sample_reply
                     AUTOMATION_MSG_NAVIGATION_SUCCESS]).
Proof.
  destruct (navigate_tracked_handle_registers_observer
              false sample_tab_provider 1 "about:blank" 1 sample_reply []
              sample_tab)
    as (_ & H); [reflexivity|reflexivity|unfold INT_MAX; lia|].
  destruct (H (mkBrowser 9 100 [5]) 0 eq_refl)
    as (w1 & w2 & E1 & C1 & _ & _ & B1 & E2 & C2 & _).
  exists w1, w2. repeat apply conj; assumption.
Defined.


(** X7. [CloseTab] at a tracked handle whose tab is in a browser sends
    nothing: it creates an observer holding the reply and asks the
    browser to close the tab; the observer is not put on the provider's
    list.  The observer waits for [TAB_CLOSED] if [wait_until_closed]
    and for [TAB_CLOSING] otherwise; the other of the two does not reach
    it.  The awaited notification from any source whatever, not only
    from the tab that is being closed, sends the reply true and frees
    the observer. *)
Theorem close_tab_tracked_handle_answers_on_any_tab
    (OS_WIN : bool) (w : World) (tab_handle : Z) (wait_until_closed : bool)
    (m : Message) (sent : list Message) (c : ptr) (b : Browser) (i : Z) :
  HandleTracker.GetResource tab_handle (tab_tracker_ w) = Some c ->
  GetBrowserForController c (BrowserList w) = Some (b, i) ->
  channel_ w = Some sent ->
  let a := next_object w in
  let awaited := if wait_until_closed then TAB_CLOSED else TAB_CLOSING in
  let other := if wait_until_closed then TAB_CLOSING else TAB_CLOSED in
  exists w1,
    CloseTab tab_handle wait_until_closed m w = Some (tt, w1) /\
    channel_ w1 = Some sent /\
    browser_calls w1 = browser_calls w ++ [CloseContents (browser_id b) c] /\
    notification_observer_list_ w1 = notification_observer_list_ w /\
    (forall src det,
       deliver OS_WIN a (mkNotification other src det) w1 = Some (tt, w1)) /\
    (forall src det,
       exists w2,
         deliver OS_WIN a (mkNotification awaited src det) w1 = Some (tt, w2) /\
         channel_ w2 = Some (sent ++ [bool_reply m true]) /\
         objects w2 !! a = None).
Proof.
  intros Hr Hb C a awaited other. subst a.
  pose proof (GetResource_tracked _ _ _ Hr) as Ht.
  unfold CloseTab, TabClosedNotificationObserver_ctor.
  exec_unfold. rewrite Ht, Hr, Hb. cbn.
  eexists. split; [reflexivity|]. cbn.
  split; [exact C|]. split; [done|]. split; [done|]. split.
  - intros src det. unfold deliver. cbn. rewrite lookup_insert_eq. cbn.
    subst other. destruct wait_until_closed; reflexivity.
  - intros src det. unfold deliver. cbn. rewrite lookup_insert_eq. cbn.
    assert (bool_decide ((if wait_until_closed then TAB_CLOSED else TAB_CLOSING)
                         = awaited) = true) as -> by
      (subst awaited; by destruct wait_until_closed).
    cbn. unfold Observe. cbn. rewrite lookup_insert_eq.
    unfold TabClosedNotificationObserver_Observe,
      TabClosedNotificationObserver_ObserveTab.
    exec_unfold. cbn. rewrite lookup_insert_eq. cbn.
    assert (bool_decide (awaited
              = (if wait_until_closed then TAB_CLOSED else TAB_CLOSING)) = true)
      as -> by (subst awaited; by destruct wait_until_closed).
    rewrite ?lookup_insert_eq. cbn. rewrite ?lookup_insert_eq. cbn.
    rewrite C. cbn.
    eexists. split; [reflexivity|]. cbn. by rewrite lookup_delete_eq.
Qed.

Lemma close_tab_tracked_handle_answers_on_any_tab_witness :
  exists w1 w2,
    CloseTab 1 true sample_reply sample_tab_provider = Some (tt, w1) /\
    channel_ w1 = Some [] /\
    deliver false O (mkNotification TAB_CLOSING sample_tab NoDetails) w1
      = Some (tt, w1) /\
    deliver false O (mkNotification TAB_CLOSED 6 NoDetails) w1
      = Some (tt, w2) /\
    channel_ w2 = Some ([] ++ [bool_reply sample_reply true]).
Proof.
  destruct (close_tab_tracked_handle_answers_on_any_tab
              false sample_tab_provider 1 true sample_reply [] sample_tab
              (mkBrowser 9 100 [5]) 0)
    as (w1 & E1 & C1 & _ & _ & Hother & Hawaited);
    [reflexivity|reflexivity|reflexivity|].
  destruct (Hawaited 6 NoDetails) as (w2 & E2 & C2 & _).
  exists w1, w2. split; [exact E1|]. split; [exact C1|].
  split; [exact (Hother sample_tab NoDetails)|]. split; [exact E2|exact C2].
Defined.

(** X8. [ActivateTab] at a tracked browser handle answers 0 and selects
    the tab exactly when [0 <= at_index < tab count]; for any other
    index it answers -1 and calls nothing on the browser. *)
Theorem activate_tab_stays_in_range
    (w : World) (handle at_index : Z) (browser : ptr) (b : Browser) :
  HandleTracker.GetResource handle (browser_tracker_ w) = Some browser ->
  Browser_at browser w = Some (b, w) ->
  Z.of_nat (length (browser_tabs b)) <= INT_MAX ->
  ActivateTab handle at_index w =
    if bool_decide (0 <= at_index < Z.of_nat (length (browser_tabs b)))
    then Some (0, set_browser_calls
                    (browser_calls w ++ [SelectTabContentsAt browser at_index])
                    w)
    else Some (-1, w).
Proof.
  intros Hr Hb Hmax.
  pose proof (GetResource_tracked _ _ _ Hr) as Ht.
  assert (tab_count b = Z.of_nat (length (browser_tabs b))) as Hcount.
  { apply wrap_int_id. unfold is_int, INT_MIN, INT_MAX in *. lia. }
  unfold ActivateTab. exec_unfold. rewrite Ht. cbn [andb].
  case_bool_decide as Hi.
  - assert ((-1 <? at_index) = true) as -> by lia. rewrite Hr, Hb, Hcount.
    assert ((0 <=? at_index) = true) as -> by lia.
    assert ((at_index <? Z.of_nat (length (browser_tabs b))) = true) as ->
      by lia.
    reflexivity.
  - destruct (-1 <? at_index) eqn:E1; [|done]. rewrite Hr, Hb, Hcount.
    destruct (0 <=? at_index) eqn:E2; [|done].
    destruct (at_index <? Z.of_nat (length (browser_tabs b))) eqn:E3; [|done].
    lia.
Qed.

Lemma activate_tab_stays_in_range_witness :
  ActivateTab 1 0 sample_provider =
    Some (0, set_browser_calls ([] ++ [SelectTabContentsAt 9 0])
               sample_provider) /\
  ActivateTab 1 1 sample_provider = Some (-1, sample_provider).
Proof.
  split.
  - apply (activate_tab_stays_in_range sample_provider 1 0 9
             (mkBrowser 9 100 [5]));
      [reflexivity|reflexivity|unfold INT_MAX; cbn; lia].
  - apply (activate_tab_stays_in_range sample_provider 1 1 9
             (mkBrowser 9 100 [5]));
      [reflexivity|reflexivity|unfold INT_MAX; cbn; lia].
Defined.

Lemma Add_GetResource r tr :
  HandleTracker.wf tr ->
  HandleTracker.GetResource (fst (HandleTracker.Add r tr))
                            (snd (HandleTracker.Add r tr)) = Some r.
Proof.
  intros [Hinv _]. unfold HandleTracker.Add, HandleTracker.GetResource.
  destruct (HandleTracker.resource_to_handle_ tr !! r) as [h|] eqn:E; cbn.
  - by apply Hinv.
  - by rewrite lookup_insert_eq.
Qed.

Lemma Add_keeps r tr h r' :
  HandleTracker.wf tr ->
  HandleTracker.GetResource h tr = Some r' ->
  HandleTracker.GetResource h (snd (HandleTracker.Add r tr)) = Some r'.
Proof.
  intros [Hinv Hmax]. unfold HandleTracker.Add, HandleTracker.GetResource.
  intros Hh.
  destruct (HandleTracker.resource_to_handle_ tr !! r) as [h0|] eqn:E; cbn;
    [done|].
  rewrite lookup_insert_ne; [done|]. apply Hmax in Hh. lia.
Qed.

Lemma BrowserList_advance_drop iter index :
  is_int index -> 0 <= index ->
  BrowserList_advance iter index = drop (Z.to_nat index) iter.
Proof.
  revert index. induction iter as [|b rest IH]; intros index Hint Hpos.
  - by rewrite drop_nil.
  - cbn [BrowserList_advance]. destruct (0 <? index) eqn:E.
    + rewrite wrap_int_id by (unfold is_int, INT_MIN, INT_MAX in *; lia).
      rewrite IH by (unfold is_int, INT_MIN, INT_MAX in *; lia).
      replace (Z.to_nat index) with (S (Z.to_nat (index - 1))) by lia.
      done.
    + replace index with 0 by lia. done.
Qed.

(** X9. [GetBrowserWindow] for an [int] index.  If the browser list has
    a browser at the index, the answer is a handle under which the
    browser tracker then holds that browser; the handles tracked before
    keep their browsers, nothing but the tracker has changed, and asking
    again gives the same handle and changes nothing.  For a negative
    index or one past the end of the list the answer is 0 and nothing
    has changed. *)
Theorem browser_window_handle_names_indexed_browser
    (w : World) (index : Z) :
  is_int index ->
  HandleTracker.wf (browser_tracker_ w) ->
  exists h w',
    GetBrowserWindow index w = Some (h, w') /\
    match (if 0 <=? index then BrowserList w !! Z.to_nat index else None) with
    | Some b =>
        HandleTracker.GetResource h (browser_tracker_ w')
          = Some (browser_id b) /\
        HandleTracker.wf (browser_tracker_ w') /\
        (forall h0 r, HandleTracker.GetResource h0 (browser_tracker_ w)
                        = Some r ->
                      HandleTracker.GetResource h0 (browser_tracker_ w')
                        = Some r) /\
        w' = set_browser_tracker_ (browser_tracker_ w') w /\
        GetBrowserWindow index w' = Some (h, w')
    | None => h = 0 /\ w' = w
    end.
Proof.
  intros Hint Hwf. unfold GetBrowserWindow.
  destruct (0 <=? index) eqn:Hpos; [|by eexists _, _].
  exec_unfold. rewrite BrowserList_advance_drop by (done || lia).
  destruct (BrowserList w !! Z.to_nat index) as [b|] eqn:Hb.
  - rewrite (drop_S _ _ _ Hb). unfold browser_tracker_Add.
    pose proof (Add_GetResource (browser_id b) _ Hwf) as Hget.
    pose proof (HandleTrackerFacts.wf_Add (browser_id b) _ Hwf) as Hwf'.
    pose proof (fun h0 r => Add_keeps (browser_id b) _ h0 r Hwf) as Hkeep.
    destruct (HandleTracker.Add (browser_id b) (browser_tracker_ w))
      as [h tr] eqn:EAdd.
    cbn [fst snd] in *. eexists _, _. split; [reflexivity|].
    split; [by destruct w|]. split; [by destruct w|].
    split; [by destruct w|]. split; [by destruct w|].
    change (BrowserList (set_browser_tracker_ tr w)) with (BrowserList w).
    rewrite BrowserList_advance_drop by (done || lia).
    rewrite (drop_S _ _ _ Hb). unfold browser_tracker_Add.
    change (browser_tracker_ (set_browser_tracker_ tr w)) with tr in *.
    unfold HandleTracker.Add.
    destruct Hwf' as [Hinv' _]. apply Hinv' in Hget. rewrite Hget.
    by destruct w.
  - rewrite drop_ge by (apply lookup_ge_None; done). by eexists _, _.
Qed.

Lemma browser_window_handle_names_indexed_browser_witness :
  (exists w', GetBrowserWindow 0 sample_provider = Some (1, w')) /\
  GetBrowserWindow 1 sample_provider = Some (0, sample_provider).
Proof.
  assert (HandleTracker.wf (browser_tracker_ sample_provider)) as Hwf
    by exact (HandleTrackerFacts.wf_Add 9 _ HandleTrackerFacts.wf_empty).
  split.
  - destruct (browser_window_handle_names_indexed_browser sample_provider 0)
      as (h & w' & E & _); [unfold is_int, INT_MIN, INT_MAX; lia|exact Hwf|].
    exists w'. rewrite E. f_equal. f_equal.
    vm_compute in E. by injection E as <- _.
  - destruct (browser_window_handle_names_indexed_browser sample_provider 1)
      as (h & w' & E & -> & ->);
      [unfold is_int, INT_MIN, INT_MAX; lia|exact Hwf|].
    exact E.
Defined.

Lemma index_of_Some x l i : index_of x l = Some i -> l !! i = Some x.
Proof.
  revert i. induction l as [|y l IH]; intros i; cbn; [done|].
  case_bool_decide as E.
  - intros [= <-]. by subst.
  - destruct (index_of x l) as [k|]; cbn; [|done].
    intros [= <-]. cbn. by apply IH.
Qed.

Lemma index_of_lookup x l i :
  NoDup l -> l !! i = Some x -> index_of x l = Some i.
Proof.
  revert i. induction l as [|y l IH]; intros i Hnd; [done|].
  apply NoDup_cons in Hnd as [Hy Hnd]. destruct i as [|i]; cbn.
  - intros [= ->]. by rewrite bool_decide_eq_true_2.
  - intros Hx. rewrite bool_decide_eq_false_2.
    + by rewrite (IH i Hnd Hx).
    + intros ->. apply Hy. by eapply list_elem_of_lookup_2.
Qed.

Lemma GetBrowserForController_unique c b j browsers :
  NoDup (concat (browser_tabs <$> browsers)) ->
  b ∈ browsers ->
  browser_tabs b !! j = Some c ->
  GetBrowserForController c browsers = Some (b, Z.of_nat j).
Proof.
  induction browsers as [|b0 rest IH]; intros Hnd Hb Hc.
  - by apply elem_of_nil in Hb.
  - cbn in Hnd. apply NoDup_app in Hnd as (Hnd0 & Hdisj & Hndr).
    cbn [GetBrowserForController].
    apply elem_of_cons in Hb as [<-|Hb].
    + by rewrite (index_of_lookup _ _ _ Hnd0 Hc).
    + destruct (index_of c (browser_tabs b0)) as [i|] eqn:E.
      * exfalso. apply index_of_Some in E.
        apply (Hdisj c); [by eapply list_elem_of_lookup_2|].
        apply list_elem_of_lookup_2 in Hc. clear -Hc Hb.
        induction rest as [|b1 rest IH]; [by apply elem_of_nil in Hb|].
        cbn. apply elem_of_app.
        apply elem_of_cons in Hb as [<-|Hb]; [by left|right; by apply IH].
      * by apply IH.
Qed.

Lemma Browser_at_elem browser b w w' :
  Browser_at browser w = Some (b, w') ->
  b ∈ BrowserList w /\ browser_id b = browser /\ w' = w.
Proof.
  unfold Browser_at.
  destruct (List.find _ _) as [b'|] eqn:E; [|done]. intros [= -> <-].
  apply find_some in E as [Hin Hid]. apply bool_decide_eq_true in Hid.
  split; [by apply list_elem_of_In|done].
Qed.

(** X10. [GetTab] and [GetTabIndex] are inverse to each other: for a
    tracked browser and a position of its tab strip, when no tab is in
    two tab strips or twice in one, [GetTab] answers with a handle under
    which the tab tracker holds the tab at the position, [GetTabIndex]
    at that handle answers the position, and asking [GetTab] again gives
    the same handle and changes nothing. *)
Theorem tab_handle_round_trip
    (w : World) (kNoTab win_handle tab_index : Z) (browser c : ptr)
    (b : Browser) :
  HandleTracker.wf (tab_tracker_ w) ->
  HandleTracker.GetResource win_handle (browser_tracker_ w) = Some browser ->
  Browser_at browser w = Some (b, w) ->
  Z.of_nat (length (browser_tabs b)) <= INT_MAX ->
  NoDup (concat (browser_tabs <$> BrowserList w)) ->
  0 <= tab_index ->
  browser_tabs b !! Z.to_nat tab_index = Some c ->
  exists t w1,
    GetTab win_handle tab_index w = Some (t, w1) /\
    w1 = set_tab_tracker_ (tab_tracker_ w1) w /\
    HandleTracker.GetResource t (tab_tracker_ w1) = Some c /\
    GetTabIndex kNoTab t w1 = Some (tab_index, w1) /\
    GetTab win_handle tab_index w1 = Some (t, w1).
Proof.
  intros Hwf Hr Hb Hmax Hnd Hpos Hc.
  pose proof (GetResource_tracked _ _ _ Hr) as Ht.
  assert (tab_count b = Z.of_nat (length (browser_tabs b))) as Hcount.
  { apply wrap_int_id. unfold is_int, INT_MIN, INT_MAX in *. lia. }
  pose proof (lookup_lt_Some _ _ _ Hc) as Hlt.
  assert ((tab_index <? tab_count b) = true) as Hin by (rewrite Hcount; lia).
  assert ((0 <=? tab_index) = true) as Hpos' by lia.
  pose proof (Add_GetResource c _ Hwf) as Hget.
  pose proof (HandleTrackerFacts.wf_Add c _ Hwf) as Hwf'.
  destruct (HandleTracker.Add c (tab_tracker_ w)) as [t tr] eqn:EAdd.
  cbn [fst snd] in *.
  assert (forall w0 : World,
            browser_tracker_ w0 = browser_tracker_ w ->
            BrowserList w0 = BrowserList w ->
            HandleTracker.Add c (tab_tracker_ w0) = (t, tr) ->
            GetTab win_handle tab_index w0
              = Some (t, set_tab_tracker_ tr w0)) as HGetTab.
  { intros w0 E1 E2 E3. unfold GetTab. exec_unfold. rewrite E1, Ht, Hpos'.
    cbn [andb]. rewrite E1, Hr. unfold Browser_at in *. rewrite E2.
    destruct (List.find _ (BrowserList w)) as [b'|]; [|done].
    injection Hb as ->. rewrite Hin, Hc. unfold tab_tracker_Add.
    by rewrite E3. }
  exists t, (set_tab_tracker_ tr w).
  split; [by apply HGetTab|]. split; [by destruct w|].
  split; [by destruct w|]. split.
  - apply Browser_at_elem in Hb as (Hb & _ & _).
    pose proof (GetBrowserForController_unique c b _ _ Hnd Hb Hc) as Hfound.
    unfold GetTabIndex. exec_unfold.
    change (tab_tracker_ (set_tab_tracker_ tr w)) with tr.
    change (BrowserList (set_tab_tracker_ tr w)) with (BrowserList w).
    rewrite (GetResource_tracked _ _ _ Hget). cbv beta iota.
    change (tab_tracker_ (set_tab_tracker_ tr w)) with tr.
    rewrite Hget. cbv beta iota.
    change (BrowserList (set_tab_tracker_ tr w)) with (BrowserList w).
    rewrite Hfound.
    assert (NoDup (browser_tabs b)) as Hndb.
    { clear -Hnd Hb. induction (BrowserList w) as [|b0 rest IH];
        [by apply elem_of_nil in Hb|].
      cbn in Hnd. apply NoDup_app in Hnd as (Hnd0 & _ & Hndr).
      apply elem_of_cons in Hb as [->|Hb]; [done|by apply IH]. }
    rewrite (index_of_lookup _ _ _ Hndb Hc). do 2 f_equal. lia.
  - rewrite HGetTab; [by destruct w|by destruct w|by destruct w|].
    change (tab_tracker_ (set_tab_tracker_ tr w)) with tr.
    unfold HandleTracker.Add. destruct Hwf' as [Hinv' _].
    apply Hinv' in Hget. by rewrite Hget.
Qed.

Lemma tab_handle_round_trip_witness :
  exists t w1,
    GetTab 1 0 sample_provider = Some (t, w1) /\
    GetTabIndex (-1) t w1 = Some (0, w1).
Proof.
  destruct (tab_handle_round_trip sample_provider (-1) 1 0 9 5
              (mkBrowser 9 100 [5]))
    as (t & w1 & E1 & _ & _ & E2 & _).
  - exact HandleTrackerFacts.wf_empty.
  - reflexivity.
  - reflexivity.
  - unfold INT_MAX. cbn. lia.
  - cbn. apply NoDup_singleton.
  - lia.
  - reflexivity.
  - exists t, w1. split; assumption.
Defined.

(** X11. At a handle that neither the browser tracker nor the tab
    tracker contains every query answers with its error value and
    changes nothing: [ActivateTab], [GetTabCount] and [GetTabIndex] with
    -1, [GetTab] with 0, [GetWindowForBrowser], [NavigationAsync] and
    [NeedsAuth] with false. *)
Theorem untracked_handle_gets_error_code
    (w : World) (kNoTab handle index : Z) (url : string) :
  HandleTracker.ContainsHandle handle (browser_tracker_ w) = false ->
  HandleTracker.ContainsHandle handle (tab_tracker_ w) = false ->
  ActivateTab handle index w = Some (-1, w) /\
  GetTabCount handle w = Some (-1, w) /\
  GetTab handle index w = Some (0, w) /\
  GetWindowForBrowser handle w = Some ((false, 0), w) /\
  NavigationAsync handle url w = Some (false, w) /\
  NeedsAuth handle w = Some (false, w) /\
  GetTabIndex kNoTab handle w = Some (-1, w).
Proof.
  intros Hb Ht.
  unfold ActivateTab, GetTabCount, GetTab, GetWindowForBrowser,
    NavigationAsync, NeedsAuth, GetTabIndex.
  exec_unfold. by rewrite Hb, Ht.
Qed.

Lemma untracked_handle_gets_error_code_witness :
  GetTabCount 7 connected_provider = Some (-1, connected_provider) /\
  GetTabIndex (-1) 7 connected_provider = Some (-1, connected_provider).
Proof.
  destruct (untracked_handle_gets_error_code connected_provider (-1) 7 0
              "about:blank")
    as (_ & H1 & _ & _ & _ & _ & H2); [reflexivity|reflexivity|].
  split; assumption.
Defined.

Lemma find_by_id browsers i b :
  NoDup (browser_id <$> browsers) ->
  browsers !! i = Some b ->
  List.find (fun b' => bool_decide (browser_id b' = browser_id b)) browsers
    = Some b.
Proof.
  revert i. induction browsers as [|b0 rest IH]; intros i Hnd; [done|].
  cbn in Hnd. apply NoDup_cons in Hnd as [Hb0 Hnd].
  destruct i as [|i]; cbn.
  - intros [= ->]. by rewrite bool_decide_eq_true_2.
  - intros Hb. rewrite bool_decide_eq_false_2; [by eapply IH|].
    intros E. apply Hb0. rewrite E. apply list_elem_of_fmap. exists b.
    split; [done|]. by eapply list_elem_of_lookup_2.
Qed.

(** X12. The handle [GetBrowserWindow] answers with for a position of
    the browser list makes [GetTabCount] answer with the tab count of
    the browser at that position, an [int] that is the length of its tab
    strip when that fits. *)
Theorem window_handle_reports_tab_count
    (w : World) (index : Z) (b : Browser) :
  is_int index -> 0 <= index ->
  HandleTracker.wf (browser_tracker_ w) ->
  NoDup (browser_id <$> BrowserList w) ->
  BrowserList w !! Z.to_nat index = Some b ->
  exists h w',
    GetBrowserWindow index w = Some (h, w') /\
    GetTabCount h w' = Some (tab_count b, w') /\
    is_int (tab_count b) /\
    (Z.of_nat (length (browser_tabs b)) <= INT_MAX ->
     tab_count b = Z.of_nat (length (browser_tabs b))).
Proof.
  intros Hint Hpos Hwf Hnd Hb.
  assert ((0 <=? index) = true) as Hpos' by lia.
  unfold GetBrowserWindow. rewrite Hpos'. exec_unfold.
  rewrite BrowserList_advance_drop by done.
  rewrite (drop_S _ _ _ Hb). unfold browser_tracker_Add.
  pose proof (Add_GetResource (browser_id b) _ Hwf) as Hget.
  destruct (HandleTracker.Add (browser_id b) (browser_tracker_ w))
    as [h tr] eqn:EAdd.
  cbn [fst snd] in *. eexists _, _. split; [reflexivity|].
  split; [|split].
  - unfold GetTabCount. exec_unfold.
    change (browser_tracker_ (set_browser_tracker_ tr w)) with tr.
    rewrite (GetResource_tracked _ _ _ Hget). cbv beta iota.
    change (browser_tracker_ (set_browser_tracker_ tr w)) with tr.
    rewrite Hget. cbv beta iota. unfold Browser_at.
    change (BrowserList (set_browser_tracker_ tr w)) with (BrowserList w).
    by rewrite (find_by_id _ _ _ Hnd Hb).
  - apply wrap_int_range.
  - intros Hmax. apply wrap_int_id.
    unfold is_int, INT_MIN, INT_MAX in *. lia.
Qed.

Lemma window_handle_reports_tab_count_witness :
  exists h w',
    GetBrowserWindow 0 sample_provider = Some (h, w') /\
    GetTabCount h w' = Some (tab_count (mkBrowser 9 100 [5]), w').
Proof.
  destruct (window_handle_reports_tab_count sample_provider 0
              (mkBrowser 9 100 [5]))
    as (h & w' & E1 & E2 & _).
  - unfold is_int, INT_MIN, INT_MAX. lia.
  - lia.
  - exact (HandleTrackerFacts.wf_Add 9 _ HandleTrackerFacts.wf_empty).
  - cbn. apply NoDup_singleton.
  - reflexivity.
  - exists h, w'. split; assumption.
Defined.

(** X13. [WaitForBrowserWindowCountToBecome] for the count
    [GetBrowserWindowCount] has just reported replies true at once and
    creates no observer. *)
Theorem waiting_for_the_reported_count_is_answered_at_once
    (w : World) (m : Message) (sent : list Message) :
  channel_ w = Some sent ->
  exists n,
    GetBrowserWindowCount w = Some (n, w) /\
    WaitForBrowserWindowCountToBecome n m w
      = Some (tt, set_channel_ (Some (sent ++ [bool_reply m true])) w).
Proof.
  intros C. eexists. split; [reflexivity|].
  unfold WaitForBrowserWindowCountToBecome. exec_unfold.
  by rewrite Z.eqb_refl, C.
Qed.

Lemma waiting_for_the_reported_count_is_answered_at_once_witness :
  exists n,
    GetBrowserWindowCount sample_provider = Some (n, sample_provider) /\
    WaitForBrowserWindowCountToBecome n sample_reply sample_provider
      = Some (tt, set_channel_ (Some ([] ++ [bool_reply sample_reply true]))
                    sample_provider).
Proof.
  apply (waiting_for_the_reported_count_is_answered_at_once
           sample_provider sample_reply []).
  reflexivity.
Defined.

Ltac subset_tac :=
  first [ done
        | apply union_subseteq_r
        | apply union_least; [by apply singleton_subseteq_l|done]
        | etrans; [eassumption|apply union_subseteq_r] ].

Lemma initial_step N sent o w n :
  initial_inv N sent o w ->
  exists o' w',
    InitialLoadObserver_deliver o n w = Some (o', w') /\
    initial_inv N sent o' w' /\
    Initial.loading_tabs_ o ⊆ Initial.loading_tabs_ o' /\
    Initial.finished_tabs_ o ⊆ Initial.finished_tabs_ o' /\
    w' = set_channel_ (channel_ w') w.
Proof.
  intros (HN & Hsub & Hload & Hst). unfold InitialLoadObserver_deliver.
  destruct Hst as [(Hreg & Hfin & C)|(Hreg & Hfin & C)].
  2:{ rewrite Hreg. cbn. exists o, w. repeat split; try done.
      - right. done.
      - by destruct w. }
  destruct (registered (Initial.registrar_ o) n) eqn:Hr.
  2:{ exists o, w. repeat split; try done.
      - left. done.
      - by destruct w. }
  unfold InitialLoadObserver_Observe, InitialLoadObserver_ConditionMet.
  rewrite Hreg in Hr. destruct n as [ty src det].
  destruct o as [reg out loading finished].
  cbn [Initial.registrar_ Initial.outstanding_tab_count_
       Initial.loading_tabs_ Initial.finished_tabs_ type source] in *.
  subst out reg. exec_unfold.
  destruct (bool_decide (ty = LOAD_START)) eqn:E1.
  - (* LOAD_START *)
    destruct (size loading <? N)%nat eqn:E.
    + apply Nat.ltb_lt in E. eexists _, _. split; [reflexivity|].
      assert (size ({[src]} ∪ loading) <= N)%nat as Hsz.
      { destruct (decide (src ∈ loading)).
        - rewrite subseteq_union_1_L by by apply singleton_subseteq_l. lia.
        - rewrite size_union by set_solver. rewrite size_singleton. lia. }
      unfold initial_inv. cbn.
      repeat split; try done; [subset_tac| |subset_tac|by destruct w].
      left. done.
    + eexists _, _. split; [reflexivity|]. unfold initial_inv. cbn.
      repeat split; try done; [|by destruct w]. left. done.
  - destruct (bool_decide (ty = LOAD_STOP)) eqn:E2.
    + (* LOAD_STOP *)
      assert ((size finished <? N)%nat = true) as -> by by apply Nat.ltb_lt.
      destruct (bool_decide (src ∈ loading)) eqn:Hin;
        cbn [Initial.registrar_ Initial.outstanding_tab_count_
             Initial.loading_tabs_ Initial.finished_tabs_].
      * apply bool_decide_eq_true in Hin.
        destruct (N =? size ({[src]} ∪ finished))%nat eqn:E.
        -- apply Nat.eqb_eq in E. rewrite C.
           eexists _, _. split; [reflexivity|]. unfold initial_inv. cbn.
           repeat split; try done; [subset_tac| |subset_tac].
           right. done.
        -- apply Nat.eqb_neq in E. eexists _, _. split; [reflexivity|].
           assert (size ({[src]} ∪ finished) <= S (size finished))%nat
             as Hsz.
           { destruct (decide (src ∈ finished)).
             - rewrite subseteq_union_1_L by by apply singleton_subseteq_l. lia.
             - rewrite size_union by set_solver.
               rewrite size_singleton. lia. }
           unfold initial_inv. cbn.
           repeat split; try done; [subset_tac| |subset_tac|by destruct w].
           left. split; [done|split; [lia|done]].
      * assert ((N =? size finished)%nat = false) as ->
          by (apply Nat.eqb_neq; lia).
        eexists _, _. split; [reflexivity|]. unfold initial_inv. cbn.
        repeat split; try done; [|by destruct w]. left. done.
    + exfalso. apply bool_decide_eq_false in E1, E2.
      unfold registered, initial_registrar in Hr. cbn in Hr.
      rewrite !andb_true_r, orb_false_r in Hr.
      apply orb_true_iff in Hr as [Hr|Hr];
        apply bool_decide_eq_true in Hr; congruence.
Qed.

Lemma initial_run N sent ns : forall o w,
  initial_inv N sent o w ->
  exists o' w',
    InitialLoadObserver_deliver_all o ns w = Some (o', w') /\
    initial_inv N sent o' w' /\
    w' = set_channel_ (channel_ w') w.
Proof.
  induction ns as [|n ns IH]; intros o w Hinv.
  - exists o, w. split; [done|]. split; [done|]. by destruct w.
  - destruct (initial_step _ _ _ _ n Hinv) as (o1 & w1 & H1 & Hinv1 & _ & _ & E1).
    destruct (IH _ _ Hinv1) as (o2 & w2 & H2 & Hinv2 & E2).
    exists o2, w2. cbn [InitialLoadObserver_deliver_all].
    unfold mbind, Exec_bind. rewrite H1. split; [done|]. split; [done|].
    rewrite E2, E1. by destruct w.
Qed.

(** X14. [SetExpectedTabCount] and the initial-load observer.  For 0
    expected tabs [AutomationMsg_InitialLoadsComplete] is sent at once
    and no observer is set up.  For [N > 0] an observer is set up and
    nothing is sent; whatever notifications are published then, in any
    number and order, every one is processed, the message goes out at
    most once, and it is out exactly when [N] tabs have finished; a
    finished tab is always one that was seen loading, and never more
    than [N] tabs are taken as loading. *)
Theorem initial_loads_complete_is_sent_at_most_once
    (w : World) (sent : list Message) (N : nat) (ns : list Notification) :
  channel_ w = Some sent ->
  match N with
  | O =>
      SetExpectedTabCount N w =
        Some (None,
              set_channel_
                (Some (sent ++ [AutomationMsg_InitialLoadsComplete 0])) w)
  | S _ =>
      exists o0 o' w',
        SetExpectedTabCount N w = Some (Some o0, w) /\
        InitialLoadObserver_deliver_all o0 ns w = Some (o', w') /\
        w' = set_channel_ (channel_ w') w /\
        Initial.finished_tabs_ o' ⊆ Initial.loading_tabs_ o' /\
        (size (Initial.loading_tabs_ o') <= N)%nat /\
        channel_ w' =
          Some (sent ++
                if bool_decide (size (Initial.finished_tabs_ o') = N)
                then [AutomationMsg_InitialLoadsComplete 0] else [])
  end.
Proof.
  intros C. destruct N as [|N'].
  - unfold SetExpectedTabCount. exec_unfold. cbn. by rewrite C.
  - set (N := S N').
    assert (initial_inv N sent (InitialLoadObserver_ctor N) w) as Hinv.
    { unfold initial_inv, InitialLoadObserver_ctor. cbn.
      repeat split; try done; [rewrite size_empty; lia|].
      left. rewrite size_empty. repeat split; try done. lia. }
    destruct (initial_run N sent ns _ _ Hinv) as (o' & w' & Hrun & Hinv' & E).
    exists (InitialLoadObserver_ctor N), o', w'.
    split; [done|]. split; [done|]. split; [done|].
    destruct Hinv' as (_ & Hsub & Hload & Hst).
    split; [done|]. split; [done|].
    destruct Hst as [(_ & Hfin & C')|(_ & Hfin & C')].
    + rewrite bool_decide_eq_false_2 by lia. by rewrite app_nil_r.
    + by rewrite bool_decide_eq_true_2.
Qed.

Lemma initial_loads_complete_is_sent_at_most_once_witness :
  exists o' w',
    InitialLoadObserver_deliver_all (InitialLoadObserver_ctor 1)
      [load_start 5; load_stop 5; load_start 6; load_stop 6; load_stop 5]
      connected_provider = Some (o', w') /\
    channel_ w' = Some ([] ++ [AutomationMsg_InitialLoadsComplete 0]).
Proof.
  destruct (initial_loads_complete_is_sent_at_most_once
              connected_provider [] 1
              [load_start 5; load_stop 5; load_start 6; load_stop 6;
               load_stop 5] eq_refl)
    as (o0 & o' & w' & E0 & E & _ & _ & _ & C).
  injection E0 as <-.
  exists o', w'. split; [exact E|]. rewrite C. do 2 f_equal.
  vm_compute in E. injection E as <- _. reflexivity.
Defined.

Lemma initial_start_step N L F t w :
  (size L < N)%nat ->
  InitialLoadObserver_deliver (Initial.mk initial_registrar N L F)
    (load_start t) w
  = Some (Initial.mk initial_registrar N ({[t]} ∪ L) F, w).
Proof.
  intros Hsz. unfold InitialLoadObserver_deliver, InitialLoadObserver_Observe,
    load_start.
  cbn [Initial.registrar_ Initial.outstanding_tab_count_
       Initial.loading_tabs_ Initial.finished_tabs_ type source load_start].
  assert (registered initial_registrar (mkNotification LOAD_START t NoDetails)
          = true) as -> by done.
  rewrite bool_decide_eq_true_2 by done.
  by rewrite (proj2 (Nat.ltb_lt _ _) Hsz).
Qed.

Lemma initial_stop_step N L F t w sent :
  (size F < N)%nat -> t ∈ L -> channel_ w = Some sent ->
  InitialLoadObserver_deliver (Initial.mk initial_registrar N L F)
    (load_stop t) w
  = if (N =? size ({[t]} ∪ F))%nat
    then Some (Initial.mk [] N L ({[t]} ∪ F),
               set_channel_
                 (Some (sent ++ [AutomationMsg_InitialLoadsComplete 0])) w)
    else Some (Initial.mk initial_registrar N L ({[t]} ∪ F), w).
Proof.
  intros Hsz Ht C.
  unfold InitialLoadObserver_deliver, InitialLoadObserver_Observe,
    InitialLoadObserver_ConditionMet, load_stop.
  cbn [Initial.registrar_ Initial.outstanding_tab_count_
       Initial.loading_tabs_ Initial.finished_tabs_ type source load_stop].
  assert (registered initial_registrar (mkNotification LOAD_STOP t NoDetails)
          = true) as -> by done.
  rewrite bool_decide_eq_false_2 by done.
  rewrite bool_decide_eq_true_2 by done.
  rewrite (proj2 (Nat.ltb_lt _ _) Hsz).
  rewrite bool_decide_eq_true_2 by done.
  cbn [Initial.registrar_ Initial.outstanding_tab_count_
       Initial.loading_tabs_ Initial.finished_tabs_].
  destruct (N =? size ({[t]} ∪ F))%nat; [|done].
  exec_unfold. by rewrite C.
Qed.

Lemma initial_starts N F ts : forall L w,
  NoDup ts -> (forall t, t ∈ ts -> t ∉ L) ->
  (size L + length ts <= N)%nat ->
  InitialLoadObserver_deliver_all (Initial.mk initial_registrar N L F)
    (load_start <$> ts) w
  = Some (Initial.mk initial_registrar N (list_to_set ts ∪ L) F, w).
Proof.
  induction ts as [|t ts IH]; intros L w Hnd Hdisj Hsz.
  - cbn. by rewrite (left_id_L ∅ (∪)).
  - apply NoDup_cons in Hnd as [Ht Hnd]. cbn [fmap list_fmap length] in *.
    cbn [InitialLoadObserver_deliver_all].
    erewrite bind_Some by (apply initial_start_step; lia).
    rewrite IH.
    + f_equal. f_equal. f_equal. cbn.
      by rewrite (assoc_L (∪)), (comm_L (∪) (list_to_set ts) {[t]}).
    + done.
    + intros t' Ht'. apply not_elem_of_union. split.
      * apply not_elem_of_singleton. intros ->. done.
      * apply Hdisj. by apply list_elem_of_further.
    + rewrite size_union, size_singleton; [lia|].
      apply disjoint_singleton_l, Hdisj, list_elem_of_here.
Qed.

Lemma initial_stops N L sent ts : forall F w,
  NoDup ts -> (forall t, t ∈ ts -> t ∉ F) -> (forall t, t ∈ ts -> t ∈ L) ->
  (size F < N)%nat -> (size F + length ts <= N)%nat ->
  channel_ w = Some sent ->
  exists o' w',
    InitialLoadObserver_deliver_all (Initial.mk initial_registrar N L F)
      (load_stop <$> ts) w = Some (o', w') /\
    Initial.loading_tabs_ o' = L /\
    Initial.finished_tabs_ o' = list_to_set ts ∪ F /\
    w' = set_channel_ (channel_ w') w /\
    channel_ w' =
      Some (sent ++ if bool_decide (size F + length ts = N)%nat
                    then [AutomationMsg_InitialLoadsComplete 0] else []).
Proof.
  induction ts as [|t ts IH]; intros F w Hnd Hdisj Hin HF Hsz C.
  - eexists _, _. split; [reflexivity|]. cbn.
    rewrite (left_id_L ∅ (∪)), bool_decide_eq_false_2 by lia.
    rewrite app_nil_r. repeat split; try done. by destruct w.
  - apply NoDup_cons in Hnd as [Ht Hnd]. cbn [fmap list_fmap length] in *.
    cbn [InitialLoadObserver_deliver_all].
    assert (size ({[t]} ∪ F) = S (size F)) as Hsize.
    { rewrite size_union, size_singleton; [lia|].
      apply disjoint_singleton_l, Hdisj, list_elem_of_here. }
    unfold mbind at 1. unfold Exec_bind at 1.
    rewrite (initial_stop_step N L F t w sent HF
               (Hin t (list_elem_of_here _ _)) C).
    rewrite Hsize. destruct (N =? S (size F))%nat eqn:E.
    + apply Nat.eqb_eq in E. destruct ts as [|t' ts]; [|cbn in Hsz; lia].
      eexists _, _. split; [reflexivity|]. cbn.
      rewrite (right_id_L ∅ (∪)), bool_decide_eq_true_2 by lia. done.
    + apply Nat.eqb_neq in E.
      destruct (IH ({[t]} ∪ F) w Hnd) as (o' & w' & Hrun & HL & HF' & Hw & C');
        try done; try lia.
      * intros t' Ht'. apply not_elem_of_union. split.
        -- apply not_elem_of_singleton. intros ->. done.
        -- apply Hdisj. by apply list_elem_of_further.
      * intros t' Ht'. apply Hin. by apply list_elem_of_further.
      * exists o', w'. split; [done|]. split; [done|]. split.
        { rewrite HF'. cbn.
          by rewrite (assoc_L (∪)), (comm_L (∪) (list_to_set ts) {[t]}). }
        split; [done|]. rewrite C', Hsize.
        by replace (S (size F) + length ts)%nat
          with (size F + S (length ts))%nat by lia.
Qed.

Lemma InitialLoadObserver_deliver_all_app o ns1 ns2 w o1 w1 :
  InitialLoadObserver_deliver_all o ns1 w = Some (o1, w1) ->
  InitialLoadObserver_deliver_all o (ns1 ++ ns2) w
    = InitialLoadObserver_deliver_all o1 ns2 w1.
Proof.
  revert o w. induction ns1 as [|n ns1 IH]; intros o w.
  - cbn. by intros [= -> ->].
  - cbn [app InitialLoadObserver_deliver_all]. unfold mbind, Exec_bind.
    destruct (InitialLoadObserver_deliver o n w) as [[o' w']|]; [|done].
    apply IH.
Qed.

(** X15. When the [N > 0] expected tabs, all different, each start
    loading and then [k <= N] of them stop, the initial-load observer
    has all of them as loading and the [k] as finished, and
    [AutomationMsg_InitialLoadsComplete] is out exactly when [k = N]:
    it is the stop of the last tab that sends it. *)
Theorem initial_loads_complete_when_last_tab_stops
    (w : World) (sent : list Message) (tabs : list ptr) (k : nat) :
  channel_ w = Some sent ->
  NoDup tabs -> tabs <> [] -> (k <= length tabs)%nat ->
  exists o w',
    InitialLoadObserver_deliver_all
      (InitialLoadObserver_ctor (length tabs))
      ((load_start <$> tabs) ++ (load_stop <$> take k tabs)) w
      = Some (o, w') /\
    w' = set_channel_ (channel_ w') w /\
    Initial.loading_tabs_ o = list_to_set tabs /\
    Initial.finished_tabs_ o = list_to_set (take k tabs) /\
    channel_ w' =
      Some (sent ++ if bool_decide (k = length tabs)
                    then [AutomationMsg_InitialLoadsComplete 0] else []).
Proof.
  intros C Hnd Hne Hk.
  assert (0 < length tabs)%nat as Hpos by (destruct tabs; [done|cbn; lia]).
  unfold InitialLoadObserver_ctor.
  rewrite (proj2 (Nat.ltb_lt _ _) Hpos).
  fold initial_registrar.
  destruct (initial_stops (length tabs) (list_to_set tabs) sent (take k tabs)
              ∅ w) as (o & w' & Hrun & HL & HF & Hw & C').
  - apply (sublist_NoDup _ tabs); [done|apply sublist_take].
  - intros t _. apply not_elem_of_empty.
  - intros t Ht. apply elem_of_list_to_set.
    apply elem_of_take in Ht as (i & Hi & _). by eapply list_elem_of_lookup_2.
  - rewrite size_empty. lia.
  - rewrite size_empty, length_take. lia.
  - done.
  - exists o, w'. split.
    + pose proof (initial_starts (length tabs) ∅ tabs ∅ w Hnd) as Hs.
      rewrite (right_id_L ∅ (∪)) in Hs. rewrite size_empty in Hs.
      specialize (Hs (fun t _ => not_elem_of_empty t) (le_n _)).
      by rewrite (InitialLoadObserver_deliver_all_app _ _ _ _ _ _ Hs).
    + split; [done|]. split; [done|]. split.
      * by rewrite HF, (right_id_L ∅ (∪)).
      * rewrite C', size_empty, length_take.
        by replace (0 + k `min` length tabs)%nat with k by lia.
Qed.

Lemma initial_loads_complete_when_last_tab_stops_witness :
  (exists o w',
     InitialLoadObserver_deliver_all (InitialLoadObserver_ctor 2)
       [load_start 5; load_start 6; load_stop 5] connected_provider
       = Some (o, w') /\
     channel_ w' = Some ([] ++ [])) /\
  (exists o w',
     InitialLoadObserver_deliver_all (InitialLoadObserver_ctor 2)
       [load_start 5; load_start 6; load_stop 5; load_stop 6]
       connected_provider = Some (o, w') /\
     channel_ w' = Some ([] ++ [AutomationMsg_InitialLoadsComplete 0])).
Proof.
  assert (NoDup [5; 6]) as Hnd.
  { apply NoDup_cons. split; [|apply NoDup_singleton].
    intros H%list_elem_of_singleton. discriminate. }
  split.
  - destruct (initial_loads_complete_when_last_tab_stops
                connected_provider [] [5; 6] 1%nat)
      as (o & w' & E & _ & _ & _ & C);
      [reflexivity|exact Hnd|discriminate|cbn; lia|].
    exists o, w'. split; [exact E|exact C].
  - destruct (initial_loads_complete_when_last_tab_stops
                connected_provider [] [5; 6] 2%nat)
      as (o & w' & E & _ & _ & _ & C);
      [reflexivity|exact Hnd|discriminate|cbn; lia|].
    exists o, w'. split; [exact E|exact C].
Defined.

#[local] Set Warnings "-clear-no-such-hyp".

Section InterceptProperties.
Import ExternalHost.
Variables kTarget kOrigin : string.
Variable Read : string -> option Value.

(** X16. [InterceptBrowserEventMessageFromExternalHost] answers true
    exactly for a message to the browser event target, from the
    automation origin, that reads as a list whose first two elements are
    strings.  An event is dispatched exactly when the answer is true and
    the profile has a message service, and it is those two strings.  An
    intercepted message logs no warning; a refused one logs exactly one,
    except for a wrong target, which is refused silently. *)
Theorem browser_event_is_dispatched_only_when_intercepted
    (has_message_service : bool) (message origin target : string) :
  let out :=
    ExternalHost.InterceptBrowserEventMessageFromExternalHost
      kTarget kOrigin Read
      has_message_service message origin target in
  (intercepted out = true <->
   target = kTarget /\ origin = kOrigin /\
   exists args event_name json_args,
     Read message = Some (ListValue args) /\
     args !! 0%nat = Some (StringValue event_name) /\
     args !! 1%nat = Some (StringValue json_args)) /\
  (forall event_name json_args,
     dispatched out = Some (event_name, json_args) <->
     intercepted out = true /\ has_message_service = true /\
     exists args,
       Read message = Some (ListValue args) /\
       args !! 0%nat = Some (StringValue event_name) /\
       args !! 1%nat = Some (StringValue json_args)) /\
  (intercepted out = true -> warnings out = []) /\
  (intercepted out = false ->
   length (warnings out) = if String.eqb target kTarget then 1%nat else 0%nat).
Proof.
  unfold InterceptBrowserEventMessageFromExternalHost, ListValue_GetString.
  destruct (String.eqb_spec target kTarget) as [->|Ht]; cbn [negb];
    [|cbn; naive_solver].
  destruct (String.eqb_spec origin kOrigin) as [->|Ho]; cbn [negb];
    [|cbn; naive_solver].
  destruct (Read message) as [[| | | |args|]|] eqn:Er; cbn;
    try naive_solver.
  destruct (args !! 0%nat) as [[]|] eqn:E0; cbn; try naive_solver.
  destruct (args !! 1%nat) as [[]|] eqn:E1; cbn; try naive_solver.
  destruct has_message_service; cbn; naive_solver.
Qed.

End InterceptProperties.

#[local] Set Warnings "+clear-no-such-hyp".

(** X17. A port container whose id is not -1 and not in use can be
    added; [GetPortContainer] then finds it under its id and answers for
    every other id as before; adding it a second time fails the
    [DCHECK]; removing it deletes that container and leaves the map as
    it was before the addition, and removing one that was never added
    fails the [DCHECK]. *)
Theorem port_container_round_trip
    (port : ExtensionPortContainer) (port_containers_ : gmap Z ptr) :
  port_id port <> -1 ->
  port_containers_ !! port_id port = None ->
  exists added,
    AddPortContainer port port_containers_ = Some added /\
    GetPortContainer (port_id port) added = port_object port /\
    (forall id, id <> port_id port ->
       GetPortContainer id added = GetPortContainer id port_containers_) /\
    AddPortContainer port added = None /\
    RemovePortContainer port added
      = Some (port_containers_, port_object port) /\
    RemovePortContainer port port_containers_ = None.
Proof.
  intros Hid Hfree.
  unfold AddPortContainer, RemovePortContainer, GetPortContainer.
  rewrite bool_decide_eq_false_2 by done. rewrite Hfree.
  eexists. split; [reflexivity|].
  rewrite lookup_insert_eq. split; [done|]. split.
  - intros id Hne. by rewrite lookup_insert_ne.
  - split; [done|]. split; [|done].
    by rewrite delete_insert_eq, delete_id.
Qed.

Lemma port_container_round_trip_witness :
  exists added,
    AddPortContainer sample_port ∅ = Some added /\
    GetPortContainer 3 added = 40 /\
    RemovePortContainer sample_port added = Some (∅, 40).
Proof.
  destruct (port_container_round_trip sample_port ∅)
    as (added & E1 & E2 & _ & _ & E3 & _); [discriminate|reflexivity|].
  exists added. repeat apply conj; assumption.
Defined.

Section ProxyFieldProperties.
Import SetProxyConfigTask.

Variables kJSONProxyNoProxy kJSONProxyAutoconfig kJSONProxyPacUrl
          kJSONProxyBypassList kJSONProxyServer : string.
Variables GURL ProxyRules BypassList : Type.
Variable GURL_of_string : string -> GURL.
Variable ParseFromString : string -> ProxyRules -> ProxyRules.
Variable ParseNoProxyList : string -> BypassList -> BypassList.

(** X18. [PopulateProxyConfig] field by field.  Each key acts on its
    own field only, and none does when a boolean is under the no-proxy
    key.  The booleans themselves are not looked at: a boolean under the
    auto-config key, false as well as true, switches auto-detect on, and
    nothing switches it off.  A string under the PAC key replaces the
    PAC URL; one under the bypass-list key or the proxy-server key is
    parsed into the bypass list or the rules the configuration had. *)
Theorem proxy_keys_act_on_their_own_field
    (dict : list (string * Value))
    (pc : ProxyConfig GURL ProxyRules BypassList) :
  let populated :=
    SetProxyConfigTask.PopulateProxyConfig
      kJSONProxyNoProxy kJSONProxyAutoconfig kJSONProxyPacUrl
      kJSONProxyBypassList kJSONProxyServer
      GURL_of_string ParseFromString ParseNoProxyList dict pc in
  let applies := bool_decide (GetBoolean dict kJSONProxyNoProxy = None) in
  auto_detect populated =
    auto_detect pc ||
    (applies && bool_decide (is_Some (GetBoolean dict kJSONProxyAutoconfig))) /\
  pac_url populated =
    match GetString dict kJSONProxyPacUrl with
    | Some url => if applies then GURL_of_string url else pac_url pc
    | None => pac_url pc
    end /\
  proxy_bypass populated =
    match GetString dict kJSONProxyBypassList with
    | Some l => if applies then ParseNoProxyList l (proxy_bypass pc)
                else proxy_bypass pc
    | None => proxy_bypass pc
    end /\
  proxy_rules populated =
    match GetString dict kJSONProxyServer with
    | Some server => if applies then ParseFromString server (proxy_rules pc)
                     else proxy_rules pc
    | None => proxy_rules pc
    end.
Proof.
  unfold PopulateProxyConfig.
  destruct (GetBoolean dict kJSONProxyNoProxy) as [no_proxy|]; cbn.
  - rewrite orb_false_r.
    destruct (GetString dict kJSONProxyPacUrl),
      (GetString dict kJSONProxyBypassList),
      (GetString dict kJSONProxyServer); done.
  - destruct (GetBoolean dict kJSONProxyAutoconfig) as [auto_config|],
      (GetString dict kJSONProxyPacUrl),
      (GetString dict kJSONProxyBypassList),
      (GetString dict kJSONProxyServer); cbn;
      rewrite ?orb_true_r, ?orb_false_r; done.
Qed.

End ProxyFieldProperties.

Lemma proxy_keys_act_on_their_own_field_witness :
  Sample.Populate sample_autoconfig_off_dict Sample.fresh_config
    = SetProxyConfigTask.mkProxyConfig true "" "proxy.test:8080" [] /\
  SetProxyConfigTask.auto_detect
    (Sample.Populate sample_autoconfig_off_dict Sample.existing_config) = true.
Proof.
  split.
  - reflexivity.
  - destruct (proxy_keys_act_on_their_own_field
                "no_proxy" "auto_detect" "pac_url" "bypass_list" "proxy_server"
                string string (list string)
                (fun s => s) (fun s _ => s) (fun s _ => [s])
                sample_autoconfig_off_dict Sample.existing_config)
      as (H & _).
    exact H.
Defined.

Lemma Remove_lookup tr h r h' :
  HandleTracker.wf tr ->
  HandleTracker.GetResource h tr = Some r ->
  HandleTracker.GetResource h' (HandleTracker.Remove r tr) =
    if bool_decide (h' = h) then None else HandleTracker.GetResource h' tr.
Proof.
  intros [Hinv _] Hh. unfold HandleTracker.GetResource in *.
  unfold HandleTracker.Remove. apply Hinv in Hh. rewrite Hh. cbn.
  case_bool_decide as E.
  - subst. apply lookup_delete_eq.
  - by apply lookup_delete_ne.
Qed.

(** X19. [HandleUnused] always returns and changes nothing but the
    window tracker: afterwards the tracker does not contain the handle,
    every other handle has the window it had, and at a handle that was
    not tracked nothing has changed at all. *)
Theorem handle_unused_forgets_only_that_handle (w : World) (handle : Z) :
  HandleTracker.wf (window_tracker_ w) ->
  exists w',
    HandleUnused handle w = Some (tt, w') /\
    w' = set_window_tracker_ (window_tracker_ w') w /\
    HandleTracker.wf (window_tracker_ w') /\
    HandleTracker.ContainsHandle handle (window_tracker_ w') = false /\
    (forall h, h <> handle ->
       HandleTracker.GetResource h (window_tracker_ w')
         = HandleTracker.GetResource h (window_tracker_ w)) /\
    (HandleTracker.ContainsHandle handle (window_tracker_ w) = false ->
     w' = w).
Proof.
  intros Hwf. unfold HandleUnused. exec_unfold.
  destruct (HandleTracker.ContainsHandle handle (window_tracker_ w)) eqn:Ht.
  - unfold HandleTracker.ContainsHandle in Ht.
    apply bool_decide_eq_true in Ht as [r Hr].
    change (HandleTracker.GetResource handle (window_tracker_ w) = Some r)
      in Hr.
    rewrite Hr.
    eexists. split; [reflexivity|].
    change (window_tracker_ (set_window_tracker_ ?x w)) with x.
    split; [by destruct w|]. split; [by apply HandleTrackerFacts.wf_Remove|].
    split; [|split; [|done]].
    + unfold HandleTracker.ContainsHandle. apply bool_decide_eq_false.
      pose proof (Remove_lookup _ handle r handle Hwf Hr) as E.
      rewrite bool_decide_eq_true_2 in E by done.
      unfold HandleTracker.GetResource in E. rewrite E. by intros [? ?].
    + intros h Hne. rewrite (Remove_lookup _ handle r h Hwf Hr).
      by rewrite bool_decide_eq_false_2.
  - exists w. split; [done|]. split; [by destruct w|]. split; [done|].
    split; [done|]. split; done.
Qed.

Lemma handle_unused_forgets_only_that_handle_witness :
  exists w1 w2,
    GetWindowForBrowser 1 sample_provider = Some ((true, 1), w1) /\
    HandleUnused 1 w1 = Some (tt, w2) /\
    HandleTracker.ContainsHandle 1 (window_tracker_ w2) = false.
Proof.
  pose (w1 := set_window_tracker_
                (snd (HandleTracker.Add 100 HandleTracker.empty))
                sample_provider).
  destruct (handle_unused_forgets_only_that_handle w1 1)
    as (w2 & E & _ & _ & C & _).
  - exact (HandleTrackerFacts.wf_Add 100 _ HandleTrackerFacts.wf_empty).
  - exists w1, w2. split; [reflexivity|]. split; [exact E|exact C].
Defined.
